(** * Solaris6K: approximate positions of the major planets

    A shallow embedding of [Constants.py], [Solaris6K.py] and [solaris_6k.py].

    The program computes with numpy [float64] values.  Two readings of it are
    given, each transcribed function by function from the source:

    - [Constants], [Solaris6K], [solaris_6k] and [Heap]: the binary64 reading.
      Numbers are Rocq's primitive floats (IEEE 754 binary64, the very format
      of [numpy.float64]), so [+], [-], [*], [/], [abs], [sqrt] and the
      comparisons are the operations the interpreter executes, [inf] and
      [nan] included.  numpy's other routines ([sin], [cos], [arcsin],
      [arccos], [deg2rad], [rad2deg], the power of two scalars) are not part
      of the repository: they are the fields of a record [numpy] the
      functions take.  [Heap] adds the identity of arrays: which statement
      builds a new array and which writes into an old one.
    - [Exact]: the exact reading, over the real numbers, with the mathematical
      sine, cosine, arcsine, arccosine and square root.  It is used where a
      statement is about the angles, the distances or the dates
      themselves. *)

From Stdlib Require Import String Floats List Bool Arith Lia.
From Stdlib Require Import Reals Lra.
Import ListNotations.

Set Warnings "-inexact-float".

(** ** Arrays *)

(** A one-dimensional [numpy.ndarray] of [float64] is a list; an array of
    shape (n, 3), as built by [numpy.column_stack], is a list of rows.
    Element-wise operators pair the operands position by position ([map2]).
    That is what numpy does on operands of one length, and every call site
    of the program passes such operands: one entry per body.  On operands
    of different lengths numpy repeats an operand of length 1 and raises
    [ValueError] otherwise, which [map2] does not follow; the facts on the
    array a function returns are stated for operands of one length. *)

Fixpoint map2 {A B C : Type} (f : A -> B -> C) (l1 : list A) (l2 : list B) : list C :=
  match l1, l2 with
  | a :: l1', b :: l2' => f a b :: map2 f l1' l2'
  | _, _ => []
  end.

Definition row (A : Type) : Type := (A * A * A)%type.

Fixpoint column_stack {A : Type} (c1 c2 c3 : list A) : list (row A) :=
  match c1, c2, c3 with
  | a :: c1', b :: c2', c :: c3' => (a, b, c) :: column_stack c1' c2' c3'
  | _, _, _ => []
  end.

(** Python's exceptions: the program raises only [ValueError]. *)
Inductive exception : Type :=
| ValueError (msg : string).

Inductive result (A : Type) : Type :=
| Return (a : A)
| Raise (e : exception).
Arguments Return {A} a.
Arguments Raise {A} e.

(** Sequencing: the rest of a function runs only if no exception was
    raised. *)
Definition and_then {A B : Type} (r : result A) (k : A -> result B) : result B :=
  match r with
  | Return a => k a
  | Raise e => Raise e
  end.

(** A [while] loop run for at most [fuel] passes: [test] is evaluated before
    each pass of [body].  The value is the state reached, the number of
    passes made, and whether the loop ended ([test] failed) or the fuel ran
    out first. *)
Fixpoint while {S : Type} (fuel : nat) (test : S -> bool) (body : S -> S) (s : S)
  : S * nat * bool :=
  if test s then
    match fuel with
    | O => (s, O, false)
    | Datatypes.S fuel' =>
        let '(s', n, ended) := while fuel' test body (body s) in
        (s', Datatypes.S n, ended)
    end
  else (s, O, true).

(** ** Constants.py *)

Module Constants.
Local Open Scope float_scope.

Definition SEMI_MAJOR_AXES : list float :=
  [0.38709843; 0.72332102; 1.00000018; 1.52371234; 5.20248019;
   9.54149883; 19.18797948; 30.06952752; 39.48686035].

Definition SEMI_MAJOR_AXES_RATE : list float :=
  [0.00000000; -0.00000026; -0.00000003; 0.00000097; -0.00002864;
   -0.00003065; -0.00020455; 0.00006447; 0.00449751].

Definition ECCENTRICITIES : list float :=
  [0.20563661; 0.00676399; 0.01673163; 0.09336511; 0.04853590;
   0.05550825; 0.04685740; 0.00895439; 0.24885238].

Definition ECCENTRICITIES_RATE : list float :=
  [0.00002123; -0.00005107; -0.00003661; 0.00009149; -0.00018026;
   -0.00032044; -0.00001550; 0.00000818; 0.00006026].

Definition INCLINATIONS : list float :=
  [7.00559432; 3.39777545; -0.00054346; 1.85181869; 1.29861416;
   2.49424102; 0.77298127; 1.77005520; 17.14104260].

Definition INCLINATIONS_RATE : list float :=
  [-0.00590158; 0.00043494; -0.01337178; -0.00724757; -0.00322699;
   0.00451969; -0.00180155; 0.00022400; 0.00000501].

Definition MEAN_LONGITUDES : list float :=
  [252.25166724; 181.97970850; 100.46691572; -4.56813164; 34.33479152;
   50.07571329; 314.20276625; 304.22289287; 238.96535011].

Definition MEAN_LONGITUDES_RATE : list float :=
  [149472.67486623; 58517.81560260; 35999.37306329; 19140.29934243;
   3034.90371757; 1222.11494724; 428.49512595; 218.46515314; 145.18042903].

Definition PERIHELION_LONGITUDES : list float :=
  [77.45771895; 131.76755713; 102.93005885; -23.91744784; 14.27495244;
   92.86136063; 172.43404441; 46.68158724; 224.09702598].

Definition PERIHELION_LONGITUDES_RATE : list float :=
  [0.15940013; 0.05679648; 0.31795260; 0.45223625; 0.18199196;
   0.54179478; 0.09266985; 0.01009938; -0.00968827].

Definition ASCENDING_NODE_LONGITUDES : list float :=
  [48.33961819; 76.67261496; -5.11260389; 49.71320984; 100.29282654;
   113.63998702; 73.96250215; 131.78635853; 110.30167986].

Definition ASCENDING_NODE_LONGITUDES_RATE : list float :=
  [-0.12214182; -0.27274174; -0.24123856; -0.26852431; 0.13024619;
   -0.25015002; 0.05739699; -0.00606302; -0.00809981].

Definition TERM_B : list float :=
  [0; 0; 0; 0; -0.00012452; 0.00025899; 0.00058331; -0.00041348; -0.01262724].

Definition TERM_C : list float :=
  [0; 0; 0; 0; 0.06064060; -0.13434469; -0.97731848; 0.68346318; 0].

Definition TERM_S : list float :=
  [0; 0; 0; 0; -0.35635438; 0.87320147; 0.17689245; -0.10162547; 0].

Definition TERM_F : list float :=
  [0; 0; 0; 0; 38.35125000; 38.35125000; 7.67025000; 7.67025000; 0].

Definition J2000_0 : float := 2451545.0.
Definition CONVERSION_FACTOR : float := 36525.
(** [numpy.pi] is the binary64 number nearest to pi. *)
Definition numpy_pi : float := 0x1.921fb54442d18p+1.
Definition ECCENTRICITIY_FACTOR : float := 180 / numpy_pi.
Definition TOL : float := 10E-8.
Definition OBLIQUITY : float := 23.43928.

End Constants.

(** ** numpy *)

(** The routines of numpy the program calls and the repository does not
    contain; [np_power] is [**] on two [float64] scalars.  [numpy.sqrt] on
    [float64] is the IEEE 754 square root, and [**] with the exponent 2 on
    an array is the element-wise product of the array with itself: they need
    no field. *)
Record numpy : Type := {
  np_sin : float -> float;
  np_cos : float -> float;
  np_arcsin : float -> float;
  np_arccos : float -> float;
  np_deg2rad : float -> float;
  np_rad2deg : float -> float;
  np_power : float -> float -> float
}.

Declare Scope array_scope.
Delimit Scope array_scope with arr.

(** numpy's element-wise operators: array with array, array with scalar
    and scalar with array. *)
Definition add (a b : list float) : list float := map2 PrimFloat.add a b.
Definition sub (a b : list float) : list float := map2 PrimFloat.sub a b.
Definition mul (a b : list float) : list float := map2 PrimFloat.mul a b.
Definition div (a b : list float) : list float := map2 PrimFloat.div a b.
Definition neg (a : list float) : list float := map PrimFloat.opp a.
Definition scale (a : list float) (s : float) : list float :=
  map (fun x => PrimFloat.mul x s) a.
Definition rsub (s : float) (a : list float) : list float :=
  map (fun x => PrimFloat.sub s x) a.

Notation "a +^ b" := (add a b) (at level 50, left associativity) : array_scope.
Notation "a -^ b" := (sub a b) (at level 50, left associativity) : array_scope.
Notation "a *^ b" := (mul a b) (at level 40, left associativity) : array_scope.
Notation "a /^ b" := (div a b) (at level 40, left associativity) : array_scope.
Notation "-^ a" := (neg a) (at level 35, right associativity) : array_scope.

(** An operand of a comparison: a [float64] scalar, which broadcasts
    against an array, or an array. *)
Inductive operand : Type :=
| Scalar (x : float)
| Array (v : list float).

(** [x > tol] for an array [tol], as an array of booleans ([d > t] is
    [t < d]).  The array case is that of two arrays of one length, one
    delta and one tolerance per body, as [main] calls the solver. *)
Definition np_greater (x : operand) (tol : list float) : list bool :=
  match x with
  | Scalar d => map (fun t => PrimFloat.ltb t d) tol
  | Array v => map2 (fun d t => PrimFloat.ltb t d) v tol
  end.

(** Python's builtin [any]. *)
Definition any (bs : list bool) : bool := existsb (fun b => b) bs.

(** [[c for num in enumerate(v)]] as a [float64] array. *)
Definition full_like (v : list float) (c : float) : list float := map (fun _ => c) v.

(** Arrays of shape (n, 3): the element-wise product, [numpy.sum(_, axis=1)]
    and the product of a 3 x 3 matrix with every row
    ([numpy.dot(m, a.T).T]).  The three terms of a sum are added from left
    to right. *)
Definition mul_rows (h m : list (row float)) : list (row float) :=
  map2 (fun '(hx, hy, hz) '(mx, my, mz) =>
          (PrimFloat.mul hx mx, PrimFloat.mul hy my, PrimFloat.mul hz mz)) h m.

Definition sum_axis1 (a : list (row float)) : list float :=
  map (fun '(x, y, z) => PrimFloat.add (PrimFloat.add x y) z) a.

Definition dot3 (r v : row float) : float :=
  let '(a, b, c) := r in
  let '(x, y, z) := v in
  PrimFloat.add (PrimFloat.add (PrimFloat.mul a x) (PrimFloat.mul b y)) (PrimFloat.mul c z).

Definition dot_rows (m : row (row float)) (a : list (row float)) : list (row float) :=
  let '(r1, r2, r3) := m in
  map (fun v => (dot3 r1 v, dot3 r2 v, dot3 r3 v)) a.

(** The local variables the loop of [get_eccentric_anomaly] reads and
    writes. *)
Record solver_state : Type := {
  eccentric_anomaly : list float;
  eccentric_anomaly_delta : operand
}.

(** ** Solaris6K.py *)

Module Solaris6K.
Local Open Scope float_scope.
Local Open Scope array_scope.

Section WithNumpy.
Variable np : numpy.

Definition sin_wrapper (theta : float) : float := np_sin np (np_deg2rad np theta).

Definition arcsin_wrapper (num : float) : float := np_rad2deg np (np_arcsin np num).

Definition cos_wrapper (theta : float) : float := np_cos np (np_deg2rad np theta).

Definition arccos_wrapper (num : float) : float := np_rad2deg np (np_arccos np num).

(** The wrappers called on an array: numpy's routines map over it. *)
Definition sin_wrapper_a (theta : list float) : list float :=
  map (np_sin np) (map (np_deg2rad np) theta).

Definition arcsin_wrapper_a (num : list float) : list float :=
  map (np_rad2deg np) (map (np_arcsin np) num).

Definition cos_wrapper_a (theta : list float) : list float :=
  map (np_cos np) (map (np_deg2rad np) theta).

Definition get_century (jd_time : float) : result float :=
  let num_century := (jd_time - Constants.J2000_0) / Constants.CONVERSION_FACTOR in
  if 30 <? abs num_century
  then Raise (ValueError "Date is outside of scope (3000 BCE to 3000 CE).")
  else Return num_century.

Definition get_current_value (base_value rate : list float) (time : float) : list float :=
  base_value +^ scale rate time.

Definition get_perihelion_argument (perihelion_longitude ascending_node_longitude : list float)
  : list float :=
  perihelion_longitude -^ ascending_node_longitude.

(** The tuple [additional_terms], unpacked as
    [term_b, term_c, term_s, term_f]. *)
Definition terms : Type := (list float * list float * list float * list float)%type.

(** [mean_anomaly] is bound to the fresh array [mean_longitude -
    perihelion_longitude] and updated three times by [+=]; [time] is a
    [float64] scalar. *)
Definition get_mean_anomaly (mean_longitude perihelion_longitude : list float)
    (additional_terms : terms) (time : float) : list float :=
  let '(term_b, term_c, term_s, term_f) := additional_terms in
  let mean_anomaly := mean_longitude -^ perihelion_longitude in
  let mean_anomaly := mean_anomaly +^ scale term_b (np_power np time 2) in
  let mean_anomaly := mean_anomaly +^ term_c *^ map (np_cos np) (scale term_f time) in
  let mean_anomaly := mean_anomaly +^ term_s *^ map (np_sin np) (scale term_f time) in
  arcsin_wrapper_a (sin_wrapper_a mean_anomaly).

(** The locals of [get_eccentric_anomaly] as the loop is reached. *)
Definition solver_init (mean_anomaly term_e : list float) : solver_state :=
  {| eccentric_anomaly := mean_anomaly +^ term_e *^ sin_wrapper_a mean_anomaly;
     eccentric_anomaly_delta := Scalar infinity |}.

(** The loop's test, [any(eccentric_anomaly_delta > tol)], and its body. *)
Definition solver_test (tol : list float) (s : solver_state) : bool :=
  any (np_greater (eccentric_anomaly_delta s) tol).

Definition solver_body (mean_anomaly eccentricity term_e : list float) (s : solver_state)
  : solver_state :=
  let mean_anomaly_delta :=
    mean_anomaly
    -^ (eccentric_anomaly s -^ term_e *^ sin_wrapper_a (eccentric_anomaly s)) in
  let delta :=
    mean_anomaly_delta
    /^ rsub 1 (eccentricity *^ cos_wrapper_a (eccentric_anomaly s)) in
  {| eccentric_anomaly := eccentric_anomaly s +^ delta;
     eccentric_anomaly_delta := Array delta |}.

(** [get_eccentric_anomaly] up to the end of its loop. *)
Definition solver_run (fuel : nat) (mean_anomaly eccentricity tol : list float)
  : solver_state * nat * bool :=
  let term_e := scale eccentricity Constants.ECCENTRICITIY_FACTOR in
  while fuel (solver_test tol) (solver_body mean_anomaly eccentricity term_e)
        (solver_init mean_anomaly term_e).

(** [None]: the loop did not end within [fuel] passes. *)
Definition get_eccentric_anomaly (fuel : nat) (mean_anomaly eccentricity tol : list float)
  : option (list float) :=
  let '(s, _, ended) := solver_run fuel mean_anomaly eccentricity tol in
  if ended then Some (eccentric_anomaly s) else None.

Definition get_ecliptic_coordinate (heliocentric_coordinate : list (row float))
    (perihelion_argument ascending_node_longitude inclination : list float)
  : list (row float) :=
  let ecliptic_x_matrix :=
    column_stack
      (cos_wrapper_a perihelion_argument *^ cos_wrapper_a ascending_node_longitude
       -^ sin_wrapper_a perihelion_argument *^ sin_wrapper_a ascending_node_longitude
          *^ cos_wrapper_a inclination)
      (-^ sin_wrapper_a perihelion_argument *^ cos_wrapper_a ascending_node_longitude
       -^ cos_wrapper_a perihelion_argument *^ sin_wrapper_a ascending_node_longitude
          *^ cos_wrapper_a inclination)
      (full_like perihelion_argument 0) in
  let ecliptic_y_matrix :=
    column_stack
      (cos_wrapper_a perihelion_argument *^ sin_wrapper_a ascending_node_longitude
       +^ sin_wrapper_a perihelion_argument *^ cos_wrapper_a ascending_node_longitude
          *^ cos_wrapper_a inclination)
      (-^ sin_wrapper_a perihelion_argument *^ sin_wrapper_a ascending_node_longitude
       +^ cos_wrapper_a perihelion_argument *^ cos_wrapper_a ascending_node_longitude
          *^ cos_wrapper_a inclination)
      (full_like perihelion_argument 0) in
  let ecliptic_z_matrix :=
    column_stack
      (sin_wrapper_a perihelion_argument *^ sin_wrapper_a inclination)
      (cos_wrapper_a perihelion_argument *^ sin_wrapper_a inclination)
      (full_like perihelion_argument 0) in
  column_stack
    (sum_axis1 (mul_rows heliocentric_coordinate ecliptic_x_matrix))
    (sum_axis1 (mul_rows heliocentric_coordinate ecliptic_y_matrix))
    (sum_axis1 (mul_rows heliocentric_coordinate ecliptic_z_matrix)).

(** The array [heliocentric_coordinates] that [main] builds in line.
    [eccentricities ** 2] on an array is the element-wise square. *)
Definition heliocentric_coordinates
    (semi_major_axes eccentricities eccentric_anomalies mean_anomalies : list float)
  : list (row float) :=
  column_stack
    (semi_major_axes *^ (cos_wrapper_a eccentric_anomalies -^ eccentricities))
    (semi_major_axes
     *^ map PrimFloat.sqrt (rsub 1 (eccentricities *^ eccentricities))
     *^ sin_wrapper_a eccentric_anomalies)
    (full_like mean_anomalies 0).

Definition eq_matrix : row (row float) :=
  ((1, 0, 0),
   (0, cos_wrapper Constants.OBLIQUITY, - sin_wrapper Constants.OBLIQUITY),
   (0, sin_wrapper Constants.OBLIQUITY, cos_wrapper Constants.OBLIQUITY)).

(** The body of [main] from the Julian date [time] on; the value is the
    matrix [main] prints.  [Return None]: the solver's loop did not end
    within [fuel] passes. *)
Definition main_at (fuel : nat) (time : float) : result (option (list (row float))) :=
  and_then (get_century time) (fun century_since_epoch =>
  let semi_major_axes :=
    get_current_value Constants.SEMI_MAJOR_AXES Constants.SEMI_MAJOR_AXES_RATE
                      century_since_epoch in
  let eccentricities :=
    get_current_value Constants.ECCENTRICITIES Constants.ECCENTRICITIES_RATE
                      century_since_epoch in
  let inclinations :=
    get_current_value Constants.INCLINATIONS Constants.INCLINATIONS_RATE
                      century_since_epoch in
  let mean_longitudes :=
    get_current_value Constants.MEAN_LONGITUDES Constants.MEAN_LONGITUDES_RATE
                      century_since_epoch in
  let perihelion_longitudes :=
    get_current_value Constants.PERIHELION_LONGITUDES Constants.PERIHELION_LONGITUDES_RATE
                      century_since_epoch in
  let ascending_node_longitudes :=
    get_current_value Constants.ASCENDING_NODE_LONGITUDES
                      Constants.ASCENDING_NODE_LONGITUDES_RATE century_since_epoch in
  let perihelion_arguments :=
    get_perihelion_argument perihelion_longitudes ascending_node_longitudes in
  let mean_anomalies :=
    get_mean_anomaly mean_longitudes perihelion_longitudes
      (Constants.TERM_B, Constants.TERM_C, Constants.TERM_S, Constants.TERM_F)
      century_since_epoch in
  Return
    (option_map
       (fun eccentric_anomalies =>
          let heliocentric :=
            heliocentric_coordinates semi_major_axes eccentricities eccentric_anomalies
                                     mean_anomalies in
          let ecliptic_coordinates :=
            get_ecliptic_coordinate heliocentric perihelion_arguments
                                    ascending_node_longitudes inclinations in
          dot_rows eq_matrix ecliptic_coordinates)
       (get_eccentric_anomaly fuel mean_anomalies eccentricities
          (full_like mean_anomalies Constants.TOL)))).

Definition main (fuel : nat) : result (option (list (row float))) :=
  main_at fuel 2451545.0.

End WithNumpy.
End Solaris6K.

(** ** solaris_6k.py *)

(** [solaris_6k.py] imports a module [constants]; the repository holds
    [Constants.py] only.  The names the file reads from [constants] are the
    fields of a record. *)
Record constants_module : Type := {
  SEMI_MAJOR_AXES : list float;
  SEMI_MAJOR_AXES_RATE : list float;
  ECCENTRICITIES : list float;
  ECCENTRICITIES_RATE : list float;
  INCLINATIONS : list float;
  INCLINATIONS_RATE : list float;
  MEAN_LONGITUDES : list float;
  MEAN_LONGITUDES_RATE : list float;
  PERIHELION_LONGITUDES : list float;
  PERIHELION_LONGITUDES_RATE : list float;
  ASCENDING_NODE_LONGITUDES : list float;
  ASCENDING_NODE_LONGITUDES_RATE : list float;
  TERM_B : list float;
  TERM_C : list float;
  TERM_S : list float;
  TERM_F : list float;
  J2000_0 : float;
  CONVERSION_FACTOR : float;
  ECCENTRICITIY_FACTOR : float;
  TOL : float;
  OBLIQUITY : float
}.

(** [Constants.py] read as such a module: what [constants] would be if it
    bound every name as [Constants.py] does.  Whether it does is not known
    from the repository, and every fact that takes [constants] to be this
    module says so. *)
Definition Constants_py : constants_module := {|
  SEMI_MAJOR_AXES := Constants.SEMI_MAJOR_AXES;
  SEMI_MAJOR_AXES_RATE := Constants.SEMI_MAJOR_AXES_RATE;
  ECCENTRICITIES := Constants.ECCENTRICITIES;
  ECCENTRICITIES_RATE := Constants.ECCENTRICITIES_RATE;
  INCLINATIONS := Constants.INCLINATIONS;
  INCLINATIONS_RATE := Constants.INCLINATIONS_RATE;
  MEAN_LONGITUDES := Constants.MEAN_LONGITUDES;
  MEAN_LONGITUDES_RATE := Constants.MEAN_LONGITUDES_RATE;
  PERIHELION_LONGITUDES := Constants.PERIHELION_LONGITUDES;
  PERIHELION_LONGITUDES_RATE := Constants.PERIHELION_LONGITUDES_RATE;
  ASCENDING_NODE_LONGITUDES := Constants.ASCENDING_NODE_LONGITUDES;
  ASCENDING_NODE_LONGITUDES_RATE := Constants.ASCENDING_NODE_LONGITUDES_RATE;
  TERM_B := Constants.TERM_B;
  TERM_C := Constants.TERM_C;
  TERM_S := Constants.TERM_S;
  TERM_F := Constants.TERM_F;
  J2000_0 := Constants.J2000_0;
  CONVERSION_FACTOR := Constants.CONVERSION_FACTOR;
  ECCENTRICITIY_FACTOR := Constants.ECCENTRICITIY_FACTOR;
  TOL := Constants.TOL;
  OBLIQUITY := Constants.OBLIQUITY
|}.

(** A module [constants] that differs from [c] in the name [J2000_0]
    only. *)
Definition with_J2000_0 (c : constants_module) (epoch : float) : constants_module := {|
  SEMI_MAJOR_AXES := SEMI_MAJOR_AXES c;
  SEMI_MAJOR_AXES_RATE := SEMI_MAJOR_AXES_RATE c;
  ECCENTRICITIES := ECCENTRICITIES c;
  ECCENTRICITIES_RATE := ECCENTRICITIES_RATE c;
  INCLINATIONS := INCLINATIONS c;
  INCLINATIONS_RATE := INCLINATIONS_RATE c;
  MEAN_LONGITUDES := MEAN_LONGITUDES c;
  MEAN_LONGITUDES_RATE := MEAN_LONGITUDES_RATE c;
  PERIHELION_LONGITUDES := PERIHELION_LONGITUDES c;
  PERIHELION_LONGITUDES_RATE := PERIHELION_LONGITUDES_RATE c;
  ASCENDING_NODE_LONGITUDES := ASCENDING_NODE_LONGITUDES c;
  ASCENDING_NODE_LONGITUDES_RATE := ASCENDING_NODE_LONGITUDES_RATE c;
  TERM_B := TERM_B c;
  TERM_C := TERM_C c;
  TERM_S := TERM_S c;
  TERM_F := TERM_F c;
  J2000_0 := epoch;
  CONVERSION_FACTOR := CONVERSION_FACTOR c;
  ECCENTRICITIY_FACTOR := ECCENTRICITIY_FACTOR c;
  TOL := TOL c;
  OBLIQUITY := OBLIQUITY c
|}.

Module solaris_6k.
Local Open Scope float_scope.
Local Open Scope array_scope.

Section WithNumpy.
Variable np : numpy.
Variable constants : constants_module.

Definition sin_wrapper (theta : float) : float := np_sin np (np_deg2rad np theta).

Definition arcsin_wrapper (num : float) : float := np_rad2deg np (np_arcsin np num).

Definition cos_wrapper (theta : float) : float := np_cos np (np_deg2rad np theta).

Definition arccos_wrapper (num : float) : float := np_rad2deg np (np_arccos np num).

(** The wrappers called on an array: numpy's routines map over it. *)
Definition sin_wrapper_a (theta : list float) : list float :=
  map (np_sin np) (map (np_deg2rad np) theta).

Definition arcsin_wrapper_a (num : list float) : list float :=
  map (np_rad2deg np) (map (np_arcsin np) num).

Definition cos_wrapper_a (theta : list float) : list float :=
  map (np_cos np) (map (np_deg2rad np) theta).

Definition get_century (jd_time : float) : result float :=
  let num_century := (jd_time - constants.(J2000_0)) / constants.(CONVERSION_FACTOR) in
  if 30 <? abs num_century
  then Raise (ValueError "Date is outside of scope (3000 BCE to 3000 CE).")
  else Return num_century.

Definition get_current_value (base_value rate : list float) (time : float) : list float :=
  base_value +^ scale rate time.

Definition get_perihelion_argument (perihelion_longitude ascending_node_longitude : list float)
  : list float :=
  perihelion_longitude -^ ascending_node_longitude.

(** The tuple [additional_terms], unpacked as
    [term_b, term_c, term_s, term_f]. *)
Definition terms : Type := (list float * list float * list float * list float)%type.

(** [mean_anomaly] is bound to the fresh array [mean_longitude -
    perihelion_longitude] and updated three times by [+=]; [time] is a
    [float64] scalar. *)
Definition get_mean_anomaly (mean_longitude perihelion_longitude : list float)
    (additional_terms : terms) (time : float) : list float :=
  let '(term_b, term_c, term_s, term_f) := additional_terms in
  let mean_anomaly := mean_longitude -^ perihelion_longitude in
  let mean_anomaly := mean_anomaly +^ scale term_b (np_power np time 2) in
  let mean_anomaly := mean_anomaly +^ term_c *^ map (np_cos np) (scale term_f time) in
  let mean_anomaly := mean_anomaly +^ term_s *^ map (np_sin np) (scale term_f time) in
  arcsin_wrapper_a (sin_wrapper_a mean_anomaly).

(** The locals of [get_eccentric_anomaly] as the loop is reached. *)
Definition solver_init (mean_anomaly term_e : list float) : solver_state :=
  {| eccentric_anomaly := mean_anomaly +^ term_e *^ sin_wrapper_a mean_anomaly;
     eccentric_anomaly_delta := Scalar infinity |}.

(** The loop's test, [any(eccentric_anomaly_delta > tol)], and its body. *)
Definition solver_test (tol : list float) (s : solver_state) : bool :=
  any (np_greater (eccentric_anomaly_delta s) tol).

Definition solver_body (mean_anomaly eccentricity term_e : list float) (s : solver_state)
  : solver_state :=
  let mean_anomaly_delta :=
    mean_anomaly
    -^ (eccentric_anomaly s -^ term_e *^ sin_wrapper_a (eccentric_anomaly s)) in
  let delta :=
    mean_anomaly_delta
    /^ rsub 1 (eccentricity *^ cos_wrapper_a (eccentric_anomaly s)) in
  {| eccentric_anomaly := eccentric_anomaly s +^ delta;
     eccentric_anomaly_delta := Array delta |}.

(** [get_eccentric_anomaly] up to the end of its loop. *)
Definition solver_run (fuel : nat) (mean_anomaly eccentricity tol : list float)
  : solver_state * nat * bool :=
  let term_e := scale eccentricity constants.(ECCENTRICITIY_FACTOR) in
  while fuel (solver_test tol) (solver_body mean_anomaly eccentricity term_e)
        (solver_init mean_anomaly term_e).

(** [None]: the loop did not end within [fuel] passes. *)
Definition get_eccentric_anomaly (fuel : nat) (mean_anomaly eccentricity tol : list float)
  : option (list float) :=
  let '(s, _, ended) := solver_run fuel mean_anomaly eccentricity tol in
  if ended then Some (eccentric_anomaly s) else None.

Definition get_ecliptic_coordinate (heliocentric_coordinate : list (row float))
    (perihelion_argument ascending_node_longitude inclination : list float)
  : list (row float) :=
  let ecliptic_x_matrix :=
    column_stack
      (cos_wrapper_a perihelion_argument *^ cos_wrapper_a ascending_node_longitude
       -^ sin_wrapper_a perihelion_argument *^ sin_wrapper_a ascending_node_longitude
          *^ cos_wrapper_a inclination)
      (-^ sin_wrapper_a perihelion_argument *^ cos_wrapper_a ascending_node_longitude
       -^ cos_wrapper_a perihelion_argument *^ sin_wrapper_a ascending_node_longitude
          *^ cos_wrapper_a inclination)
      (full_like perihelion_argument 0) in
  let ecliptic_y_matrix :=
    column_stack
      (cos_wrapper_a perihelion_argument *^ sin_wrapper_a ascending_node_longitude
       +^ sin_wrapper_a perihelion_argument *^ cos_wrapper_a ascending_node_longitude
          *^ cos_wrapper_a inclination)
      (-^ sin_wrapper_a perihelion_argument *^ sin_wrapper_a ascending_node_longitude
       +^ cos_wrapper_a perihelion_argument *^ cos_wrapper_a ascending_node_longitude
          *^ cos_wrapper_a inclination)
      (full_like perihelion_argument 0) in
  let ecliptic_z_matrix :=
    column_stack
      (sin_wrapper_a perihelion_argument *^ sin_wrapper_a inclination)
      (cos_wrapper_a perihelion_argument *^ sin_wrapper_a inclination)
      (full_like perihelion_argument 0) in
  column_stack
    (sum_axis1 (mul_rows heliocentric_coordinate ecliptic_x_matrix))
    (sum_axis1 (mul_rows heliocentric_coordinate ecliptic_y_matrix))
    (sum_axis1 (mul_rows heliocentric_coordinate ecliptic_z_matrix)).

(** The array [heliocentric_coordinates] that [main] builds in line.
    [eccentricities ** 2] on an array is the element-wise square. *)
Definition heliocentric_coordinates
    (semi_major_axes eccentricities eccentric_anomalies mean_anomalies : list float)
  : list (row float) :=
  column_stack
    (semi_major_axes *^ (cos_wrapper_a eccentric_anomalies -^ eccentricities))
    (semi_major_axes
     *^ map PrimFloat.sqrt (rsub 1 (eccentricities *^ eccentricities))
     *^ sin_wrapper_a eccentric_anomalies)
    (full_like mean_anomalies 0).

Definition eq_matrix : row (row float) :=
  ((1, 0, 0),
   (0, cos_wrapper constants.(OBLIQUITY), - sin_wrapper constants.(OBLIQUITY)),
   (0, sin_wrapper constants.(OBLIQUITY), cos_wrapper constants.(OBLIQUITY))).

(** The body of [main] from the Julian date [time] on; the value is the
    matrix [main] prints.  [Return None]: the solver's loop did not end
    within [fuel] passes. *)
Definition main_at (fuel : nat) (time : float) : result (option (list (row float))) :=
  and_then (get_century time) (fun century_since_epoch =>
  let semi_major_axes :=
    get_current_value constants.(SEMI_MAJOR_AXES) constants.(SEMI_MAJOR_AXES_RATE)
                      century_since_epoch in
  let eccentricities :=
    get_current_value constants.(ECCENTRICITIES) constants.(ECCENTRICITIES_RATE)
                      century_since_epoch in
  let inclinations :=
    get_current_value constants.(INCLINATIONS) constants.(INCLINATIONS_RATE)
                      century_since_epoch in
  let mean_longitudes :=
    get_current_value constants.(MEAN_LONGITUDES) constants.(MEAN_LONGITUDES_RATE)
                      century_since_epoch in
  let perihelion_longitudes :=
    get_current_value constants.(PERIHELION_LONGITUDES) constants.(PERIHELION_LONGITUDES_RATE)
                      century_since_epoch in
  let ascending_node_longitudes :=
    get_current_value constants.(ASCENDING_NODE_LONGITUDES)
                      constants.(ASCENDING_NODE_LONGITUDES_RATE) century_since_epoch in
  let perihelion_arguments :=
    get_perihelion_argument perihelion_longitudes ascending_node_longitudes in
  let mean_anomalies :=
    get_mean_anomaly mean_longitudes perihelion_longitudes
      (constants.(TERM_B), constants.(TERM_C), constants.(TERM_S), constants.(TERM_F))
      century_since_epoch in
  Return
    (option_map
       (fun eccentric_anomalies =>
          let heliocentric :=
            heliocentric_coordinates semi_major_axes eccentricities eccentric_anomalies
                                     mean_anomalies in
          let ecliptic_coordinates :=
            get_ecliptic_coordinate heliocentric perihelion_arguments
                                    ascending_node_longitudes inclinations in
          dot_rows eq_matrix ecliptic_coordinates)
       (get_eccentric_anomaly fuel mean_anomalies eccentricities
          (full_like mean_anomalies constants.(TOL))))).

Definition main (fuel : nat) : result (option (list (row float))) :=
  main_at fuel 2451545.0.

End WithNumpy.
End solaris_6k.

(** ** The program on a heap of arrays *)

(** numpy arrays are mutable objects and Python names are references to
    them: [a += b] writes into the array [a] names, while [a + b] builds a
    new array.  Here the one-dimensional arrays (the tables of
    [Constants.py] and every array derived from them, the only arrays the
    program updates in place) live in a heap, and each function of
    [Solaris6K.py] is transcribed statement by statement, one allocation per
    array the interpreter creates.  Arrays of shape (n, 3) are never updated
    and stay values. *)

Module Heap.
Local Open Scope float_scope.

Definition loc : Type := nat.
Definition heap : Type := list (list float).

Inductive outcome (A : Type) : Type :=
| Value (a : A)
| Exception (e : exception)
| OutOfFuel.
Arguments Value {A} a.
Arguments Exception {A} e.
Arguments OutOfFuel {A}.

Definition M (A : Type) : Type := heap -> outcome A * heap.

Definition ret {A : Type} (a : A) : M A := fun h => (Value a, h).

Definition raise {A : Type} (e : exception) : M A := fun h => (Exception e, h).

Definition out_of_fuel {A : Type} : M A := fun h => (OutOfFuel, h).

Definition bind {A B : Type} (m : M A) (k : A -> M B) : M B :=
  fun h =>
    match m h with
    | (Value a, h') => k a h'
    | (Exception e, h') => (Exception e, h')
    | (OutOfFuel, h') => (OutOfFuel, h')
    end.

Notation "x <- m ;; k" := (bind m (fun x => k))
  (at level 61, m at next level, right associativity).
Notation "m ;; k" := (bind m (fun _ => k))
  (at level 61, right associativity).

Fixpoint update (l : loc) (v : list float) (h : heap) : heap :=
  match h, l with
  | [], _ => []
  | _ :: h', O => v :: h'
  | c :: h', S l' => c :: update l' v h'
  end.

(** A new array object, the array a reference names, and a write into the
    array a reference names. *)
Definition new (v : list float) : M loc := fun h => (Value (length h), h ++ [v]).
Definition load (l : loc) : M (list float) := fun h => (Value (nth l h []), h).
Definition store (l : loc) (v : list float) : M unit := fun h => (Value tt, update l v h).

(** An operator that builds a new array from one or two arrays, and [+=]. *)
Definition unary (f : list float -> list float) (a : loc) : M loc :=
  x <- load a;; new (f x).

Definition binary (f : list float -> list float -> list float) (a b : loc) : M loc :=
  x <- load a;; y <- load b;; new (f x y).

Definition iadd (a b : loc) : M unit :=
  x <- load a;; y <- load b;; store a (add x y).

(** The names of [Constants.py] that are bound to arrays. *)
Record tables : Type := {
  SEMI_MAJOR_AXES : loc;
  SEMI_MAJOR_AXES_RATE : loc;
  ECCENTRICITIES : loc;
  ECCENTRICITIES_RATE : loc;
  INCLINATIONS : loc;
  INCLINATIONS_RATE : loc;
  MEAN_LONGITUDES : loc;
  MEAN_LONGITUDES_RATE : loc;
  PERIHELION_LONGITUDES : loc;
  PERIHELION_LONGITUDES_RATE : loc;
  ASCENDING_NODE_LONGITUDES : loc;
  ASCENDING_NODE_LONGITUDES_RATE : loc;
  TERM_B : loc;
  TERM_C : loc;
  TERM_S : loc;
  TERM_F : loc
}.

(** [import Constants]: the module's sixteen [numpy.array] calls, in order. *)
Definition import_Constants : M tables :=
  a <- new Constants.SEMI_MAJOR_AXES;;
  a' <- new Constants.SEMI_MAJOR_AXES_RATE;;
  e <- new Constants.ECCENTRICITIES;;
  e' <- new Constants.ECCENTRICITIES_RATE;;
  i <- new Constants.INCLINATIONS;;
  i' <- new Constants.INCLINATIONS_RATE;;
  l <- new Constants.MEAN_LONGITUDES;;
  l' <- new Constants.MEAN_LONGITUDES_RATE;;
  p <- new Constants.PERIHELION_LONGITUDES;;
  p' <- new Constants.PERIHELION_LONGITUDES_RATE;;
  n <- new Constants.ASCENDING_NODE_LONGITUDES;;
  n' <- new Constants.ASCENDING_NODE_LONGITUDES_RATE;;
  b <- new Constants.TERM_B;;
  c <- new Constants.TERM_C;;
  s <- new Constants.TERM_S;;
  f <- new Constants.TERM_F;;
  ret {| SEMI_MAJOR_AXES := a; SEMI_MAJOR_AXES_RATE := a';
         ECCENTRICITIES := e; ECCENTRICITIES_RATE := e';
         INCLINATIONS := i; INCLINATIONS_RATE := i';
         MEAN_LONGITUDES := l; MEAN_LONGITUDES_RATE := l';
         PERIHELION_LONGITUDES := p; PERIHELION_LONGITUDES_RATE := p';
         ASCENDING_NODE_LONGITUDES := n; ASCENDING_NODE_LONGITUDES_RATE := n';
         TERM_B := b; TERM_C := c; TERM_S := s; TERM_F := f |}.

(** The solver's delta: the scalar [inf], or a reference to the array of
    the last pass. *)
Inductive delta_ref : Type :=
| DScalar (x : float)
| DArray (l : loc).

Fixpoint while_m {S : Type} (fuel : nat) (test : S -> M bool) (body : S -> M S) (s : S)
  : M S :=
  b <- test s;;
  if b then
    match fuel with
    | O => out_of_fuel
    | Datatypes.S fuel' => s' <- body s;; while_m fuel' test body s'
    end
  else ret s.

Section WithNumpy.
Variable np : numpy.
Variable consts : tables.

Definition sin_wrapper_a (theta : loc) : M loc :=
  r <- unary (map (np_deg2rad np)) theta;;
  unary (map (np_sin np)) r.

Definition arcsin_wrapper_a (num : loc) : M loc :=
  r <- unary (map (np_arcsin np)) num;;
  unary (map (np_rad2deg np)) r.

Definition cos_wrapper_a (theta : loc) : M loc :=
  r <- unary (map (np_deg2rad np)) theta;;
  unary (map (np_cos np)) r.

Definition get_century (jd_time : float) : M float :=
  let num_century := (jd_time - Constants.J2000_0) / Constants.CONVERSION_FACTOR in
  if 30 <? abs num_century
  then raise (ValueError "Date is outside of scope (3000 BCE to 3000 CE).")
  else ret num_century.

Definition get_current_value (base_value rate : loc) (time : float) : M loc :=
  t <- unary (fun r => scale r time) rate;;
  binary add base_value t.

Definition get_perihelion_argument (perihelion_longitude ascending_node_longitude : loc)
  : M loc :=
  binary sub perihelion_longitude ascending_node_longitude.

Definition get_mean_anomaly (mean_longitude perihelion_longitude : loc)
    (additional_terms : loc * loc * loc * loc) (time : float) : M loc :=
  let '(term_b, term_c, term_s, term_f) := additional_terms in
  mean_anomaly <- binary sub mean_longitude perihelion_longitude;;
  t <- unary (fun b => scale b (np_power np time 2)) term_b;;
  iadd mean_anomaly t;;
  f <- unary (fun f => scale f time) term_f;;
  c <- unary (map (np_cos np)) f;;
  t <- binary mul term_c c;;
  iadd mean_anomaly t;;
  f <- unary (fun f => scale f time) term_f;;
  s <- unary (map (np_sin np)) f;;
  t <- binary mul term_s s;;
  iadd mean_anomaly t;;
  s <- sin_wrapper_a mean_anomaly;;
  arcsin_wrapper_a s.

Definition solver_test (tol : loc) (delta : delta_ref) : M bool :=
  t <- load tol;;
  match delta with
  | DScalar x => ret (any (np_greater (Scalar x) t))
  | DArray d => v <- load d;; ret (any (np_greater (Array v) t))
  end.

Definition solver_body (mean_anomaly eccentricity term_e eccentric_anomaly : loc)
    (_ : delta_ref) : M delta_ref :=
  s <- sin_wrapper_a eccentric_anomaly;;
  t <- binary mul term_e s;;
  t <- binary sub eccentric_anomaly t;;
  mean_anomaly_delta <- binary sub mean_anomaly t;;
  c <- cos_wrapper_a eccentric_anomaly;;
  t <- binary mul eccentricity c;;
  t <- unary (rsub 1) t;;
  eccentric_anomaly_delta <- binary div mean_anomaly_delta t;;
  iadd eccentric_anomaly eccentric_anomaly_delta;;
  ret (DArray eccentric_anomaly_delta).

Definition get_eccentric_anomaly (fuel : nat) (mean_anomaly eccentricity tol : loc) : M loc :=
  term_e <- unary (fun e => scale e Constants.ECCENTRICITIY_FACTOR) eccentricity;;
  s <- sin_wrapper_a mean_anomaly;;
  t <- binary mul term_e s;;
  eccentric_anomaly <- binary add mean_anomaly t;;
  while_m fuel (solver_test tol)
          (solver_body mean_anomaly eccentricity term_e eccentric_anomaly)
          (DScalar infinity);;
  ret eccentric_anomaly.

(** [numpy.column_stack] reads its three columns and builds an array of
    shape (n, 3). *)
Definition column_stack_ (c1 c2 c3 : loc) : M (list (row float)) :=
  x <- load c1;; y <- load c2;; z <- load c3;; ret (column_stack x y z).

(** [numpy.sum(h * m, axis=1)], a new one-dimensional array. *)
Definition sum_prod (h m : list (row float)) : M loc :=
  new (sum_axis1 (mul_rows h m)).

Definition zeros_like_ (a : loc) : M loc := unary (fun v => full_like v 0) a.

Definition get_ecliptic_coordinate (heliocentric_coordinate : list (row float))
    (perihelion_argument ascending_node_longitude inclination : loc)
  : M (list (row float)) :=
  (* ecliptic_x_matrix *)
  cw <- cos_wrapper_a perihelion_argument;;
  cn <- cos_wrapper_a ascending_node_longitude;;
  a <- binary mul cw cn;;
  sw <- sin_wrapper_a perihelion_argument;;
  sn <- sin_wrapper_a ascending_node_longitude;;
  b <- binary mul sw sn;;
  ci <- cos_wrapper_a inclination;;
  b <- binary mul b ci;;
  x1 <- binary sub a b;;
  sw <- sin_wrapper_a perihelion_argument;;
  sw <- unary neg sw;;
  cn <- cos_wrapper_a ascending_node_longitude;;
  a <- binary mul sw cn;;
  cw <- cos_wrapper_a perihelion_argument;;
  sn <- sin_wrapper_a ascending_node_longitude;;
  b <- binary mul cw sn;;
  ci <- cos_wrapper_a inclination;;
  b <- binary mul b ci;;
  x2 <- binary sub a b;;
  x3 <- zeros_like_ perihelion_argument;;
  ecliptic_x_matrix <- column_stack_ x1 x2 x3;;
  (* ecliptic_y_matrix *)
  cw <- cos_wrapper_a perihelion_argument;;
  sn <- sin_wrapper_a ascending_node_longitude;;
  a <- binary mul cw sn;;
  sw <- sin_wrapper_a perihelion_argument;;
  cn <- cos_wrapper_a ascending_node_longitude;;
  b <- binary mul sw cn;;
  ci <- cos_wrapper_a inclination;;
  b <- binary mul b ci;;
  y1 <- binary add a b;;
  sw <- sin_wrapper_a perihelion_argument;;
  sw <- unary neg sw;;
  sn <- sin_wrapper_a ascending_node_longitude;;
  a <- binary mul sw sn;;
  cw <- cos_wrapper_a perihelion_argument;;
  cn <- cos_wrapper_a ascending_node_longitude;;
  b <- binary mul cw cn;;
  ci <- cos_wrapper_a inclination;;
  b <- binary mul b ci;;
  y2 <- binary add a b;;
  y3 <- zeros_like_ perihelion_argument;;
  ecliptic_y_matrix <- column_stack_ y1 y2 y3;;
  (* ecliptic_z_matrix *)
  sw <- sin_wrapper_a perihelion_argument;;
  si <- sin_wrapper_a inclination;;
  z1 <- binary mul sw si;;
  cw <- cos_wrapper_a perihelion_argument;;
  si <- sin_wrapper_a inclination;;
  z2 <- binary mul cw si;;
  z3 <- zeros_like_ perihelion_argument;;
  ecliptic_z_matrix <- column_stack_ z1 z2 z3;;
  (* the three sums, stacked *)
  sx <- sum_prod heliocentric_coordinate ecliptic_x_matrix;;
  sy <- sum_prod heliocentric_coordinate ecliptic_y_matrix;;
  sz <- sum_prod heliocentric_coordinate ecliptic_z_matrix;;
  column_stack_ sx sy sz.

Definition main_at (fuel : nat) (time : float) : M (list (row float)) :=
  century_since_epoch <- get_century time;;
  semi_major_axes <-
    get_current_value (SEMI_MAJOR_AXES consts) (SEMI_MAJOR_AXES_RATE consts)
                      century_since_epoch;;
  eccentricities <-
    get_current_value (ECCENTRICITIES consts) (ECCENTRICITIES_RATE consts)
                      century_since_epoch;;
  inclinations <-
    get_current_value (INCLINATIONS consts) (INCLINATIONS_RATE consts)
                      century_since_epoch;;
  mean_longitudes <-
    get_current_value (MEAN_LONGITUDES consts) (MEAN_LONGITUDES_RATE consts)
                      century_since_epoch;;
  perihelion_longitudes <-
    get_current_value (PERIHELION_LONGITUDES consts)
                      (PERIHELION_LONGITUDES_RATE consts) century_since_epoch;;
  ascending_node_longitudes <-
    get_current_value (ASCENDING_NODE_LONGITUDES consts)
                      (ASCENDING_NODE_LONGITUDES_RATE consts) century_since_epoch;;
  perihelion_arguments <-
    get_perihelion_argument perihelion_longitudes ascending_node_longitudes;;
  mean_anomalies <-
    get_mean_anomaly mean_longitudes perihelion_longitudes
      (TERM_B consts, TERM_C consts, TERM_S consts, TERM_F consts)
      century_since_epoch;;
  tol <- unary (fun v => full_like v Constants.TOL) mean_anomalies;;
  eccentric_anomalies <- get_eccentric_anomaly fuel mean_anomalies eccentricities tol;;
  (* heliocentric_coordinates *)
  c <- cos_wrapper_a eccentric_anomalies;;
  t <- binary sub c eccentricities;;
  hx <- binary mul semi_major_axes t;;
  t <- binary mul eccentricities eccentricities;;
  t <- unary (rsub 1) t;;
  t <- unary (map PrimFloat.sqrt) t;;
  t <- binary mul semi_major_axes t;;
  s <- sin_wrapper_a eccentric_anomalies;;
  hy <- binary mul t s;;
  hz <- zeros_like_ mean_anomalies;;
  heliocentric_coordinates <- column_stack_ hx hy hz;;
  ecliptic_coordinates <-
    get_ecliptic_coordinate heliocentric_coordinates perihelion_arguments
                            ascending_node_longitudes inclinations;;
  ret (dot_rows (Solaris6K.eq_matrix np) ecliptic_coordinates).

End WithNumpy.

(** *** Notions used to state what the heap-level program does *)

(** [h'] extends [h]: every array of [h] is in [h'] at the same address,
    with the same contents. *)
Definition extends (h h' : heap) : Prop := exists ext, h' = h ++ ext.

(** [m], run in [h], ends with outcome [o] in a heap that extends [h]. *)
Definition yields {A : Type} (m : M A) (h : heap) (o : outcome A) : Prop :=
  exists h', m h = (o, h') /\ extends h h'.

(** What the reference [delta] of the heap-level loop stands for, in a heap
    where [E] is the array the loop updates in place. *)
Definition delta_holds (h : heap) (E : loc) (delta : delta_ref) (d : operand) : Prop :=
  match delta, d with
  | DScalar x, Scalar y => x = y
  | DArray l, Array v => nth_error h l = Some v /\ l <> E
  | _, _ => False
  end.

(** The names of [Constants.py] are bound, in [h], to the module's arrays. *)
Definition tables_at (h : heap) (c : tables) : Prop :=
  nth_error h (SEMI_MAJOR_AXES c) = Some Constants.SEMI_MAJOR_AXES
  /\ nth_error h (SEMI_MAJOR_AXES_RATE c) = Some Constants.SEMI_MAJOR_AXES_RATE
  /\ nth_error h (ECCENTRICITIES c) = Some Constants.ECCENTRICITIES
  /\ nth_error h (ECCENTRICITIES_RATE c) = Some Constants.ECCENTRICITIES_RATE
  /\ nth_error h (INCLINATIONS c) = Some Constants.INCLINATIONS
  /\ nth_error h (INCLINATIONS_RATE c) = Some Constants.INCLINATIONS_RATE
  /\ nth_error h (MEAN_LONGITUDES c) = Some Constants.MEAN_LONGITUDES
  /\ nth_error h (MEAN_LONGITUDES_RATE c) = Some Constants.MEAN_LONGITUDES_RATE
  /\ nth_error h (PERIHELION_LONGITUDES c) = Some Constants.PERIHELION_LONGITUDES
  /\ nth_error h (PERIHELION_LONGITUDES_RATE c) = Some Constants.PERIHELION_LONGITUDES_RATE
  /\ nth_error h (ASCENDING_NODE_LONGITUDES c) = Some Constants.ASCENDING_NODE_LONGITUDES
  /\ nth_error h (ASCENDING_NODE_LONGITUDES_RATE c)
     = Some Constants.ASCENDING_NODE_LONGITUDES_RATE
  /\ nth_error h (TERM_B c) = Some Constants.TERM_B
  /\ nth_error h (TERM_C c) = Some Constants.TERM_C
  /\ nth_error h (TERM_S c) = Some Constants.TERM_S
  /\ nth_error h (TERM_F c) = Some Constants.TERM_F.

(** The references [import_Constants] returns when run in the empty heap. *)
Definition first_tables : tables := {|
  SEMI_MAJOR_AXES := 0%nat; SEMI_MAJOR_AXES_RATE := 1%nat;
  ECCENTRICITIES := 2%nat; ECCENTRICITIES_RATE := 3%nat;
  INCLINATIONS := 4%nat; INCLINATIONS_RATE := 5%nat;
  MEAN_LONGITUDES := 6%nat; MEAN_LONGITUDES_RATE := 7%nat;
  PERIHELION_LONGITUDES := 8%nat; PERIHELION_LONGITUDES_RATE := 9%nat;
  ASCENDING_NODE_LONGITUDES := 10%nat; ASCENDING_NODE_LONGITUDES_RATE := 11%nat;
  TERM_B := 12%nat; TERM_C := 13%nat; TERM_S := 14%nat; TERM_F := 15%nat
|}.

(** The heap [import_Constants] builds from the empty heap. *)
Definition first_heap : heap :=
  [Constants.SEMI_MAJOR_AXES; Constants.SEMI_MAJOR_AXES_RATE;
   Constants.ECCENTRICITIES; Constants.ECCENTRICITIES_RATE;
   Constants.INCLINATIONS; Constants.INCLINATIONS_RATE;
   Constants.MEAN_LONGITUDES; Constants.MEAN_LONGITUDES_RATE;
   Constants.PERIHELION_LONGITUDES; Constants.PERIHELION_LONGITUDES_RATE;
   Constants.ASCENDING_NODE_LONGITUDES; Constants.ASCENDING_NODE_LONGITUDES_RATE;
   Constants.TERM_B; Constants.TERM_C; Constants.TERM_S; Constants.TERM_F].

(** The outcome of the heap-level [main] that a value of the pure [main]
    stands for. *)
Definition outcome_of (r : result (option (list (row float))))
  : outcome (list (row float)) :=
  match r with
  | Return (Some m) => Value m
  | Return None => OutOfFuel
  | Raise e => Exception e
  end.

End Heap.

(** ** The exact reading *)

(** The functions of [Solaris6K.py] read over the real numbers:
    [numpy.sin], [numpy.cos], [numpy.arcsin], [numpy.arccos] and
    [numpy.sqrt] are the mathematical functions, [deg2rad] and [rad2deg]
    multiply by pi/180 and 180/pi, and there is no rounding.  The only
    [float64] that is not a real number in these functions is the literal
    [inf] the solver starts its delta from.  Where the program would
    divide by zero or take the root of a negative number the real quotient
    or root stands for nothing the program computes: the facts on the
    Newton step, its fixed points and the distances exclude these cases by
    a hypothesis. *)

Declare Scope exact_scope.

Module Exact.
Local Open Scope R_scope.

Definition add (a b : list R) : list R := map2 Rplus a b.
Definition sub (a b : list R) : list R := map2 Rminus a b.
Definition mul (a b : list R) : list R := map2 Rmult a b.
Definition div (a b : list R) : list R := map2 Rdiv a b.
Definition scale (a : list R) (s : R) : list R := map (fun x => x * s) a.
Definition rsub (s : R) (a : list R) : list R := map (fun x => s - x) a.

Notation "a +^ b" := (add a b) (at level 50, left associativity) : exact_scope.
Notation "a -^ b" := (sub a b) (at level 50, left associativity) : exact_scope.
Notation "a *^ b" := (mul a b) (at level 40, left associativity) : exact_scope.
Notation "a /^ b" := (div a b) (at level 40, left associativity) : exact_scope.
Local Open Scope exact_scope.

Definition deg2rad (x : R) : R := x * (PI / 180).
Definition rad2deg (x : R) : R := x * (180 / PI).

Definition sin_wrapper (theta : R) : R := sin (deg2rad theta).
Definition arcsin_wrapper (num : R) : R := rad2deg (asin num).
Definition cos_wrapper (theta : R) : R := cos (deg2rad theta).

Definition sin_wrapper_a (theta : list R) : list R := map sin (map deg2rad theta).
Definition arcsin_wrapper_a (num : list R) : list R := map rad2deg (map asin num).
Definition cos_wrapper_a (theta : list R) : list R := map cos (map deg2rad theta).

Definition ECCENTRICITIY_FACTOR : R := 180 / PI.

Definition terms : Type := (list R * list R * list R * list R)%type.

Definition get_mean_anomaly (mean_longitude perihelion_longitude : list R)
    (additional_terms : terms) (time : R) : list R :=
  let '(term_b, term_c, term_s, term_f) := additional_terms in
  let mean_anomaly := mean_longitude -^ perihelion_longitude in
  let mean_anomaly := mean_anomaly +^ scale term_b (time * time) in
  let mean_anomaly := mean_anomaly +^ term_c *^ map cos (scale term_f time) in
  let mean_anomaly := mean_anomaly +^ term_s *^ map sin (scale term_f time) in
  arcsin_wrapper_a (sin_wrapper_a mean_anomaly).

(** The solver's delta: the literal [inf] before the first pass, an array of
    reals after it. *)
Inductive operand : Type :=
| Infinity
| Array (v : list R).

Definition greater (d t : R) : bool := if Rlt_dec t d then true else false.

(** [x > tol]: [inf] exceeds every real tolerance. *)
Definition np_greater (x : operand) (tol : list R) : list bool :=
  match x with
  | Infinity => map (fun _ => true) tol
  | Array v => map2 greater v tol
  end.

Record solver_state : Type := {
  eccentric_anomaly : list R;
  eccentric_anomaly_delta : operand
}.

Definition solver_init (mean_anomaly term_e : list R) : solver_state :=
  {| eccentric_anomaly := mean_anomaly +^ term_e *^ sin_wrapper_a mean_anomaly;
     eccentric_anomaly_delta := Infinity |}.

Definition solver_test (tol : list R) (s : solver_state) : bool :=
  any (np_greater (eccentric_anomaly_delta s) tol).

Definition solver_body (mean_anomaly eccentricity term_e : list R) (s : solver_state)
  : solver_state :=
  let mean_anomaly_delta :=
    mean_anomaly
    -^ (eccentric_anomaly s -^ term_e *^ sin_wrapper_a (eccentric_anomaly s)) in
  let delta :=
    mean_anomaly_delta
    /^ rsub 1 (eccentricity *^ cos_wrapper_a (eccentric_anomaly s)) in
  {| eccentric_anomaly := eccentric_anomaly s +^ delta;
     eccentric_anomaly_delta := Array delta |}.

Definition solver_run (fuel : nat) (mean_anomaly eccentricity tol : list R)
  : solver_state * nat * bool :=
  let term_e := scale eccentricity ECCENTRICITIY_FACTOR in
  while fuel (solver_test tol) (solver_body mean_anomaly eccentricity term_e)
        (solver_init mean_anomaly term_e).

Definition get_eccentric_anomaly (fuel : nat) (mean_anomaly eccentricity tol : list R)
  : option (list R) :=
  let '(s, _, ended) := solver_run fuel mean_anomaly eccentricity tol in
  if ended then Some (eccentric_anomaly s) else None.

(** What the specification asks of these two functions, in its own words.

    The mean anomaly before normalisation, with the trigonometric arguments
    [f * t] taken in degrees. *)
Definition spec_raw_mean_anomaly (mean_longitude perihelion_longitude b c s f t : R) : R :=
  mean_longitude - perihelion_longitude
  + (b * (t * t) + c * cos_wrapper (f * t) + s * sin_wrapper (f * t)).

(** The same quantity as the code computes it, for one body. *)
Definition raw_mean_anomaly (mean_longitude perihelion_longitude b c s f t : R) : R :=
  mean_longitude - perihelion_longitude + b * (t * t) + c * cos (f * t) + s * sin (f * t).

(** The residual of Kepler's equation, [M - (E - e (180/pi) sin_deg E)]. *)
Definition kepler_residual (M e E : R) : R :=
  M - (E - e * (180 / PI) * sin_wrapper E).

(** The seed of the solver and one Newton update, for one body. *)
Definition seed (M e : R) : R := M + e * ECCENTRICITIY_FACTOR * sin_wrapper M.

Definition newton_delta (M e E : R) : R :=
  (M - (E - e * ECCENTRICITIY_FACTOR * sin_wrapper E)) / (1 - e * cos_wrapper E).

(** The quotient is the program's where the divisor [1 - e cos_deg E] is
    not zero; where it is zero the program computes NaN or an infinity. *)

(** The eccentric anomaly after one pass from the seed of [M = 90], in
    radians past pi/2. *)
Definition first_step (e : R) : R := e - e * (1 - cos e) / (1 + e * sin e).

(** *** The other functions, and the arrays [main] builds *)

Definition arccos_wrapper (num : R) : R := rad2deg (acos num).

(** The constants of [Constants.py] these functions read, with the
    numerals of the file. *)
Definition J2000_0 : R := 2451545.0.
Definition CONVERSION_FACTOR : R := 36525.
Definition OBLIQUITY : R := 23.43928.

Definition SEMI_MAJOR_AXES : list R :=
  [0.38709843; 0.72332102; 1.00000018; 1.52371234; 5.20248019; 9.54149883;
   19.18797948; 30.06952752; 39.48686035].

Definition SEMI_MAJOR_AXES_RATE : list R :=
  [0.00000000; -0.00000026; -0.00000003; 0.00000097; -0.00002864; -0.00003065;
   -0.00020455; 0.00006447; 0.00449751].

Definition ECCENTRICITIES : list R :=
  [0.20563661; 0.00676399; 0.01673163; 0.09336511; 0.04853590; 0.05550825;
   0.04685740; 0.00895439; 0.24885238].

Definition ECCENTRICITIES_RATE : list R :=
  [0.00002123; -0.00005107; -0.00003661; 0.00009149; -0.00018026; -0.00032044;
   -0.00001550; 0.00000818; 0.00006026].

(** [abs(num_century) > 30] is decided on the real quotient. *)
Definition get_century (jd_time : R) : result R :=
  let num_century := (jd_time - J2000_0) / CONVERSION_FACTOR in
  if greater (Rabs num_century) 30
  then Raise (ValueError "Date is outside of scope (3000 BCE to 3000 CE).")
  else Return num_century.

Definition get_current_value (base_value rate : list R) (time : R) : list R :=
  base_value +^ scale rate time.

Definition get_perihelion_argument (perihelion_longitude ascending_node_longitude : list R)
  : list R :=
  perihelion_longitude -^ ascending_node_longitude.

Definition neg (a : list R) : list R := map Ropp a.
Notation "-^ a" := (neg a) (at level 35, right associativity) : exact_scope.

Definition full_like (v : list R) (c : R) : list R := map (fun _ => c) v.

Definition mul_rows (h m : list (row R)) : list (row R) :=
  map2 (fun '(hx, hy, hz) '(mx, my, mz) => (hx * mx, hy * my, hz * mz)) h m.

Definition sum_axis1 (a : list (row R)) : list R :=
  map (fun '(x, y, z) => x + y + z) a.

Definition dot3 (r v : row R) : R :=
  let '(a, b, c) := r in
  let '(x, y, z) := v in
  a * x + b * y + c * z.

Definition dot_rows (m : row (row R)) (a : list (row R)) : list (row R) :=
  let '(r1, r2, r3) := m in
  map (fun v => (dot3 r1 v, dot3 r2 v, dot3 r3 v)) a.

Definition get_ecliptic_coordinate (heliocentric_coordinate : list (row R))
    (perihelion_argument ascending_node_longitude inclination : list R)
  : list (row R) :=
  let ecliptic_x_matrix :=
    column_stack
      (cos_wrapper_a perihelion_argument *^ cos_wrapper_a ascending_node_longitude
       -^ sin_wrapper_a perihelion_argument *^ sin_wrapper_a ascending_node_longitude
          *^ cos_wrapper_a inclination)
      (-^ sin_wrapper_a perihelion_argument *^ cos_wrapper_a ascending_node_longitude
       -^ cos_wrapper_a perihelion_argument *^ sin_wrapper_a ascending_node_longitude
          *^ cos_wrapper_a inclination)
      (full_like perihelion_argument 0) in
  let ecliptic_y_matrix :=
    column_stack
      (cos_wrapper_a perihelion_argument *^ sin_wrapper_a ascending_node_longitude
       +^ sin_wrapper_a perihelion_argument *^ cos_wrapper_a ascending_node_longitude
          *^ cos_wrapper_a inclination)
      (-^ sin_wrapper_a perihelion_argument *^ sin_wrapper_a ascending_node_longitude
       +^ cos_wrapper_a perihelion_argument *^ cos_wrapper_a ascending_node_longitude
          *^ cos_wrapper_a inclination)
      (full_like perihelion_argument 0) in
  let ecliptic_z_matrix :=
    column_stack
      (sin_wrapper_a perihelion_argument *^ sin_wrapper_a inclination)
      (cos_wrapper_a perihelion_argument *^ sin_wrapper_a inclination)
      (full_like perihelion_argument 0) in
  column_stack
    (sum_axis1 (mul_rows heliocentric_coordinate ecliptic_x_matrix))
    (sum_axis1 (mul_rows heliocentric_coordinate ecliptic_y_matrix))
    (sum_axis1 (mul_rows heliocentric_coordinate ecliptic_z_matrix)).

(** The array [heliocentric_coordinates] of [main].  The square root is the
    real one: the array is that of the program where no eccentricity
    exceeds 1 in absolute value. *)
Definition heliocentric_coordinates
    (semi_major_axes eccentricities eccentric_anomalies mean_anomalies : list R)
  : list (row R) :=
  column_stack
    (semi_major_axes *^ (cos_wrapper_a eccentric_anomalies -^ eccentricities))
    (semi_major_axes
     *^ map sqrt (rsub 1 (eccentricities *^ eccentricities))
     *^ sin_wrapper_a eccentric_anomalies)
    (full_like mean_anomalies 0).

Definition eq_matrix : row (row R) :=
  ((1, 0, 0),
   (0, cos_wrapper OBLIQUITY, - sin_wrapper OBLIQUITY),
   (0, sin_wrapper OBLIQUITY, cos_wrapper OBLIQUITY)).

(** The square of the distance of a point from the origin. *)
Definition square_distance (p : row R) : R :=
  let '(x, y, z) := p in x * x + y * y + z * z.

End Exact.

(** ** Notions used to state the facts *)

(** The six element tables [main] interpolates, each with its rates. *)
Definition element_tables : list (list float * list float) :=
  [(Constants.SEMI_MAJOR_AXES, Constants.SEMI_MAJOR_AXES_RATE);
   (Constants.ECCENTRICITIES, Constants.ECCENTRICITIES_RATE);
   (Constants.INCLINATIONS, Constants.INCLINATIONS_RATE);
   (Constants.MEAN_LONGITUDES, Constants.MEAN_LONGITUDES_RATE);
   (Constants.PERIHELION_LONGITUDES, Constants.PERIHELION_LONGITUDES_RATE);
   (Constants.ASCENDING_NODE_LONGITUDES, Constants.ASCENDING_NODE_LONGITUDES_RATE)].

(** The three rotation rows as the specification writes them, for one body:
    [w] is the argument of perihelion, [n] the longitude of the ascending
    node, [i] the inclination. *)
Definition spec_Px (np : numpy) (w n i : float) : row float :=
  (Solaris6K.cos_wrapper np w * Solaris6K.cos_wrapper np n
   - Solaris6K.sin_wrapper np w * Solaris6K.sin_wrapper np n * Solaris6K.cos_wrapper np i,
   - Solaris6K.sin_wrapper np w * Solaris6K.cos_wrapper np n
   - Solaris6K.cos_wrapper np w * Solaris6K.sin_wrapper np n * Solaris6K.cos_wrapper np i,
   0)%float.

Definition spec_Py (np : numpy) (w n i : float) : row float :=
  (Solaris6K.cos_wrapper np w * Solaris6K.sin_wrapper np n
   + Solaris6K.sin_wrapper np w * Solaris6K.cos_wrapper np n * Solaris6K.cos_wrapper np i,
   - Solaris6K.sin_wrapper np w * Solaris6K.sin_wrapper np n
   + Solaris6K.cos_wrapper np w * Solaris6K.cos_wrapper np n * Solaris6K.cos_wrapper np i,
   0)%float.

Definition spec_Pz (np : numpy) (w i : float) : row float :=
  (Solaris6K.sin_wrapper np w * Solaris6K.sin_wrapper np i,
   Solaris6K.cos_wrapper np w * Solaris6K.sin_wrapper np i,
   0)%float.

(** A concrete numpy, with the trigonometric routines cut down to their
    small-angle approximations.  It serves to instantiate, at a concrete
    record, statements that hold for every [numpy]. *)
Definition small_angle_numpy : numpy := {|
  np_sin := fun x => x;
  np_cos := fun _ => 1%float;
  np_arcsin := fun x => x;
  np_arccos := fun _ => 0%float;
  np_deg2rad := fun x => (x * (Constants.numpy_pi / 180))%float;
  np_rad2deg := fun x => (x * (180 / Constants.numpy_pi))%float;
  np_power := fun x _ => (x * x)%float
|}.

(** A heap of three arrays: two mean anomalies, two eccentricities and two
    tolerances. *)
Definition two_body_heap : Heap.heap :=
  [[10; 20]; [0.5; 0.25]; [Constants.TOL; Constants.TOL]]%float.

(** * Facts *)

(** ** Lists and loops *)

Lemma nth_error_map2 {A B C : Type} (f : A -> B -> C) (l1 : list A) (l2 : list B) (i : nat) :
  nth_error (map2 f l1 l2) i =
  match nth_error l1 i, nth_error l2 i with
  | Some a, Some b => Some (f a b)
  | _, _ => None
  end.
Proof.
  revert l2 i; induction l1 as [|a l1 IH]; intros [|b l2] [|i]; simpl; auto.
  destruct (nth_error l1 i); reflexivity.
Qed.

(** When [while] stops, its test fails on the state reached exactly if the
    loop ended (rather than the fuel). *)
Lemma while_test_at_end {S : Type} (test : S -> bool) (body : S -> S) (fuel : nat) (s : S) :
  let '(s', _, ended) := while fuel test body s in test s' = negb ended.
Proof.
  revert s; induction fuel as [|fuel IH]; intros s; simpl.
  - destruct (test s) eqn:E; simpl; exact E.
  - destruct (test s) eqn:E; simpl; [|exact E].
    specialize (IH (body s)). destruct (while fuel test body (body s)) as [[s' n] ended].
    exact IH.
Qed.

(** With fuel for one pass at least, a pass is made exactly if the first
    test succeeds. *)
Lemma while_first_pass {S : Type} (test : S -> bool) (body : S -> S) (fuel : nat) (s : S) :
  let '(_, n, _) := while (Datatypes.S fuel) test body s in
  (1 <= n)%nat <-> test s = true.
Proof.
  simpl. destruct (test s).
  - destruct (while fuel test body (body s)) as [[s' n] ended]. split; [reflexivity | lia].
  - split; [lia | discriminate].
Qed.

(** Where a loop stops: in the state it started in, no pass made, or in the
    state its body made of one the test held in. *)
Lemma while_result {S : Type} (P : S -> Prop) (test : S -> bool) (body : S -> S) :
  (forall s, P s -> P (body s)) ->
  forall (fuel : nat) (s : S), P s ->
    let '(s', n, _) := while fuel test body s in
    (n = 0%nat /\ s' = s)
    \/ ((1 <= n)%nat /\ exists p, P p /\ test p = true /\ s' = body p).
Proof.
  intros Hbody. induction fuel as [|fuel IH]; intros s Hs; cbn [while].
  - destruct (test s); left; split; reflexivity.
  - destruct (test s) eqn:Ht; [|left; split; reflexivity].
    specialize (IH (body s) (Hbody s Hs)).
    destruct (while fuel test body (body s)) as [[s1 n1] ended].
    right. split; [lia|].
    destruct IH as [[_ ->]|[_ (p & Hp & Htp & ->)]].
    + exists s. auto.
    + exists p. auto.
Qed.

(** What every pass keeps holds of the state the loop stops in. *)
Lemma while_invariant {S : Type} (P : S -> Prop) (test : S -> bool) (body : S -> S) :
  (forall s, P s -> P (body s)) ->
  forall (fuel : nat) (s : S), P s -> P (fst (fst (while fuel test body s))).
Proof.
  intros Hbody. induction fuel as [|fuel IH]; intros s Hs; cbn [while].
  - destruct (test s); exact Hs.
  - destruct (test s); [|exact Hs].
    specialize (IH (body s) (Hbody s Hs)).
    destruct (while fuel test body (body s)) as [[s1 n1] ended]. exact IH.
Qed.

Lemma length_map2 {A B C : Type} (f : A -> B -> C) (l1 : list A) (l2 : list B) :
  length (map2 f l1 l2) = Nat.min (length l1) (length l2).
Proof.
  revert l2; induction l1 as [|a l1 IH]; intros [|b l2]; simpl; auto.
Qed.

Lemma length_column_stack {A : Type} (c1 c2 c3 : list A) :
  @length (A * A * A) (column_stack c1 c2 c3)
  = Nat.min (length c1) (Nat.min (length c2) (length c3)).
Proof.
  revert c2 c3; induction c1 as [|a c1 IH]; intros [|b c2] [|c c3]; simpl; auto.
Qed.

Lemma combine_map_l {A B C : Type} (f : A -> B) (l : list A) (r : list C) :
  combine (map f l) r = map (fun '(a, c) => (f a, c)) (combine l r).
Proof.
  revert r; induction l as [|a l IH]; intros [|c r]; simpl; try reflexivity.
  f_equal. apply IH.
Qed.

(** ** Binary64 arithmetic *)

Section Binary64.
Local Open Scope float_scope.

Lemma mul_nan_l (x : float) : nan * x = nan.
Proof.
  apply Prim2SF_inj. rewrite mul_spec.
  change (Prim2SF nan) with S754_nan. reflexivity.
Qed.

Lemma mul_nan_r (x : float) : x * nan = nan.
Proof.
  apply Prim2SF_inj. rewrite mul_spec.
  change (Prim2SF nan) with S754_nan. destruct (Prim2SF x); reflexivity.
Qed.

Lemma add_nan_l (x : float) : nan + x = nan.
Proof.
  apply Prim2SF_inj. rewrite add_spec.
  change (Prim2SF nan) with S754_nan. reflexivity.
Qed.

Lemma add_nan_r (x : float) : x + nan = nan.
Proof.
  apply Prim2SF_inj. rewrite add_spec.
  change (Prim2SF nan) with S754_nan. destruct (Prim2SF x); reflexivity.
Qed.

Lemma sub_nan_l (x : float) : nan - x = nan.
Proof.
  apply Prim2SF_inj. rewrite sub_spec.
  change (Prim2SF nan) with S754_nan. reflexivity.
Qed.

Lemma div_nan_l (x : float) : nan / x = nan.
Proof.
  apply Prim2SF_inj. rewrite div_spec.
  change (Prim2SF nan) with S754_nan. reflexivity.
Qed.

(** The square root of a negative number, minus infinity included, is NaN. *)
Lemma sqrt_negative (x : float) : (x <? 0) = true -> PrimFloat.sqrt x = nan.
Proof.
  intros H. apply Prim2SF_inj. rewrite sqrt_spec.
  rewrite ltb_spec in H. change (Prim2SF 0) with (S754_zero false) in H.
  change (Prim2SF nan) with S754_nan.
  destruct (Prim2SF x) as [s| [|] | | [|] m e]; try reflexivity; try discriminate H.
Qed.

(** A delta that is not positive is not greater than a tolerance that is
    not negative. *)
Lemma nonpositive_not_greater (d t : float) :
  (d <=? 0) = true -> (0 <=? t) = true -> (t <? d) = false.
Proof.
  rewrite !leb_spec, ltb_spec. change (Prim2SF 0) with (S754_zero false).
  destruct (Prim2SF d) as [sd| [|] | | [|] md ed], (Prim2SF t) as [st| [|] | | [|] mt et];
    intros Hd Ht; try reflexivity; try discriminate Hd; try discriminate Ht.
Qed.

End Binary64.

(** ** The functions of [Solaris6K.py], body by body *)

Section PerBody.
Local Open Scope float_scope.
Variable np : numpy.

Lemma heliocentric_coordinates_per_body
    (semi_major_axes eccentricities eccentric_anomalies mean_anomalies : list float) :
  Solaris6K.heliocentric_coordinates np semi_major_axes eccentricities eccentric_anomalies
                                     mean_anomalies
  = map (fun '(a, (e, (E, _))) =>
           (a * (Solaris6K.cos_wrapper np E - e),
            a * PrimFloat.sqrt (1 - e * e) * Solaris6K.sin_wrapper np E,
            0))
        (combine semi_major_axes
           (combine eccentricities (combine eccentric_anomalies mean_anomalies))).
Proof.
  unfold Solaris6K.heliocentric_coordinates, Solaris6K.cos_wrapper_a, Solaris6K.sin_wrapper_a,
    full_like, rsub, mul, sub.
  revert eccentricities eccentric_anomalies mean_anomalies.
  induction semi_major_axes as [|a al IH]; intros [|e el] [|E El] [|M Ml];
    simpl; try reflexivity.
  f_equal. apply IH.
Qed.

(** The first test of the solver's loop compares [inf] with every
    tolerance. *)
Lemma solver_first_test (mean_anomaly term_e tol : list float) :
  Solaris6K.solver_test tol (Solaris6K.solver_init np mean_anomaly term_e)
  = existsb (fun t => t <? infinity) tol.
Proof.
  unfold Solaris6K.solver_test, Solaris6K.solver_init, any. simpl.
  induction tol as [|t tol IH]; simpl; [reflexivity|]. rewrite IH. reflexivity.
Qed.

(** [get_mean_anomaly], body by body. *)
Lemma get_mean_anomaly_bodies (mean_longitude perihelion_longitude
                                 term_b term_c term_s term_f : list float) (time : float) :
  Solaris6K.get_mean_anomaly np mean_longitude perihelion_longitude
                             (term_b, term_c, term_s, term_f) time
  = map (fun '(l, (p, (b, (c, (s, f))))) =>
           Solaris6K.arcsin_wrapper np
             (Solaris6K.sin_wrapper np
                (l - p + b * np_power np time 2 + c * np_cos np (f * time)
                 + s * np_sin np (f * time))))
        (combine mean_longitude
           (combine perihelion_longitude
              (combine term_b (combine term_c (combine term_s term_f))))).
Proof.
  unfold Solaris6K.get_mean_anomaly, Solaris6K.arcsin_wrapper_a, Solaris6K.sin_wrapper_a,
    Solaris6K.arcsin_wrapper, Solaris6K.sin_wrapper, add, sub, mul, scale.
  revert perihelion_longitude term_b term_c term_s term_f.
  induction mean_longitude as [|l ml IH]; intros [|p pl] [|b tb] [|c tc] [|s ts] [|f tf];
    simpl; try reflexivity.
  f_equal. apply IH.
Qed.

(** A NaN mean longitude comes back as NaN, if numpy's routines hand NaN
    on. *)
Lemma get_mean_anomaly_of_nan :
  np_deg2rad np nan = nan -> np_sin np nan = nan ->
  np_arcsin np nan = nan -> np_rad2deg np nan = nan ->
  forall p b c s f time : float,
    Solaris6K.get_mean_anomaly np [nan] [p] ([b], [c], [s], [f]) time = [nan].
Proof.
  intros Hd Hs Ha Hr p b c s f time. rewrite get_mean_anomaly_bodies. simpl.
  rewrite sub_nan_l, !add_nan_l.
  unfold Solaris6K.arcsin_wrapper, Solaris6K.sin_wrapper. rewrite Hd, Hs, Ha, Hr.
  reflexivity.
Qed.

(** [get_ecliptic_coordinate], body by body. *)
Lemma get_ecliptic_coordinate_bodies (heliocentric_coordinate : list (row float))
    (perihelion_longitude ascending_node_longitude inclination : list float) :
  Solaris6K.get_ecliptic_coordinate np heliocentric_coordinate
    (Solaris6K.get_perihelion_argument perihelion_longitude ascending_node_longitude)
    ascending_node_longitude inclination
  = map (fun '(h, (p, (n, i))) =>
           let w := p - n in
           (dot3 h (spec_Px np w n i), dot3 h (spec_Py np w n i), dot3 h (spec_Pz np w i)))
        (combine heliocentric_coordinate
           (combine perihelion_longitude (combine ascending_node_longitude inclination))).
Proof.
  unfold Solaris6K.get_ecliptic_coordinate, Solaris6K.get_perihelion_argument,
    Solaris6K.cos_wrapper_a, Solaris6K.sin_wrapper_a, full_like, sum_axis1, mul_rows,
    add, sub, mul, neg.
  revert perihelion_longitude ascending_node_longitude inclination.
  induction heliocentric_coordinate as [|[[hx hy] hz] h IH];
    intros [|p pl] [|n nl] [|i il]; simpl; try reflexivity.
  f_equal. apply IH.
Qed.

(** One pass of the solver's loop, body by body. *)
Lemma solver_body_bodies (M e : list float) (s : solver_state) :
  Solaris6K.solver_body np M e (scale e Constants.ECCENTRICITIY_FACTOR) s
  = {| eccentric_anomaly :=
         map (fun '(M, (e, E)) =>
                E + (M - (E - e * Constants.ECCENTRICITIY_FACTOR * Solaris6K.sin_wrapper np E))
                    / (1 - e * Solaris6K.cos_wrapper np E))
             (combine M (combine e (eccentric_anomaly s)));
       eccentric_anomaly_delta :=
         Array (map (fun '(M, (e, E)) =>
                       (M - (E - e * Constants.ECCENTRICITIY_FACTOR
                                 * Solaris6K.sin_wrapper np E))
                       / (1 - e * Solaris6K.cos_wrapper np E))
                    (combine M (combine e (eccentric_anomaly s)))) |}.
Proof.
  unfold Solaris6K.solver_body, Solaris6K.sin_wrapper_a, Solaris6K.cos_wrapper_a,
    Solaris6K.sin_wrapper, Solaris6K.cos_wrapper, add, sub, mul, div, scale, rsub.
  destruct s as [E d]. cbn [eccentric_anomaly]. clear d.
  assert (H : forall M e E,
             map2 PrimFloat.div
               (map2 PrimFloat.sub M
                  (map2 PrimFloat.sub E
                     (map2 PrimFloat.mul
                        (map (fun x => x * Constants.ECCENTRICITIY_FACTOR) e)
                        (map (np_sin np) (map (np_deg2rad np) E)))))
               (map (fun x => 1 - x)
                  (map2 PrimFloat.mul e (map (np_cos np) (map (np_deg2rad np) E))))
             = map (fun '(M, (e, E)) =>
                      (M - (E - e * Constants.ECCENTRICITIY_FACTOR
                                * np_sin np (np_deg2rad np E)))
                      / (1 - e * np_cos np (np_deg2rad np E)))
                   (combine M (combine e E))).
  { clear. induction M as [|m M IH]; intros [|e el] [|E El]; simpl; try reflexivity.
    f_equal. apply IH. }
  rewrite H. f_equal.
  clear H. revert e E. induction M as [|m M IH]; intros [|e el] [|E El]; simpl;
    try reflexivity.
  f_equal. apply IH.
Qed.

(** After a pass, the test of the loop fails exactly if no body's delta is
    greater than its tolerance: the deltas are compared as they are, with
    their signs. *)
Lemma solver_test_signed (tol E deltas : list float) :
  length deltas = length tol ->
  Solaris6K.solver_test tol
    {| eccentric_anomaly := E; eccentric_anomaly_delta := Array deltas |} = false
  <-> Forall2 (fun d t => (t <? d) = false) deltas tol.
Proof.
  unfold Solaris6K.solver_test, any. cbn [eccentric_anomaly_delta np_greater].
  revert tol. induction deltas as [|d deltas IH]; intros [|t tol] Hlen;
    try discriminate Hlen; simpl.
  - split; [constructor | reflexivity].
  - injection Hlen as Hlen. specialize (IH tol Hlen). rewrite orb_false_iff. split.
    + intros [Hd Hrest]. constructor; [exact Hd | apply IH; exact Hrest].
    + intros H. inversion H; subst. split; [assumption | apply IH; assumption].
Qed.

End PerBody.

(** ** Array shapes *)

(** The length of an array built by element-wise operators. *)
Ltac array_lengths :=
  unfold add, sub, mul, div, neg, scale, rsub, full_like, mul_rows, sum_axis1, dot_rows,
    Solaris6K.sin_wrapper_a, Solaris6K.cos_wrapper_a, Solaris6K.arcsin_wrapper_a, row;
  cbv beta iota zeta;
  repeat (rewrite ?length_column_stack, ?length_map2, ?length_map).

Ltac equal_lengths :=
  array_lengths;
  repeat match goal with H : length _ = _ |- _ => rewrite H end;
  rewrite ?Nat.min_id; try reflexivity.

Section Binary64Shapes.
Local Open Scope float_scope.
Variable np : numpy.

Lemma length_get_current_value (base_value rate : list float) (time : float) :
  length (Solaris6K.get_current_value base_value rate time)
  = Nat.min (length base_value) (length rate).
Proof. unfold Solaris6K.get_current_value. array_lengths. reflexivity. Qed.

Lemma length_get_mean_anomaly (ml pl tb tc ts tf : list float) (time : float) (n : nat) :
  length ml = n -> length pl = n -> length tb = n -> length tc = n ->
  length ts = n -> length tf = n ->
  length (Solaris6K.get_mean_anomaly np ml pl (tb, tc, ts, tf) time) = n.
Proof.
  intros. unfold Solaris6K.get_mean_anomaly. equal_lengths.
Qed.

Lemma length_solver_init (M te : list float) (n : nat) :
  length M = n -> length te = n ->
  length (eccentric_anomaly (Solaris6K.solver_init np M te)) = n.
Proof.
  intros. unfold Solaris6K.solver_init. cbn [eccentric_anomaly]. equal_lengths.
Qed.

Lemma length_solver_body (M e te : list float) (s : solver_state) (n : nat) :
  length M = n -> length e = n -> length te = n ->
  length (eccentric_anomaly s) = n ->
  length (eccentric_anomaly (Solaris6K.solver_body np M e te s)) = n.
Proof.
  intros. unfold Solaris6K.solver_body. cbn [eccentric_anomaly]. equal_lengths.
Qed.

(** The loop of the solver keeps the length of [eccentric_anomaly]. *)
Lemma length_solver_run (fuel : nat) (M e tol : list float) (n : nat) :
  length M = n -> length e = n ->
  length (eccentric_anomaly (fst (fst (Solaris6K.solver_run np fuel M e tol)))) = n.
Proof.
  intros HM He. unfold Solaris6K.solver_run. cbv zeta.
  assert (Hte : length (scale e Constants.ECCENTRICITIY_FACTOR) = n)
    by (unfold scale; rewrite length_map; exact He).
  apply (while_invariant (fun s => length (eccentric_anomaly s) = n)).
  - intros s Hs. apply length_solver_body; assumption.
  - apply length_solver_init; assumption.
Qed.

Lemma length_get_eccentric_anomaly (fuel : nat) (M e tol E : list float) (n : nat) :
  length M = n -> length e = n ->
  Solaris6K.get_eccentric_anomaly np fuel M e tol = Some E -> length E = n.
Proof.
  intros HM He. pose proof (length_solver_run fuel M e tol n HM He) as H.
  unfold Solaris6K.get_eccentric_anomaly.
  destruct (Solaris6K.solver_run np fuel M e tol) as [[s k] ended].
  destruct ended; [|discriminate]. intros [= <-]. exact H.
Qed.

(** The matrix [main] prints, from arrays of one length. *)
Lemma length_positions (a e E M w n i : list float) (k : nat) :
  length a = k -> length e = k -> length E = k -> length M = k ->
  length w = k -> length n = k -> length i = k ->
  length (dot_rows (Solaris6K.eq_matrix np)
            (Solaris6K.get_ecliptic_coordinate np
               (Solaris6K.heliocentric_coordinates np a e E M) w n i)) = k.
Proof.
  intros. unfold Solaris6K.eq_matrix, Solaris6K.get_ecliptic_coordinate,
    Solaris6K.heliocentric_coordinates.
  equal_lengths.
Qed.

Lemma main_at_rows (fuel : nat) (time : float) (rows : list (row float)) :
  Solaris6K.main_at np fuel time = Return (Some rows) -> length rows = 9%nat.
Proof.
  unfold Solaris6K.main_at. destruct (Solaris6K.get_century time) as [c|]; [|discriminate].
  cbn [and_then]. cbv zeta.
  set (M := Solaris6K.get_mean_anomaly np _ _ _ c).
  set (e := Solaris6K.get_current_value Constants.ECCENTRICITIES _ c).
  assert (HM : length M = 9%nat).
  { apply length_get_mean_anomaly; try reflexivity;
      rewrite length_get_current_value; reflexivity. }
  assert (He : length e = 9%nat) by (unfold e; rewrite length_get_current_value; reflexivity).
  destruct (Solaris6K.get_eccentric_anomaly np fuel M e _) as [E|] eqn:HE; [|discriminate].
  apply length_get_eccentric_anomaly with (n := 9%nat) in HE; [|assumption..].
  cbn [option_map]. intros [= <-].
  apply length_positions; try assumption;
    unfold Solaris6K.get_perihelion_argument; array_lengths;
    rewrite ?length_get_current_value; reflexivity.
Qed.

End Binary64Shapes.

(** ** Where the solver's loop stops *)

Section SolverLoop.
Local Open Scope float_scope.
Variable np : numpy.

Lemma solver_final_state (fuel : nat) (M e tol : list float) :
  length e = length M -> length tol = length M ->
  let '(s, n, ended) := Solaris6K.solver_run np fuel M e tol in
  (n = 0%nat
   /\ s = Solaris6K.solver_init np M (scale e Constants.ECCENTRICITIY_FACTOR)
   /\ (ended = true <-> existsb (fun t => t <? infinity) tol = false))
  \/ ((1 <= n)%nat
      /\ exists (previous : solver_state) (deltas : list float),
          length (eccentric_anomaly previous) = length M
          /\ s = Solaris6K.solver_body np M e (scale e Constants.ECCENTRICITIY_FACTOR) previous
          /\ eccentric_anomaly_delta s = Array deltas
          /\ length deltas = length M
          /\ (ended = true <-> Forall2 (fun d t => (t <? d) = false) deltas tol)).
Proof.
  intros He Htol. unfold Solaris6K.solver_run. cbv zeta.
  set (te := scale e Constants.ECCENTRICITIY_FACTOR).
  assert (Hte : length te = length M) by (unfold te, scale; rewrite length_map; exact He).
  pose proof (while_result (fun s => length (eccentric_anomaly s) = length M)
                (Solaris6K.solver_test tol) (Solaris6K.solver_body np M e te)
                (fun s Hs => length_solver_body np M e te s (length M) eq_refl He Hte Hs)
                fuel (Solaris6K.solver_init np M te)
                (length_solver_init np M te (length M) eq_refl Hte)) as Hres.
  pose proof (while_test_at_end (Solaris6K.solver_test tol)
                (Solaris6K.solver_body np M e te) fuel (Solaris6K.solver_init np M te))
    as Hend.
  destruct (while fuel _ _ _) as [[s n] ended].
  destruct Hres as [[-> ->]|[Hn (p & Hp & _ & ->)]].
  - left. split; [reflexivity|]. split; [reflexivity|].
    rewrite solver_first_test in Hend. rewrite Hend. destruct ended; simpl; split; congruence.
  - right. split; [exact Hn|]. unfold te in *. clear te.
    pose proof (solver_body_bodies np M e p) as Hb.
    set (deltas := map (fun '(M0, (e0, E)) =>
                          (M0 - (E - e0 * Constants.ECCENTRICITIY_FACTOR
                                     * Solaris6K.sin_wrapper np E))
                          / (1 - e0 * Solaris6K.cos_wrapper np E))
                       (combine M (combine e (eccentric_anomaly p)))) in *.
    assert (Hlen : length deltas = length M).
    { unfold deltas. rewrite length_map, !length_combine, He, Hp, !Nat.min_id. reflexivity. }
    exists p, deltas. split; [exact Hp|]. split; [reflexivity|].
    rewrite Hb in *. cbn [eccentric_anomaly_delta]. split; [reflexivity|].
    split; [exact Hlen|].
    rewrite <- solver_test_signed by (rewrite Hlen, Htol; reflexivity).
    rewrite Hend. destruct ended; simpl; split; congruence.
Qed.

End SolverLoop.

(** ** Claims settled on the binary64 reading *)

Section Binary64Claims.
Local Open Scope float_scope.
Local Open Scope array_scope.

(** C7.  On a table of base values and a table of rates with one entry per
    body, the Element Interpolator returns one value per body, which is
    [base + rate * t] for every base value, rate and century offset, with no
    clamping and no normalisation of angles; and at [t = 0], the century
    offset of J2000.0 itself, each of the six tables [main] interpolates
    comes out equal to its tabulated base values, bit for bit, every
    product [rate * 0] being zero. *)
Theorem get_current_value_linear :
  (forall (base_value rate : list float) (time : float),
      length rate = length base_value ->
      length (Solaris6K.get_current_value base_value rate time) = length base_value
      /\ forall (i : nat) (b r : float),
          nth_error base_value i = Some b -> nth_error rate i = Some r ->
          nth_error (Solaris6K.get_current_value base_value rate time) i
          = Some (b + r * time))
  /\ Solaris6K.get_century 2451545.0 = Return 0
  /\ Forall (fun '(base_value, rate) =>
               length rate = length base_value
               /\ Solaris6K.get_current_value base_value rate 0 = base_value
               /\ forallb (fun r => r * 0 =? 0) rate = true)
            element_tables.
Proof.
  split; [|split].
  - intros base_value rate time Hlen. split.
    + rewrite length_get_current_value, Hlen. apply Nat.min_id.
    + intros i b r Hb Hr. unfold Solaris6K.get_current_value, add, scale.
      rewrite nth_error_map2, nth_error_map, Hb, Hr. reflexivity.
  - vm_compute. reflexivity.
  - unfold element_tables. repeat constructor; vm_compute; reflexivity.
Qed.

(** C7 on two bodies, one century after J2000.0. *)
Lemma get_current_value_linear_witness :
  length [10; 20] = length [1; 2]
  /\ length (Solaris6K.get_current_value [1; 2] [10; 20] 1) = length [1; 2]
  /\ forall (i : nat) (b r : float),
      nth_error [1; 2] i = Some b -> nth_error [10; 20] i = Some r ->
      nth_error (Solaris6K.get_current_value [1; 2] [10; 20] 1) i = Some (b + r * 1).
Proof.
  split; [reflexivity|].
  apply (proj1 get_current_value_linear [1; 2] [10; 20] 1). reflexivity.
Defined.

(** C8.  On a heliocentric array and three arrays of angles with one entry
    per body, the Ecliptic Rotator returns one row per body: the dot
    products of the body's heliocentric vector with the three rows Px, Py
    and Pz of the specification, taken at w = perihelion_longitude -
    ascending_node_longitude. *)
Theorem get_ecliptic_coordinate_rows (np : numpy) (heliocentric_coordinate : list (row float))
    (perihelion_longitude ascending_node_longitude inclination : list float) :
  length perihelion_longitude = length heliocentric_coordinate ->
  length ascending_node_longitude = length heliocentric_coordinate ->
  length inclination = length heliocentric_coordinate ->
  length (Solaris6K.get_ecliptic_coordinate np heliocentric_coordinate
            (Solaris6K.get_perihelion_argument perihelion_longitude ascending_node_longitude)
            ascending_node_longitude inclination)
  = length heliocentric_coordinate
  /\ Solaris6K.get_ecliptic_coordinate np heliocentric_coordinate
       (Solaris6K.get_perihelion_argument perihelion_longitude ascending_node_longitude)
       ascending_node_longitude inclination
     = map (fun '(h, (p, (n, i))) =>
              let w := p - n in
              (dot3 h (spec_Px np w n i), dot3 h (spec_Py np w n i), dot3 h (spec_Pz np w i)))
           (combine heliocentric_coordinate
              (combine perihelion_longitude (combine ascending_node_longitude inclination))).
Proof.
  intros Hp Hn Hi. rewrite get_ecliptic_coordinate_bodies. split; [|reflexivity].
  rewrite length_map, !length_combine, Hp, Hn, Hi, !Nat.min_id. reflexivity.
Qed.

(** C8 on one body, with the small-angle routines. *)
Lemma get_ecliptic_coordinate_rows_witness :
  length [30] = length [(1, 2, 0)]
  /\ length [20] = length [(1, 2, 0)]
  /\ length [5] = length [(1, 2, 0)]
  /\ length (Solaris6K.get_ecliptic_coordinate small_angle_numpy [(1, 2, 0)]
               (Solaris6K.get_perihelion_argument [30] [20]) [20] [5])
     = length [(1, 2, 0)]
  /\ Solaris6K.get_ecliptic_coordinate small_angle_numpy [(1, 2, 0)]
       (Solaris6K.get_perihelion_argument [30] [20]) [20] [5]
     = map (fun '(h, (p, (n, i))) =>
              let w := p - n in
              (dot3 h (spec_Px small_angle_numpy w n i),
               dot3 h (spec_Py small_angle_numpy w n i),
               dot3 h (spec_Pz small_angle_numpy w i)))
           (combine [(1, 2, 0)] (combine [30] (combine [20] [5]))).
Proof.
  split; [reflexivity|]. split; [reflexivity|]. split; [reflexivity|].
  apply (get_ecliptic_coordinate_rows small_angle_numpy [(1, 2, 0)] [30] [20] [5]);
    reflexivity.
Defined.

(** C9, refuted as stated.  What [solaris_6k.py] computes depends on the
    module [constants] it imports, which is not in the repository: with a
    module that binds [J2000_0] to 2415020.0 and every other name as
    [Constants.py] does, its [get_century] returns 1 for the date
    2451545.0, for which the [get_century] of [Solaris6K.py] returns 0. *)
Lemma entry_modules_differ_on_another_epoch :
  solaris_6k.get_century (with_J2000_0 Constants_py 2415020.0) 2451545.0 = Return 1
  /\ Solaris6K.get_century 2451545.0 = Return 0
  /\ (1 =? 0) = false.
Proof. repeat split; vm_compute; reflexivity. Qed.

(** C9, amended.  The functions of [solaris_6k.py] are those of
    [Solaris6K.py] up to the module the constants are read from.  The
    wrappers, [get_current_value], [get_perihelion_argument],
    [get_mean_anomaly] and [get_ecliptic_coordinate] read no constant and
    agree on every input, whatever the module [constants] holds;
    [get_century] agrees on every input if [constants] binds [J2000_0] and
    [CONVERSION_FACTOR] to the values of [Constants.py],
    [get_eccentric_anomaly] if it binds [ECCENTRICITIY_FACTOR] so, and
    [main] if it binds every name so. *)
Theorem entry_modules_agree (np : numpy) (constants : constants_module) :
  (forall x, solaris_6k.sin_wrapper np x = Solaris6K.sin_wrapper np x)
  /\ (forall x, solaris_6k.cos_wrapper np x = Solaris6K.cos_wrapper np x)
  /\ (forall x, solaris_6k.arcsin_wrapper np x = Solaris6K.arcsin_wrapper np x)
  /\ (forall x, solaris_6k.arccos_wrapper np x = Solaris6K.arccos_wrapper np x)
  /\ (forall base_value rate time,
         solaris_6k.get_current_value base_value rate time
         = Solaris6K.get_current_value base_value rate time)
  /\ (forall perihelion_longitude ascending_node_longitude,
         solaris_6k.get_perihelion_argument perihelion_longitude ascending_node_longitude
         = Solaris6K.get_perihelion_argument perihelion_longitude ascending_node_longitude)
  /\ (forall mean_longitude perihelion_longitude additional_terms time,
         solaris_6k.get_mean_anomaly np mean_longitude perihelion_longitude
                                     additional_terms time
         = Solaris6K.get_mean_anomaly np mean_longitude perihelion_longitude
                                      additional_terms time)
  /\ (forall heliocentric_coordinate perihelion_argument ascending_node_longitude inclination,
         solaris_6k.get_ecliptic_coordinate np heliocentric_coordinate perihelion_argument
                                            ascending_node_longitude inclination
         = Solaris6K.get_ecliptic_coordinate np heliocentric_coordinate perihelion_argument
                                             ascending_node_longitude inclination)
  /\ (J2000_0 constants = Constants.J2000_0 ->
      CONVERSION_FACTOR constants = Constants.CONVERSION_FACTOR ->
      forall jd_time,
        solaris_6k.get_century constants jd_time = Solaris6K.get_century jd_time)
  /\ (ECCENTRICITIY_FACTOR constants = Constants.ECCENTRICITIY_FACTOR ->
      forall fuel mean_anomaly eccentricity tol,
        solaris_6k.get_eccentric_anomaly np constants fuel mean_anomaly eccentricity tol
        = Solaris6K.get_eccentric_anomaly np fuel mean_anomaly eccentricity tol)
  /\ (constants = Constants_py ->
      (forall fuel time,
          solaris_6k.main_at np constants fuel time = Solaris6K.main_at np fuel time)
      /\ (forall fuel, solaris_6k.main np constants fuel = Solaris6K.main np fuel)).
Proof.
  repeat match goal with |- _ /\ _ => split end; try (intros; reflexivity).
  - intros HJ HC jd_time. unfold solaris_6k.get_century, Solaris6K.get_century.
    rewrite HJ, HC. reflexivity.
  - intros HF fuel mean_anomaly eccentricity tol.
    unfold solaris_6k.get_eccentric_anomaly, solaris_6k.solver_run,
      Solaris6K.get_eccentric_anomaly, Solaris6K.solver_run.
    rewrite HF. reflexivity.
  - intros ->. split; intros; reflexivity.
Qed.

(** C9, amended, with [Constants.py] for the module [constants]. *)
Lemma entry_modules_agree_witness :
  J2000_0 Constants_py = Constants.J2000_0
  /\ CONVERSION_FACTOR Constants_py = Constants.CONVERSION_FACTOR
  /\ ECCENTRICITIY_FACTOR Constants_py = Constants.ECCENTRICITIY_FACTOR
  /\ (forall jd_time,
         solaris_6k.get_century Constants_py jd_time = Solaris6K.get_century jd_time)
  /\ (forall fuel mean_anomaly eccentricity tol,
         solaris_6k.get_eccentric_anomaly small_angle_numpy Constants_py fuel mean_anomaly
                                          eccentricity tol
         = Solaris6K.get_eccentric_anomaly small_angle_numpy fuel mean_anomaly eccentricity
                                           tol)
  /\ (forall fuel time,
         solaris_6k.main_at small_angle_numpy Constants_py fuel time
         = Solaris6K.main_at small_angle_numpy fuel time)
  /\ (forall fuel,
         solaris_6k.main small_angle_numpy Constants_py fuel
         = Solaris6K.main small_angle_numpy fuel).
Proof.
  destruct (entry_modules_agree small_angle_numpy Constants_py)
    as (_ & _ & _ & _ & _ & _ & _ & _ & Hcentury & Hsolver & Hmain).
  split; [reflexivity|]. split; [reflexivity|]. split; [reflexivity|].
  split; [exact (Hcentury eq_refl eq_refl)|].
  split; [exact (Hsolver eq_refl)|].
  exact (Hmain eq_refl).
Defined.

(** C5, refuted as stated.  With eccentricity 2 the Heliocentric Projector
    raises nothing: whatever numpy's cosine and sine return, it hands back a
    row whose second component is NaN. *)
Lemma heliocentric_projector_returns_nan :
  (1 <=? 2) = true
  /\ forall np : numpy,
      Solaris6K.heliocentric_coordinates np [1] [2] [0] [0]
      = [(1 * (Solaris6K.cos_wrapper np 0 - 2), nan, 0)].
Proof.
  split; [reflexivity|]. intros np.
  rewrite heliocentric_coordinates_per_body. simpl.
  rewrite mul_nan_l. reflexivity.
Qed.

(** C5, amended.  The Heliocentric Projector validates nothing and raises
    nothing: for every semi-major axis, eccentricity and eccentric anomaly
    it returns [x = a (cos_deg E - e)], [y = a sqrt(1 - e e) sin_deg E] and
    [z = 0]; when [1 - e e] is negative, [y] is NaN, and at [e = 1] it is
    [a * 0 * sin_deg E]. *)
Theorem heliocentric_projector_unguarded :
  (forall (np : numpy) (semi_major_axes eccentricities eccentric_anomalies mean_anomalies
             : list float),
      Solaris6K.heliocentric_coordinates np semi_major_axes eccentricities
                                         eccentric_anomalies mean_anomalies
      = map (fun '(a, (e, (E, _))) =>
               (a * (Solaris6K.cos_wrapper np E - e),
                a * PrimFloat.sqrt (1 - e * e) * Solaris6K.sin_wrapper np E,
                0))
            (combine semi_major_axes
               (combine eccentricities (combine eccentric_anomalies mean_anomalies))))
  /\ (forall a e s : float,
         (1 - e * e <? 0) = true -> a * PrimFloat.sqrt (1 - e * e) * s = nan)
  /\ (forall a s : float, a * PrimFloat.sqrt (1 - 1 * 1) * s = a * 0 * s).
Proof.
  split; [|split].
  - intros. apply heliocentric_coordinates_per_body.
  - intros a e s H. rewrite (sqrt_negative _ H), mul_nan_r, mul_nan_l. reflexivity.
  - intros a s. reflexivity.
Qed.

(** The amended C5 at [a = 1], [e = 2] and a sine of 0. *)
Lemma heliocentric_projector_unguarded_witness :
  (1 - 2 * 2 <? 0) = true /\ 1 * PrimFloat.sqrt (1 - 2 * 2) * 0 = nan.
Proof.
  split; [reflexivity|].
  apply (proj1 (proj2 heliocentric_projector_unguarded) 1 2 0). reflexivity.
Defined.

(** X2.  In the binary64 reading too, [get_mean_anomaly] hands [f * t] to
    [numpy.cos] and [numpy.sin] as it is, without [deg2rad]: on six arrays
    with one entry per body it returns, for every body, the normalisation
    of [l - p + b * t ** 2 + c * cos(f * t) + s * sin(f * t)]. *)
Theorem get_mean_anomaly_per_body (np : numpy) (mean_longitude perihelion_longitude
                                     term_b term_c term_s term_f : list float)
    (time : float) :
  length perihelion_longitude = length mean_longitude ->
  length term_b = length mean_longitude ->
  length term_c = length mean_longitude ->
  length term_s = length mean_longitude ->
  length term_f = length mean_longitude ->
  length (Solaris6K.get_mean_anomaly np mean_longitude perihelion_longitude
                                     (term_b, term_c, term_s, term_f) time)
  = length mean_longitude
  /\ Solaris6K.get_mean_anomaly np mean_longitude perihelion_longitude
                                (term_b, term_c, term_s, term_f) time
     = map (fun '(l, (p, (b, (c, (s, f))))) =>
              Solaris6K.arcsin_wrapper np
                (Solaris6K.sin_wrapper np
                   (l - p + b * np_power np time 2 + c * np_cos np (f * time)
                    + s * np_sin np (f * time))))
           (combine mean_longitude
              (combine perihelion_longitude
                 (combine term_b (combine term_c (combine term_s term_f))))).
Proof.
  intros Hp Hb Hc Hs Hf. split; [|apply get_mean_anomaly_bodies].
  apply length_get_mean_anomaly; auto.
Qed.

(** X2 on one body, with the small-angle routines. *)
Lemma get_mean_anomaly_per_body_witness :
  length [20] = length [100]
  /\ length [0] = length [100] /\ length [1] = length [100]
  /\ length [0] = length [100] /\ length [1] = length [100]
  /\ length (Solaris6K.get_mean_anomaly small_angle_numpy [100] [20] ([0], [1], [0], [1]) 1)
     = length [100]
  /\ Solaris6K.get_mean_anomaly small_angle_numpy [100] [20] ([0], [1], [0], [1]) 1
     = map (fun '(l, (p, (b, (c, (s, f))))) =>
              Solaris6K.arcsin_wrapper small_angle_numpy
                (Solaris6K.sin_wrapper small_angle_numpy
                   (l - p + b * np_power small_angle_numpy 1 2
                    + c * np_cos small_angle_numpy (f * 1)
                    + s * np_sin small_angle_numpy (f * 1))))
           (combine [100] (combine [20] (combine [0] (combine [1] (combine [0] [1]))))).
Proof.
  repeat (split; [reflexivity|]).
  apply (get_mean_anomaly_per_body small_angle_numpy [100] [20] [0] [1] [0] [1] 1);
    reflexivity.
Defined.

(** X4.  A NaN Julian date passes the range check of [get_century], which
    returns NaN: [abs(nan) > 30] is false. *)
Theorem get_century_of_nan : Solaris6K.get_century nan = Return nan.
Proof. vm_compute. reflexivity. Qed.

(** C10, refuted as stated.  With the tolerance [+inf] the loop of
    [get_eccentric_anomaly] makes no pass at all, for every mean anomaly and
    eccentricity, and the seed is returned: [inf > inf] is false.  And the
    loop can end on a delta that is not below the tolerance: from a NaN mean
    anomaly it ends after one pass with the delta NaN, and [nan <= TOL] is
    false. *)
Lemma solver_skips_loop_or_stops_on_nan :
  (forall (np : numpy) (fuel : nat) (mean_anomaly eccentricity : list float),
      Solaris6K.solver_run np fuel mean_anomaly eccentricity [infinity]
      = (Solaris6K.solver_init np mean_anomaly
           (scale eccentricity Constants.ECCENTRICITIY_FACTOR), 0%nat, true)
      /\ Solaris6K.get_eccentric_anomaly np fuel mean_anomaly eccentricity [infinity]
         = Some (mean_anomaly
                 +^ scale eccentricity Constants.ECCENTRICITIY_FACTOR
                    *^ Solaris6K.sin_wrapper_a np mean_anomaly))
  /\ (forall (np : numpy) (fuel : nat) (e : float),
         Solaris6K.solver_run np (S fuel) [nan] [e] [Constants.TOL]
         = ({| eccentric_anomaly := [nan]; eccentric_anomaly_delta := Array [nan] |},
            1%nat, true))
  /\ (nan <=? Constants.TOL) = false.
Proof.
  split; [|split].
  - intros. unfold Solaris6K.get_eccentric_anomaly, Solaris6K.solver_run.
    destruct fuel; simpl; split; reflexivity.
  - intros. unfold Solaris6K.solver_run, Solaris6K.solver_init, Solaris6K.sin_wrapper_a,
      add, mul, scale.
    cbv zeta. cbn [map map2]. rewrite add_nan_l.
    cbn [while Solaris6K.solver_test eccentric_anomaly_delta np_greater map any existsb].
    change (Constants.TOL <? infinity) with true. cbn [orb].
    unfold Solaris6K.solver_body, Solaris6K.sin_wrapper_a, Solaris6K.cos_wrapper_a,
      add, sub, mul, div, scale, rsub.
    cbn [map map2 eccentric_anomaly]. rewrite sub_nan_l, div_nan_l, add_nan_l.
    destruct fuel; reflexivity.
  - reflexivity.
Qed.

(** C10, amended.  With one eccentricity and one tolerance per body.  The
    delta starts as [inf], so the first test of the loop succeeds exactly if
    some body's tolerance is below [+inf]; given fuel for one pass,
    [get_eccentric_anomaly] makes at least one Newton update exactly in that
    case.  A pass is a Newton update of every body: it replaces [E] by
    [E + delta] for [delta = (M - (E - e (180/pi) sin_deg E)) /
    (1 - e cos_deg E)] and keeps these deltas.  The loop stops either in the
    seed, no pass made, and it has then ended exactly if no tolerance is
    below [+inf]; or in the state a pass has made, and it has then ended
    exactly if, for every body at once, the delta of that last pass is not
    greater than the body's tolerance.  The deltas are compared with their
    signs: a delta that is not positive is never greater than a tolerance
    that is not negative, whatever its size. *)
Theorem solver_loop_control (np : numpy) (mean_anomaly eccentricity tol : list float)
    (fuel : nat) :
  length eccentricity = length mean_anomaly ->
  length tol = length mean_anomaly ->
  Solaris6K.solver_test tol
    (Solaris6K.solver_init np mean_anomaly
       (scale eccentricity Constants.ECCENTRICITIY_FACTOR))
  = existsb (fun t => t <? infinity) tol
  /\ (let '(_, n, _) := Solaris6K.solver_run np (S fuel) mean_anomaly eccentricity tol in
      (1 <= n)%nat <-> existsb (fun t => t <? infinity) tol = true)
  /\ (forall s : solver_state,
         length (eccentric_anomaly s) = length mean_anomaly ->
         Solaris6K.solver_body np mean_anomaly eccentricity
           (scale eccentricity Constants.ECCENTRICITIY_FACTOR) s
         = {| eccentric_anomaly :=
                map (fun '(M, (e, E)) =>
                       E + (M - (E - e * Constants.ECCENTRICITIY_FACTOR
                                     * Solaris6K.sin_wrapper np E))
                           / (1 - e * Solaris6K.cos_wrapper np E))
                    (combine mean_anomaly (combine eccentricity (eccentric_anomaly s)));
              eccentric_anomaly_delta :=
                Array (map (fun '(M, (e, E)) =>
                              (M - (E - e * Constants.ECCENTRICITIY_FACTOR
                                        * Solaris6K.sin_wrapper np E))
                              / (1 - e * Solaris6K.cos_wrapper np E))
                           (combine mean_anomaly
                              (combine eccentricity (eccentric_anomaly s)))) |})
  /\ (let '(s, n, ended) := Solaris6K.solver_run np fuel mean_anomaly eccentricity tol in
      (n = 0%nat
       /\ s = Solaris6K.solver_init np mean_anomaly
                (scale eccentricity Constants.ECCENTRICITIY_FACTOR)
       /\ (ended = true <-> existsb (fun t => t <? infinity) tol = false))
      \/ ((1 <= n)%nat
          /\ exists (previous : solver_state) (deltas : list float),
              length (eccentric_anomaly previous) = length mean_anomaly
              /\ s = Solaris6K.solver_body np mean_anomaly eccentricity
                       (scale eccentricity Constants.ECCENTRICITIY_FACTOR) previous
              /\ eccentric_anomaly_delta s = Array deltas
              /\ length deltas = length mean_anomaly
              /\ (ended = true <-> Forall2 (fun d t => (t <? d) = false) deltas tol)))
  /\ (forall d t : float, (d <=? 0) = true -> (0 <=? t) = true -> (t <? d) = false).
Proof.
  intros He Htol. split; [|split; [|split; [|split]]].
  - apply solver_first_test.
  - unfold Solaris6K.solver_run. cbv zeta.
    set (term_e := scale eccentricity Constants.ECCENTRICITIY_FACTOR).
    pose proof (while_first_pass (Solaris6K.solver_test tol)
                  (Solaris6K.solver_body np mean_anomaly eccentricity term_e) fuel
                  (Solaris6K.solver_init np mean_anomaly term_e)) as H.
    destruct (while (S fuel) _ _ _) as [[s n] ended].
    rewrite solver_first_test in H. exact H.
  - intros s _. apply solver_body_bodies.
  - apply solver_final_state; assumption.
  - exact nonpositive_not_greater.
Qed.

(** C10, amended, on two bodies, with the small-angle routines and fuel for
    eight passes. *)
Lemma solver_loop_control_witness :
  length [0.5; 0.25] = length [10; 20]
  /\ length [Constants.TOL; Constants.TOL] = length [10; 20]
  /\ Solaris6K.solver_test [Constants.TOL; Constants.TOL]
       (Solaris6K.solver_init small_angle_numpy [10; 20]
          (scale [0.5; 0.25] Constants.ECCENTRICITIY_FACTOR))
     = existsb (fun t => t <? infinity) [Constants.TOL; Constants.TOL]
  /\ (let '(_, n, _) := Solaris6K.solver_run small_angle_numpy 9 [10; 20] [0.5; 0.25]
                          [Constants.TOL; Constants.TOL] in
      (1 <= n)%nat <-> existsb (fun t => t <? infinity) [Constants.TOL; Constants.TOL] = true)
  /\ (forall s : solver_state,
         length (eccentric_anomaly s) = length [10; 20] ->
         Solaris6K.solver_body small_angle_numpy [10; 20] [0.5; 0.25]
           (scale [0.5; 0.25] Constants.ECCENTRICITIY_FACTOR) s
         = {| eccentric_anomaly :=
                map (fun '(M, (e, E)) =>
                       E + (M - (E - e * Constants.ECCENTRICITIY_FACTOR
                                     * Solaris6K.sin_wrapper small_angle_numpy E))
                           / (1 - e * Solaris6K.cos_wrapper small_angle_numpy E))
                    (combine [10; 20] (combine [0.5; 0.25] (eccentric_anomaly s)));
              eccentric_anomaly_delta :=
                Array (map (fun '(M, (e, E)) =>
                              (M - (E - e * Constants.ECCENTRICITIY_FACTOR
                                        * Solaris6K.sin_wrapper small_angle_numpy E))
                              / (1 - e * Solaris6K.cos_wrapper small_angle_numpy E))
                           (combine [10; 20]
                              (combine [0.5; 0.25] (eccentric_anomaly s)))) |})
  /\ (let '(s, n, ended) := Solaris6K.solver_run small_angle_numpy 8 [10; 20] [0.5; 0.25]
                              [Constants.TOL; Constants.TOL] in
      (n = 0%nat
       /\ s = Solaris6K.solver_init small_angle_numpy [10; 20]
                (scale [0.5; 0.25] Constants.ECCENTRICITIY_FACTOR)
       /\ (ended = true
           <-> existsb (fun t => t <? infinity) [Constants.TOL; Constants.TOL] = false))
      \/ ((1 <= n)%nat
          /\ exists (previous : solver_state) (deltas : list float),
              length (eccentric_anomaly previous) = length [10; 20]
              /\ s = Solaris6K.solver_body small_angle_numpy [10; 20] [0.5; 0.25]
                       (scale [0.5; 0.25] Constants.ECCENTRICITIY_FACTOR) previous
              /\ eccentric_anomaly_delta s = Array deltas
              /\ length deltas = length [10; 20]
              /\ (ended = true
                  <-> Forall2 (fun d t => (t <? d) = false) deltas
                              [Constants.TOL; Constants.TOL])))
  /\ (forall d t : float, (d <=? 0) = true -> (0 <=? t) = true -> (t <? d) = false).
Proof.
  split; [reflexivity|]. split; [reflexivity|].
  apply (solver_loop_control small_angle_numpy [10; 20] [0.5; 0.25]
           [Constants.TOL; Constants.TOL] 8); reflexivity.
Defined.

End Binary64Claims.

(** ** The heap-level program computes the pure one *)

Section HeapFacts.
Import Heap.

Lemma lookup_old (h ext : heap) (l : loc) (v : list float) :
  nth_error h l = Some v -> nth_error (h ++ ext) l = Some v.
Proof.
  intros H. rewrite nth_error_app1; [exact H|].
  apply nth_error_Some. rewrite H. discriminate.
Qed.

Lemma lookup_new (h ext : heap) (i : nat) (v : list float) :
  nth_error ext i = Some v -> nth_error (h ++ ext) (length h + i) = Some v.
Proof.
  intros H. rewrite nth_error_app2 by lia.
  replace (length h + i - length h)%nat with i by lia. exact H.
Qed.

Lemma nth_lookup (h : heap) (l : loc) (v : list float) :
  nth_error h l = Some v -> nth l h [] = v.
Proof. intros H. apply nth_error_nth. exact H. Qed.

Lemma update_new (h ext : heap) (i : nat) (v : list float) :
  update (length h + i) v (h ++ ext) = h ++ update i v ext.
Proof.
  induction h as [|c h IH]; simpl; [destruct ext; reflexivity|].
  rewrite IH. reflexivity.
Qed.

Lemma update_old (h ext : heap) (l : loc) (v : list float) :
  (l < length h)%nat -> update l v (h ++ ext) = update l v h ++ ext.
Proof.
  revert l; induction h as [|c h IH]; intros l Hl; simpl in *; [lia|].
  destruct l; simpl; [reflexivity|]. rewrite IH by lia. reflexivity.
Qed.

Lemma nth_error_update_other (h : heap) (l l' : loc) (v : list float) :
  l' <> l -> nth_error (update l v h) l' = nth_error h l'.
Proof.
  revert l l'; induction h as [|c h IH]; intros l l' Hne; simpl.
  - destruct l; reflexivity.
  - destruct l, l'; simpl; try reflexivity; [congruence|]. apply IH. congruence.
Qed.

Lemma nth_error_update_same (h : heap) (l : loc) (v : list float) :
  (l < length h)%nat -> nth_error (update l v h) l = Some v.
Proof.
  revert l; induction h as [|c h IH]; intros l Hl; simpl in *; [lia|].
  destruct l; [reflexivity|]. apply IH. lia.
Qed.

Lemma length_update (h : heap) (l : loc) (v : list float) :
  length (update l v h) = length h.
Proof.
  revert l; induction h as [|c h IH]; intros l; simpl; [destruct l; reflexivity|].
  destruct l; simpl; [reflexivity|]. rewrite IH. reflexivity.
Qed.

(** Running the primitive statements in front of a continuation [k], on a
    heap split into the part a function was entered with and the cells it
    has allocated since. *)
Lemma run_unary {A : Type} (f : list float -> list float) (a : loc) (k : loc -> M A)
    (h ext : heap) (va : list float) (r : outcome A * heap) :
  nth_error (h ++ ext) a = Some va ->
  k (length h + length ext)%nat (h ++ (ext ++ [f va])) = r ->
  bind (unary f a) k (h ++ ext) = r.
Proof.
  intros Ha <-. unfold unary, load, new, bind. cbv beta iota.
  rewrite (nth_lookup _ _ _ Ha), length_app, <- app_assoc. reflexivity.
Qed.

Lemma run_binary {A : Type} (f : list float -> list float -> list float) (a b : loc)
    (k : loc -> M A) (h ext : heap) (va vb : list float) (r : outcome A * heap) :
  nth_error (h ++ ext) a = Some va ->
  nth_error (h ++ ext) b = Some vb ->
  k (length h + length ext)%nat (h ++ (ext ++ [f va vb])) = r ->
  bind (binary f a b) k (h ++ ext) = r.
Proof.
  intros Ha Hb <-. unfold binary, load, new, bind. cbv beta iota.
  rewrite (nth_lookup _ _ _ Ha), (nth_lookup _ _ _ Hb), length_app, <- app_assoc.
  reflexivity.
Qed.

Lemma run_iadd_new {A : Type} (i : nat) (b : loc) (k : unit -> M A)
    (h ext : heap) (va vb : list float) (r : outcome A * heap) :
  nth_error ext i = Some va ->
  nth_error (h ++ ext) b = Some vb ->
  k tt (h ++ update i (add va vb) ext) = r ->
  bind (iadd (length h + i) b) k (h ++ ext) = r.
Proof.
  intros Ha Hb <-. unfold iadd, load, store, bind. cbv beta iota.
  rewrite (nth_lookup _ _ _ (lookup_new h ext i va Ha)), (nth_lookup _ _ _ Hb), update_new.
  reflexivity.
Qed.

Lemma run_iadd_old {A : Type} (a b : loc) (k : unit -> M A)
    (h ext : heap) (va vb : list float) (r : outcome A * heap) :
  nth_error h a = Some va ->
  nth_error (h ++ ext) b = Some vb ->
  k tt (update a (add va vb) h ++ ext) = r ->
  bind (iadd a b) k (h ++ ext) = r.
Proof.
  intros Ha Hb <-. unfold iadd, load, store, bind. cbv beta iota.
  rewrite (nth_lookup _ _ _ (lookup_old h ext a va Ha)), (nth_lookup _ _ _ Hb).
  rewrite update_old; [reflexivity|]. apply nth_error_Some. rewrite Ha. discriminate.
Qed.

Lemma run_new {A : Type} (v : list float) (k : loc -> M A) (h ext : heap)
    (r : outcome A * heap) :
  k (length h + length ext)%nat (h ++ (ext ++ [v])) = r ->
  bind (new v) k (h ++ ext) = r.
Proof. intros <-. unfold bind, new. rewrite length_app, <- app_assoc. reflexivity. Qed.

Lemma run_column_stack {A : Type} (c1 c2 c3 : loc) (k : list (row float) -> M A)
    (h : heap) (v1 v2 v3 : list float) (r : outcome A * heap) :
  nth_error h c1 = Some v1 -> nth_error h c2 = Some v2 -> nth_error h c3 = Some v3 ->
  k (column_stack v1 v2 v3) h = r ->
  bind (column_stack_ c1 c2 c3) k h = r.
Proof.
  intros H1 H2 H3 <-. unfold column_stack_, load, ret, bind. cbv beta iota.
  rewrite (nth_lookup _ _ _ H1), (nth_lookup _ _ _ H2), (nth_lookup _ _ _ H3). reflexivity.
Qed.

Lemma run_ret {A B : Type} (a : A) (k : A -> M B) (h : heap) (r : outcome B * heap) :
  k a h = r -> bind (ret a) k h = r.
Proof. intros <-. reflexivity. Qed.

Lemma bind_bind {A B C : Type} (m : M A) (k1 : A -> M B) (k2 : B -> M C) (h : heap) :
  bind (bind m k1) k2 h = bind m (fun a => bind (k1 a) k2) h.
Proof. unfold bind. destruct (m h) as [[a|e|] h']; reflexivity. Qed.

Lemma run_bind {A B C : Type} (m : M A) (k1 : A -> M B) (k2 : B -> M C) (h : heap)
    (r : outcome C * heap) :
  bind m (fun a => bind (k1 a) k2) h = r -> bind (bind m k1) k2 h = r.
Proof. intros <-. apply bind_bind. Qed.

Lemma bind_ret {A : Type} (m : M A) (h : heap) : m h = bind m ret h.
Proof. unfold bind, ret. destruct (m h) as [[a|e|] h']; reflexivity. Qed.

Lemma from_entry {A : Type} (m : M A) (h : heap) (r : outcome A * heap) :
  bind m ret (h ++ []) = r -> m h = r.
Proof. rewrite app_nil_r, <- bind_ret. exact (fun H => H). Qed.

Variable np : numpy.

Lemma run_sin_wrapper {A : Type} (a : loc) (k : loc -> M A) (h ext : heap) (va : list float)
    (r : outcome A * heap) :
  nth_error (h ++ ext) a = Some va ->
  k (length h + (length ext + 1))%nat
    (h ++ (ext ++ [map (np_deg2rad np) va; Solaris6K.sin_wrapper_a np va])) = r ->
  bind (sin_wrapper_a np a) k (h ++ ext) = r.
Proof.
  intros Ha <-. unfold sin_wrapper_a. apply run_bind.
  eapply run_unary; [exact Ha|].
  eapply run_unary.
  - apply lookup_new. rewrite nth_error_app2 by lia.
    replace (length ext - length ext)%nat with 0%nat by lia. reflexivity.
  - rewrite length_app, <- app_assoc. reflexivity.
Qed.

Lemma run_cos_wrapper {A : Type} (a : loc) (k : loc -> M A) (h ext : heap) (va : list float)
    (r : outcome A * heap) :
  nth_error (h ++ ext) a = Some va ->
  k (length h + (length ext + 1))%nat
    (h ++ (ext ++ [map (np_deg2rad np) va; Solaris6K.cos_wrapper_a np va])) = r ->
  bind (cos_wrapper_a np a) k (h ++ ext) = r.
Proof.
  intros Ha <-. unfold cos_wrapper_a. apply run_bind.
  eapply run_unary; [exact Ha|].
  eapply run_unary.
  - apply lookup_new. rewrite nth_error_app2 by lia.
    replace (length ext - length ext)%nat with 0%nat by lia. reflexivity.
  - rewrite length_app, <- app_assoc. reflexivity.
Qed.

Lemma run_arcsin_wrapper {A : Type} (a : loc) (k : loc -> M A) (h ext : heap)
    (va : list float) (r : outcome A * heap) :
  nth_error (h ++ ext) a = Some va ->
  k (length h + (length ext + 1))%nat
    (h ++ (ext ++ [map (np_arcsin np) va; Solaris6K.arcsin_wrapper_a np va])) = r ->
  bind (arcsin_wrapper_a np a) k (h ++ ext) = r.
Proof.
  intros Ha <-. unfold arcsin_wrapper_a. apply run_bind.
  eapply run_unary; [exact Ha|].
  eapply run_unary.
  - apply lookup_new. rewrite nth_error_app2 by lia.
    replace (length ext - length ext)%nat with 0%nat by lia. reflexivity.
  - rewrite length_app, <- app_assoc. reflexivity.
Qed.

End HeapFacts.

Ltac heap_lookup :=
  first [ apply lookup_old; eassumption
        | apply lookup_new; reflexivity ].

(** One statement of a heap-level function, executed symbolically. *)
Ltac heap_step :=
  lazymatch goal with
  | |- Heap.bind (Heap.bind _ _) _ _ = _ => apply run_bind
  | |- Heap.bind (Heap.sin_wrapper_a _ _) _ _ = _ => eapply run_sin_wrapper; [heap_lookup|]
  | |- Heap.bind (Heap.cos_wrapper_a _ _) _ _ = _ => eapply run_cos_wrapper; [heap_lookup|]
  | |- Heap.bind (Heap.arcsin_wrapper_a _ _) _ _ = _ =>
      eapply run_arcsin_wrapper; [heap_lookup|]
  | |- Heap.bind (Heap.binary _ _ _) _ _ = _ =>
      eapply run_binary; [heap_lookup | heap_lookup |]
  | |- Heap.bind (Heap.unary _ _) _ _ = _ => eapply run_unary; [heap_lookup|]
  | |- Heap.bind (Heap.iadd (_ + _) _) _ _ = _ =>
      eapply run_iadd_new; [reflexivity | heap_lookup |]
  | |- Heap.bind (Heap.iadd _ _) _ _ = _ =>
      eapply run_iadd_old; [eassumption | heap_lookup |]
  | |- Heap.bind (Heap.new _) _ _ = _ => eapply run_new
  | |- Heap.bind (Heap.column_stack_ _ _ _) _ _ = _ =>
      eapply run_column_stack; [heap_lookup | heap_lookup | heap_lookup |]
  | |- Heap.bind (Heap.ret _) _ _ = _ => apply run_ret
  end;
  cbn [length app Nat.add Heap.update nth_error].

Section HeapFunctions.
Import Heap.
Variable np : numpy.

Lemma get_current_value_run (base_value rate : loc) (time : float) (h : heap)
    (vb vr : list float) :
  nth_error h base_value = Some vb ->
  nth_error h rate = Some vr ->
  exists r ext,
    get_current_value base_value rate time h = (Value r, h ++ ext)
    /\ nth_error (h ++ ext) r = Some (Solaris6K.get_current_value vb vr time).
Proof.
  intros Hb Hr. do 2 eexists. split.
  - apply from_entry. unfold get_current_value.
    repeat heap_step. reflexivity.
  - heap_lookup.
Qed.

Lemma get_mean_anomaly_run (ml pl tb tc ts tf : loc) (time : float) (h : heap)
    (vml vpl vtb vtc vts vtf : list float) :
  nth_error h ml = Some vml -> nth_error h pl = Some vpl ->
  nth_error h tb = Some vtb -> nth_error h tc = Some vtc ->
  nth_error h ts = Some vts -> nth_error h tf = Some vtf ->
  exists r ext,
    get_mean_anomaly np ml pl (tb, tc, ts, tf) time h = (Value r, h ++ ext)
    /\ nth_error (h ++ ext) r
       = Some (Solaris6K.get_mean_anomaly np vml vpl (vtb, vtc, vts, vtf) time)
    /\ (length h <= r)%nat.
Proof.
  intros Hml Hpl Htb Htc Hts Htf. do 2 eexists. split; [|split].
  - apply from_entry. unfold get_mean_anomaly.
    repeat heap_step. reflexivity.
  - heap_lookup.
  - lia.
Qed.

End HeapFunctions.

Section HeapSolver.
Import Heap.
Variable np : numpy.

Lemma extends_refl (h : heap) : extends h h.
Proof. exists []. symmetry. apply app_nil_r. Qed.

Lemma extends_trans (h1 h2 h3 : heap) : extends h1 h2 -> extends h2 h3 -> extends h1 h3.
Proof. intros [e1 ->] [e2 ->]. exists (e1 ++ e2). rewrite app_assoc. reflexivity. Qed.

Lemma extends_lookup (h h' : heap) (l : loc) (v : list float) :
  extends h h' -> nth_error h l = Some v -> nth_error h' l = Some v.
Proof. intros [ext ->]. apply lookup_old. Qed.

Lemma extends_of_frame (h h' : heap) :
  (length h <= length h')%nat ->
  (forall l, (l < length h)%nat -> nth_error h' l = nth_error h l) ->
  extends h h'.
Proof.
  intros Hlen Hsame. exists (skipn (length h) h').
  rewrite <- (firstn_skipn (length h) h') at 1. f_equal.
  apply nth_error_ext. intros n. rewrite nth_error_firstn.
  destruct (Nat.ltb_spec n (length h)) as [Hn|Hn].
  - apply Hsame. exact Hn.
  - symmetry. apply nth_error_None. exact Hn.
Qed.

Lemma lookup_bound (h : heap) (l : loc) (v : list float) :
  nth_error h l = Some v -> (l < length h)%nat.
Proof. intros H. apply nth_error_Some. rewrite H. discriminate. Qed.

Lemma solver_test_run (tol E : loc) (delta : delta_ref) (h : heap)
    (vtol vE : list float) (d : operand) :
  nth_error h tol = Some vtol ->
  delta_holds h E delta d ->
  solver_test tol delta h
  = (Value (Solaris6K.solver_test vtol
              {| eccentric_anomaly := vE; eccentric_anomaly_delta := d |}), h).
Proof.
  intros Htol Hd. unfold solver_test, load, ret, bind. cbv beta iota.
  rewrite (nth_lookup _ _ _ Htol).
  destruct delta as [x|l], d as [y|v]; simpl in Hd; try contradiction.
  - subst y. reflexivity.
  - destruct Hd as [Hl _]. rewrite (nth_lookup _ _ _ Hl). reflexivity.
Qed.

Lemma solver_body_run (M e te E : loc) (delta : delta_ref) (h : heap)
    (vM ve vte vE : list float) (d : operand) :
  nth_error h M = Some vM -> nth_error h e = Some ve ->
  nth_error h te = Some vte ->
  nth_error h E = Some vE ->
  exists ext i vd,
    solver_body np M e te E delta h
    = (Value (DArray (length h + i)),
       update E (eccentric_anomaly
                   (Solaris6K.solver_body np vM ve vte
                      {| eccentric_anomaly := vE; eccentric_anomaly_delta := d |})) h
       ++ ext)
    /\ nth_error ext i = Some vd
    /\ eccentric_anomaly_delta
         (Solaris6K.solver_body np vM ve vte
            {| eccentric_anomaly := vE; eccentric_anomaly_delta := d |}) = Array vd.
Proof.
  intros HM He Hte HE. do 3 eexists. split; [|split].
  - apply from_entry. unfold solver_body.
    repeat heap_step. reflexivity.
  - reflexivity.
  - reflexivity.
Qed.

Lemma solver_loop_run (M e tol te E : loc) (vM ve vtol vte : list float) (fuel : nat) :
  forall (h : heap) (delta : delta_ref) (vE : list float) (d : operand),
    nth_error h M = Some vM -> nth_error h e = Some ve ->
    nth_error h tol = Some vtol ->
    nth_error h te = Some vte ->
    nth_error h E = Some vE ->
    M <> E -> e <> E -> tol <> E -> te <> E ->
    delta_holds h E delta d ->
    exists h' out,
      while_m fuel (solver_test tol) (solver_body np M e te E) delta h = (out, h')
      /\ (length h <= length h')%nat
      /\ (forall l, (l < length h)%nat -> l <> E -> nth_error h' l = nth_error h l)
      /\ (let '(s', _, ended) :=
            while fuel (Solaris6K.solver_test vtol) (Solaris6K.solver_body np vM ve vte)
                  {| eccentric_anomaly := vE; eccentric_anomaly_delta := d |} in
          nth_error h' E = Some (eccentric_anomaly s')
          /\ (if ended then exists delta', out = Value delta' else out = OutOfFuel)).
Proof.
  induction fuel as [|fuel IH]; intros h delta vE d HM He Htol Hte HE nM ne ntol nte Hd.
  - cbn [while_m while]. unfold bind.
    rewrite (solver_test_run tol E delta h vtol vE d Htol Hd).
    destruct (Solaris6K.solver_test vtol _).
    + exists h, OutOfFuel. repeat split; auto.
    + exists h, (Value delta). repeat split; eauto.
  - cbn [while_m while]. unfold bind at 1.
    rewrite (solver_test_run tol E delta h vtol vE d Htol Hd).
    destruct (Solaris6K.solver_test vtol _).
    + destruct (solver_body_run M e te E delta h vM ve vte vE d HM He Hte HE)
        as (ext & i & vd & Hrun & Hi & Hdelta).
      unfold bind. rewrite Hrun.
      set (s1 := Solaris6K.solver_body np vM ve vte
                   {| eccentric_anomaly := vE; eccentric_anomaly_delta := d |}) in *.
      pose proof (lookup_bound _ _ _ HE) as bE.
      assert (Hother : forall l v, l <> E -> nth_error h l = Some v ->
                nth_error (update E (eccentric_anomaly s1) h ++ ext) l = Some v).
      { intros l v Hl Hv. apply lookup_old. rewrite nth_error_update_other by exact Hl.
        exact Hv. }
      destruct (IH (update E (eccentric_anomaly s1) h ++ ext) (DArray (length h + i))
                  (eccentric_anomaly s1) (Array vd))
        as (h' & out & Hloop & Hlen & Hframe & Hres); auto.
      { apply lookup_old. apply nth_error_update_same. exact bE. }
      { simpl. split; [|lia].
        rewrite <- (length_update h E (eccentric_anomaly s1)).
        apply lookup_new. exact Hi. }
      exists h', out. split; [exact Hloop|]. split; [|split].
      * rewrite length_app, length_update in Hlen. lia.
      * intros l Hl HlE. rewrite Hframe.
        -- rewrite nth_error_app1 by (rewrite length_update; exact Hl).
           apply nth_error_update_other. exact HlE.
        -- rewrite length_app, length_update. lia.
        -- exact HlE.
      * replace {| eccentric_anomaly := eccentric_anomaly s1;
                   eccentric_anomaly_delta := Array vd |} with s1 in Hres
          by (destruct s1; simpl in *; congruence).
        destruct (while fuel _ _ s1) as [[s' n] ended]. exact Hres.
    + exists h, (Value delta). repeat split; eauto.
Qed.

End HeapSolver.

Section HeapPipeline.
Import Heap.
Variable np : numpy.

Lemma get_eccentric_anomaly_run (fuel : nat) (M e tol : loc) (h : heap)
    (vM ve vtol : list float) :
  nth_error h M = Some vM -> nth_error h e = Some ve -> nth_error h tol = Some vtol ->
  exists h' out,
    get_eccentric_anomaly np fuel M e tol h = (out, h')
    /\ extends h h'
    /\ match Solaris6K.get_eccentric_anomaly np fuel vM ve vtol with
       | Some vE =>
           exists r, out = Value r /\ nth_error h' r = Some vE /\ (length h <= r)%nat
       | None => out = OutOfFuel
       end.
Proof.
  intros HM He Htol.
  pose proof (lookup_bound _ _ _ HM) as bM.
  pose proof (lookup_bound _ _ _ He) as be.
  pose proof (lookup_bound _ _ _ Htol) as btol.
  set (vte := scale ve Constants.ECCENTRICITIY_FACTOR).
  set (h1 := h ++ [vte; map (np_deg2rad np) vM; Solaris6K.sin_wrapper_a np vM;
                   mul vte (Solaris6K.sin_wrapper_a np vM);
                   eccentric_anomaly (Solaris6K.solver_init np vM vte)]).
  set (E := (length h + 4)%nat).
  destruct (solver_loop_run np M e tol (length h + 0) E vM ve vtol vte fuel h1
              (DScalar infinity)
              (eccentric_anomaly (Solaris6K.solver_init np vM vte)) (Scalar infinity))
    as (h' & out & Hloop & Hlen & Hframe & Hres);
    try (unfold E; lia); try (apply lookup_old; assumption).
  - unfold h1. heap_lookup.
  - unfold h1, E. heap_lookup.
  - reflexivity.
  - assert (Hext : extends h h').
    { apply extends_of_frame.
      - unfold h1 in Hlen. rewrite length_app in Hlen. lia.
      - intros l Hl. rewrite Hframe.
        + unfold h1. apply nth_error_app1. exact Hl.
        + unfold h1. rewrite length_app. lia.
        + unfold E. lia. }
    assert (Hrun : get_eccentric_anomaly np fuel M e tol h
                   = (match out with
                      | Value _ => Value E
                      | Exception x => Exception x
                      | OutOfFuel => OutOfFuel
                      end, h')).
    { apply from_entry. unfold get_eccentric_anomaly.
      repeat heap_step. unfold bind at 1.
      fold vte. unfold h1, E, Solaris6K.solver_init in Hloop.
      cbn [eccentric_anomaly] in Hloop. fold vte in Hloop.
      rewrite Hloop. destruct out; reflexivity. }
    unfold Solaris6K.get_eccentric_anomaly, Solaris6K.solver_run. cbv zeta. fold vte.
    change {| eccentric_anomaly := eccentric_anomaly (Solaris6K.solver_init np vM vte);
              eccentric_anomaly_delta := Scalar infinity |}
      with (Solaris6K.solver_init np vM vte) in Hres.
    destruct (while fuel _ _ (Solaris6K.solver_init np vM vte)) as [[s' n] ended].
    destruct Hres as [HE Hout]. destruct ended.
    + destruct Hout as [delta' ->]. do 2 eexists. split; [exact Hrun|].
      split; [exact Hext|]. exists E. split; [reflexivity|].
      split; [exact HE | unfold E; lia].
    + subst out. do 2 eexists. split; [exact Hrun|]. split; [exact Hext | reflexivity].
Qed.

Lemma get_ecliptic_coordinate_run (hc : list (row float)) (w n i : loc) (h : heap)
    (vw vn vi : list float) :
  nth_error h w = Some vw -> nth_error h n = Some vn -> nth_error h i = Some vi ->
  exists ext,
    get_ecliptic_coordinate np hc w n i h
    = (Value (Solaris6K.get_ecliptic_coordinate np hc vw vn vi), h ++ ext).
Proof.
  intros Hw Hn Hi. eexists.
  apply from_entry. unfold get_ecliptic_coordinate, zeros_like_, sum_prod.
  repeat heap_step. reflexivity.
Qed.

End HeapPipeline.

Section HeapMain.
Import Heap.
Variable np : numpy.

Lemma yields_ret {A : Type} (a : A) (h : heap) : yields (ret a) h (Value a).
Proof. exists h. split; [reflexivity | apply extends_refl]. Qed.

Lemma yields_call {A B : Type} (m : M A) (k : A -> M B) (h : heap) (o : outcome B)
    (Q : A -> heap -> Prop) :
  (exists a ext, m h = (Value a, h ++ ext) /\ Q a (h ++ ext)) ->
  (forall a h1, extends h h1 -> Q a h1 -> yields (k a) h1 o) ->
  yields (bind m k) h o.
Proof.
  intros (a & ext & Hm & HQ) Hk.
  destruct (Hk a (h ++ ext)) as (h' & Hrun & Hext); [eexists; reflexivity | exact HQ |].
  exists h'. split.
  - unfold bind. rewrite Hm. exact Hrun.
  - eapply extends_trans; [eexists; reflexivity | exact Hext].
Qed.

Lemma yields_unary {B : Type} (f : list float -> list float) (a : loc) (k : loc -> M B)
    (h : heap) (o : outcome B) (va : list float) :
  nth_error h a = Some va ->
  (forall r h1, extends h h1 -> nth_error h1 r = Some (f va) -> yields (k r) h1 o) ->
  yields (bind (unary f a) k) h o.
Proof.
  intros Ha Hk.
  apply yields_call with (Q := fun r h1 => nth_error h1 r = Some (f va)); [|exact Hk].
  do 2 eexists. split.
  - apply from_entry. repeat heap_step. reflexivity.
  - heap_lookup.
Qed.

Lemma yields_binary {B : Type} (f : list float -> list float -> list float) (a b : loc)
    (k : loc -> M B) (h : heap) (o : outcome B) (va vb : list float) :
  nth_error h a = Some va -> nth_error h b = Some vb ->
  (forall r h1, extends h h1 -> nth_error h1 r = Some (f va vb) -> yields (k r) h1 o) ->
  yields (bind (binary f a b) k) h o.
Proof.
  intros Ha Hb Hk.
  apply yields_call with (Q := fun r h1 => nth_error h1 r = Some (f va vb)); [|exact Hk].
  do 2 eexists. split.
  - apply from_entry. repeat heap_step. reflexivity.
  - heap_lookup.
Qed.

Lemma yields_sin_wrapper {B : Type} (a : loc) (k : loc -> M B)
    (h : heap) (o : outcome B) (va : list float) :
  nth_error h a = Some va ->
  (forall r h1, extends h h1 -> nth_error h1 r = Some (Solaris6K.sin_wrapper_a np va) ->
                yields (k r) h1 o) ->
  yields (bind (sin_wrapper_a np a) k) h o.
Proof.
  intros Ha Hk.
  apply yields_call
    with (Q := fun r h1 => nth_error h1 r = Some (Solaris6K.sin_wrapper_a np va));
    [|exact Hk].
  do 2 eexists. split.
  - apply from_entry. repeat heap_step. reflexivity.
  - heap_lookup.
Qed.

Lemma yields_cos_wrapper {B : Type} (a : loc) (k : loc -> M B)
    (h : heap) (o : outcome B) (va : list float) :
  nth_error h a = Some va ->
  (forall r h1, extends h h1 -> nth_error h1 r = Some (Solaris6K.cos_wrapper_a np va) ->
                yields (k r) h1 o) ->
  yields (bind (cos_wrapper_a np a) k) h o.
Proof.
  intros Ha Hk.
  apply yields_call
    with (Q := fun r h1 => nth_error h1 r = Some (Solaris6K.cos_wrapper_a np va));
    [|exact Hk].
  do 2 eexists. split.
  - apply from_entry. repeat heap_step. reflexivity.
  - heap_lookup.
Qed.

Lemma yields_column_stack {B : Type} (c1 c2 c3 : loc) (k : list (row float) -> M B)
    (h : heap) (o : outcome B) (v1 v2 v3 : list float) :
  nth_error h c1 = Some v1 -> nth_error h c2 = Some v2 -> nth_error h c3 = Some v3 ->
  yields (k (column_stack v1 v2 v3)) h o ->
  yields (bind (column_stack_ c1 c2 c3) k) h o.
Proof.
  intros H1 H2 H3 (h' & Hrun & Hext). exists h'. split; [|exact Hext].
  eapply run_column_stack; eassumption.
Qed.

Lemma yields_get_current_value {B : Type} (base_value rate : loc) (time : float)
    (k : loc -> M B) (h : heap) (o : outcome B) (vb vr : list float) :
  nth_error h base_value = Some vb -> nth_error h rate = Some vr ->
  (forall r h1, extends h h1 ->
                nth_error h1 r = Some (Solaris6K.get_current_value vb vr time) ->
                yields (k r) h1 o) ->
  yields (bind (get_current_value base_value rate time) k) h o.
Proof.
  intros Hb Hr Hk.
  apply yields_call
    with (Q := fun r h1 => nth_error h1 r = Some (Solaris6K.get_current_value vb vr time));
    [|exact Hk].
  apply get_current_value_run; assumption.
Qed.

Lemma yields_get_mean_anomaly {B : Type} (ml pl tb tc ts tf : loc) (time : float)
    (k : loc -> M B) (h : heap) (o : outcome B) (vml vpl vtb vtc vts vtf : list float) :
  nth_error h ml = Some vml -> nth_error h pl = Some vpl ->
  nth_error h tb = Some vtb -> nth_error h tc = Some vtc ->
  nth_error h ts = Some vts -> nth_error h tf = Some vtf ->
  (forall r h1, extends h h1 ->
                nth_error h1 r
                = Some (Solaris6K.get_mean_anomaly np vml vpl (vtb, vtc, vts, vtf) time) ->
                yields (k r) h1 o) ->
  yields (bind (get_mean_anomaly np ml pl (tb, tc, ts, tf) time) k) h o.
Proof.
  intros Hml Hpl Htb Htc Hts Htf Hk.
  apply yields_call
    with (Q := fun r h1 =>
                 nth_error h1 r
                 = Some (Solaris6K.get_mean_anomaly np vml vpl (vtb, vtc, vts, vtf) time));
    [|exact Hk].
  destruct (get_mean_anomaly_run np ml pl tb tc ts tf time h vml vpl vtb vtc vts vtf
              Hml Hpl Htb Htc Hts Htf) as (r & ext & Hrun & Hr & _).
  exists r, ext. split; assumption.
Qed.

Lemma yields_get_ecliptic_coordinate {B : Type} (hc : list (row float)) (w n i : loc)
    (k : list (row float) -> M B) (h : heap) (o : outcome B) (vw vn vi : list float) :
  nth_error h w = Some vw -> nth_error h n = Some vn -> nth_error h i = Some vi ->
  (forall h1, extends h h1 ->
              yields (k (Solaris6K.get_ecliptic_coordinate np hc vw vn vi)) h1 o) ->
  yields (bind (get_ecliptic_coordinate np hc w n i) k) h o.
Proof.
  intros Hw Hn Hi Hk.
  destruct (get_ecliptic_coordinate_run np hc w n i h vw vn vi Hw Hn Hi) as [ext Hrun].
  destruct (Hk (h ++ ext)) as (h' & Hrun' & Hext); [eexists; reflexivity|].
  exists h'. split.
  - unfold bind. rewrite Hrun. exact Hrun'.
  - eapply extends_trans; [eexists; reflexivity | exact Hext].
Qed.

Lemma yields_get_eccentric_anomaly {B : Type} (fuel : nat) (ma e tol : loc)
    (k : loc -> M B) (h : heap) (o : option (list float) -> outcome B)
    (vM ve vtol : list float) :
  nth_error h ma = Some vM -> nth_error h e = Some ve -> nth_error h tol = Some vtol ->
  o None = OutOfFuel ->
  (forall vE r h1, extends h h1 -> nth_error h1 r = Some vE ->
                   yields (k r) h1 (o (Some vE))) ->
  yields (bind (get_eccentric_anomaly np fuel ma e tol) k) h
         (o (Solaris6K.get_eccentric_anomaly np fuel vM ve vtol)).
Proof.
  intros HM He Htol Hnone Hk.
  destruct (get_eccentric_anomaly_run np fuel ma e tol h vM ve vtol HM He Htol)
    as (h1 & out & Hrun & Hext & Hres).
  destruct (Solaris6K.get_eccentric_anomaly np fuel vM ve vtol) as [vE|].
  - destruct Hres as (r & -> & Hr & _).
    destruct (Hk vE r h1 Hext Hr) as (h' & Hrun' & Hext').
    exists h'. split.
    + unfold bind. rewrite Hrun. exact Hrun'.
    + eapply extends_trans; eassumption.
  - subst out. exists h1. split; [|exact Hext].
    unfold bind. rewrite Hrun, Hnone. reflexivity.
Qed.

End HeapMain.

(** Carry what is known of the heap [h] over to an extension of it. *)
Ltac heap_carry h :=
  match goal with
  | Hext : Heap.extends h ?h1 |- _ =>
      repeat match goal with
             | H : nth_error h ?l = Some ?v |- _ =>
                 apply (extends_lookup h h1 l v Hext) in H
             end;
      clear Hext; try clear h
  end.

Ltac yields_step :=
  lazymatch goal with
  | |- Heap.yields (Heap.bind (Heap.get_current_value _ _ _) _) ?h _ =>
      eapply yields_get_current_value; [eassumption | eassumption |];
      intros ? ? ? ?; heap_carry h
  | |- Heap.yields (Heap.bind (Heap.get_perihelion_argument _ _) _) ?h _ =>
      unfold Heap.get_perihelion_argument;
      eapply yields_binary; [eassumption | eassumption |];
      intros ? ? ? ?; heap_carry h
  | |- Heap.yields (Heap.bind (Heap.get_mean_anomaly _ _ _ _ _) _) ?h _ =>
      eapply yields_get_mean_anomaly;
      [eassumption | eassumption | eassumption | eassumption | eassumption | eassumption |];
      intros ? ? ? ?; heap_carry h
  | |- Heap.yields (Heap.bind (Heap.sin_wrapper_a _ _) _) ?h _ =>
      eapply yields_sin_wrapper; [eassumption |]; intros ? ? ? ?; heap_carry h
  | |- Heap.yields (Heap.bind (Heap.cos_wrapper_a _ _) _) ?h _ =>
      eapply yields_cos_wrapper; [eassumption |]; intros ? ? ? ?; heap_carry h
  | |- Heap.yields (Heap.bind (Heap.binary _ _ _) _) ?h _ =>
      eapply yields_binary; [eassumption | eassumption |]; intros ? ? ? ?; heap_carry h
  | |- Heap.yields (Heap.bind (Heap.unary _ _) _) ?h _ =>
      eapply yields_unary; [eassumption |]; intros ? ? ? ?; heap_carry h
  | |- Heap.yields (Heap.bind (Heap.zeros_like_ _) _) ?h _ =>
      unfold Heap.zeros_like_;
      eapply yields_unary; [eassumption |]; intros ? ? ? ?; heap_carry h
  | |- Heap.yields (Heap.bind (Heap.column_stack_ _ _ _) _) ?h _ =>
      eapply yields_column_stack; [eassumption | eassumption | eassumption |]
  | |- Heap.yields (Heap.bind (Heap.get_ecliptic_coordinate _ _ _ _ _) _) ?h _ =>
      eapply yields_get_ecliptic_coordinate; [eassumption | eassumption | eassumption |];
      intros ? ?; heap_carry h
  end.

Section HeapMainRun.
Import Heap.
Variable np : numpy.

Lemma main_at_run (c : tables) (fuel : nat) (time : float) (h : heap) :
  tables_at h c ->
  yields (main_at np c fuel time) h (outcome_of (Solaris6K.main_at np fuel time)).
Proof.
  intros (T1 & T2 & T3 & T4 & T5 & T6 & T7 & T8 & T9 & T10 & T11 & T12 & T13 & T14
          & T15 & T16).
  unfold main_at, Solaris6K.main_at, get_century, Solaris6K.get_century.
  cbv zeta.
  destruct (30 <? abs ((time - Constants.J2000_0) / Constants.CONVERSION_FACTOR))%float.
  - exists h. split; [reflexivity | apply extends_refl].
  - cbn [and_then].
    set (t := ((time - Constants.J2000_0) / Constants.CONVERSION_FACTOR)%float).
    eapply yields_call with (Q := fun a h1 => a = t /\ h1 = h).
    { exists t, []. rewrite app_nil_r. repeat split. }
    intros a h1 _ [-> ->].
    do 9 yields_step.
    match goal with
    | |- Heap.yields _ _ (Heap.outcome_of (Return (option_map ?f _))) =>
        change (Heap.outcome_of (Return (option_map f ?x)))
          with ((fun r => Heap.outcome_of (Return (option_map f r))) x)
    end.
    match goal with
    | |- Heap.yields (Heap.bind (Heap.get_eccentric_anomaly _ _ _ _ _) _) ?h _ =>
        eapply yields_get_eccentric_anomaly;
        [eassumption | eassumption | eassumption | reflexivity |];
        intros ? ? ? ? ?; heap_carry h
    end.
    cbn beta. cbn [option_map outcome_of].
    repeat yields_step.
    apply yields_ret.
Qed.

End HeapMainRun.

(** ** Claims settled on the heap-level program *)

Section HeapClaims.
Import Heap.
Local Open Scope float_scope.

Lemma tables_at_extends (h h' : heap) (c : tables) :
  extends h h' -> tables_at h c -> tables_at h' c.
Proof.
  intros Hext H. unfold tables_at in *.
  repeat match goal with
         | H : _ /\ _ |- _ => destruct H
         end.
  repeat split; eapply extends_lookup; eassumption.
Qed.

Lemma import_Constants_run (h : heap) :
  exists c ext, import_Constants h = (Value c, h ++ ext) /\ tables_at (h ++ ext) c.
Proof.
  do 2 eexists. split.
  - apply from_entry. unfold import_Constants. repeat heap_step. reflexivity.
  - unfold tables_at. cbn [SEMI_MAJOR_AXES SEMI_MAJOR_AXES_RATE ECCENTRICITIES
      ECCENTRICITIES_RATE INCLINATIONS INCLINATIONS_RATE MEAN_LONGITUDES
      MEAN_LONGITUDES_RATE PERIHELION_LONGITUDES PERIHELION_LONGITUDES_RATE
      ASCENDING_NODE_LONGITUDES ASCENDING_NODE_LONGITUDES_RATE TERM_B TERM_C TERM_S TERM_F].
    repeat split; apply lookup_new; reflexivity.
Qed.

(** C6.  Import [Constants], then run the pipeline twice on the same Julian
    date, the second run in the heap the first one left behind.  Both runs
    end with the same outcome, the one the pure reading of [main] gives:
    the same matrix, float for float, the same exception, or both out of
    fuel.  Neither run changes an array that existed before it (the tables
    of [Constants] among them): the heap after a run extends the heap
    before it, so nothing a run writes is read by the next. *)
Theorem pipeline_is_deterministic (np : numpy) (fuel : nat) (time : float) (h0 : heap) :
  exists c h1 h2 h3,
    import_Constants h0 = (Value c, h1)
    /\ tables_at h1 c
    /\ main_at np c fuel time h1 = (outcome_of (Solaris6K.main_at np fuel time), h2)
    /\ extends h1 h2
    /\ main_at np c fuel time h2 = (outcome_of (Solaris6K.main_at np fuel time), h3)
    /\ extends h2 h3.
Proof.
  destruct (import_Constants_run h0) as (c & ext & Himport & Htables).
  destruct (main_at_run np c fuel time (h0 ++ ext) Htables) as (h2 & Hrun1 & Hext1).
  destruct (main_at_run np c fuel time h2 (tables_at_extends _ _ _ Hext1 Htables))
    as (h3 & Hrun2 & Hext2).
  exists c, (h0 ++ ext), h2, h3.
  split; [exact Himport|]. split; [exact Htables|]. split; [exact Hrun1|].
  split; [exact Hext1|]. split; [exact Hrun2 | exact Hext2].
Qed.

(** C3.  [get_century] raises its [ValueError] exactly if the absolute value
    of [(jd - 2451545.0) / 36525], as computed, is greater than 30, and
    returns that quotient otherwise.  It accepts the two dates whose offset
    is 30 and -30, and raises for the date 30.000001 centuries after
    J2000.0.  When it raises, [main] ends with that exception and the heap
    it was started in: no array has been created, so no element has been
    interpolated. *)
Theorem get_century_range_check :
  (forall jd_time : float,
      let num_century := (jd_time - Constants.J2000_0) / Constants.CONVERSION_FACTOR in
      (Solaris6K.get_century jd_time
       = Raise (ValueError "Date is outside of scope (3000 BCE to 3000 CE).")
       <-> (30 <? abs num_century) = true)
      /\ (Solaris6K.get_century jd_time = Return num_century
          <-> (30 <? abs num_century) = false))
  /\ Solaris6K.get_century 3547295.0 = Return 30
  /\ Solaris6K.get_century 1355795.0 = Return (-30)
  /\ Solaris6K.get_century 3547295.036525
     = Raise (ValueError "Date is outside of scope (3000 BCE to 3000 CE).")
  /\ (forall (np : numpy) (c : tables) (fuel : nat) (jd_time : float) (h : heap),
         (30 <? abs ((jd_time - Constants.J2000_0) / Constants.CONVERSION_FACTOR)) = true ->
         Solaris6K.main_at np fuel jd_time
         = Raise (ValueError "Date is outside of scope (3000 BCE to 3000 CE).")
         /\ main_at np c fuel jd_time h
            = (Exception (ValueError "Date is outside of scope (3000 BCE to 3000 CE)."),
               h)).
Proof.
  split; [|split; [|split; [|split]]].
  - intros jd_time num_century. unfold Solaris6K.get_century. fold num_century.
    destruct (30 <? abs num_century); repeat split; intros; try reflexivity; discriminate.
  - vm_compute. reflexivity.
  - vm_compute. reflexivity.
  - vm_compute. reflexivity.
  - intros np c fuel jd_time h Hout.
    unfold Solaris6K.main_at, main_at, Solaris6K.get_century, get_century, bind.
    cbv zeta. rewrite Hout. split; reflexivity.
Qed.

(** C3 at the date 30.000001 centuries after J2000.0, in the empty heap. *)
Lemma get_century_range_check_witness :
  (30 <? abs ((3547295.036525 - Constants.J2000_0) / Constants.CONVERSION_FACTOR)) = true
  /\ Solaris6K.main_at small_angle_numpy 0 3547295.036525
     = Raise (ValueError "Date is outside of scope (3000 BCE to 3000 CE).")
  /\ main_at small_angle_numpy first_tables 0 3547295.036525 []
     = (Exception (ValueError "Date is outside of scope (3000 BCE to 3000 CE)."), []).
Proof.
  split; [vm_compute; reflexivity|].
  apply (proj2 (proj2 (proj2 (proj2 get_century_range_check)))).
  vm_compute. reflexivity.
Defined.

(** X1.  In every heap where the names of [Constants] are bound to the
    module's tables, the heap-level [main] ends with the outcome of the pure
    [main] (its matrix, its exception, or out of fuel with it), in a heap
    that extends the one it was started in: no array it was given is
    written to. *)
Theorem heap_main_computes_pure_main (np : numpy) (c : tables) (fuel : nat) (time : float)
    (h : heap) :
  tables_at h c ->
  yields (main_at np c fuel time) h (outcome_of (Solaris6K.main_at np fuel time)).
Proof. apply main_at_run. Qed.

(** X1 at J2000.0, from the heap that holds the tables and nothing else. *)
Lemma heap_main_computes_pure_main_witness :
  tables_at first_heap first_tables
  /\ yields (main_at small_angle_numpy first_tables 8 2451545.0) first_heap
            (outcome_of (Solaris6K.main_at small_angle_numpy 8 2451545.0)).
Proof.
  assert (H : tables_at first_heap first_tables) by (repeat split; reflexivity).
  split; [exact H|].
  apply (heap_main_computes_pure_main small_angle_numpy first_tables 8 2451545.0 first_heap).
  exact H.
Defined.

End HeapClaims.

(** ** Claims settled on the exact reading *)

Section ExactFacts.
Local Open Scope R_scope.
Import Exact.

Lemma rad2deg_deg2rad (x : R) : rad2deg (deg2rad x) = x.
Proof. unfold rad2deg, deg2rad. field. apply PI_neq0. Qed.

(** Within a quarter turn of zero the normalisation changes nothing. *)
Lemma normalise_small (x : R) :
  -90 <= x <= 90 -> arcsin_wrapper (sin_wrapper x) = x.
Proof.
  intros Hx. unfold arcsin_wrapper, sin_wrapper.
  rewrite asin_sin.
  - apply rad2deg_deg2rad.
  - unfold deg2rad. pose proof PI_RGT_0. split; nra.
Qed.

Lemma arcsin_wrapper_bound (x : R) : -90 <= arcsin_wrapper x <= 90.
Proof.
  unfold arcsin_wrapper, rad2deg.
  pose proof (asin_bound x) as [Hl Hu]. pose proof PI_RGT_0 as Hpi.
  assert (H180 : 0 < 180 / PI) by (apply Rdiv_lt_0_compat; lra).
  assert (E1 : - (PI / 2) * (180 / PI) = -90) by (field; lra).
  assert (E2 : PI / 2 * (180 / PI) = 90) by (field; lra).
  rewrite <- E1, <- E2.
  split; apply Rmult_le_compat_r; lra.
Qed.

Lemma exact_get_mean_anomaly_per_body (ml pl tb tc ts tf : list R) (t : R) :
  get_mean_anomaly ml pl (tb, tc, ts, tf) t =
  map (fun '(l, (p, (b, (c, (s, f))))) =>
         arcsin_wrapper (sin_wrapper (raw_mean_anomaly l p b c s f t)))
      (combine ml (combine pl (combine tb (combine tc (combine ts tf))))).
Proof.
  unfold get_mean_anomaly, arcsin_wrapper_a, sin_wrapper_a, add, sub, mul, scale.
  revert pl tb tc ts tf.
  induction ml as [|l ml IH]; intros [|p pl] [|b tb] [|c tc] [|s ts] [|f tf];
    simpl; try reflexivity.
  f_equal. apply IH.
Qed.

(** One radian is more than one degree, and the cosine decreases between
    them. *)
Lemma cos_1_lt_cos_1_degree : cos 1 < cos_wrapper 1.
Proof.
  unfold cos_wrapper, deg2rad.
  pose proof PI_RGT_0. pose proof PI_4. pose proof PI2_1.
  apply cos_decreasing_1; lra.
Qed.

(** C1, a defect of the code.  The Mean Anomaly Calculator adds, for every
    body, [b t^2 + c cos(f t) + s sin(f t)] with [f t] handed to
    [numpy.cos] and [numpy.sin] as it is, that is in radians; the
    specification wants it read in degrees.  With [c = 1], [f = 1] and
    [t = 1] (all else zero) the code's correction is [cos 1], the cosine of
    one radian, the specification's is the cosine of one degree, which is
    larger, and the mean anomaly returned is [cos 1]. *)
Theorem mean_anomaly_trig_arguments_are_radians :
  (forall (ml pl tb tc ts tf : list R) (t : R),
      get_mean_anomaly ml pl (tb, tc, ts, tf) t =
      map (fun '(l, (p, (b, (c, (s, f))))) =>
             arcsin_wrapper (sin_wrapper (raw_mean_anomaly l p b c s f t)))
          (combine ml (combine pl (combine tb (combine tc (combine ts tf))))))
  /\ raw_mean_anomaly 0 0 0 1 0 1 1 = cos 1
  /\ spec_raw_mean_anomaly 0 0 0 1 0 1 1 = cos_wrapper 1
  /\ cos 1 < cos_wrapper 1
  /\ get_mean_anomaly [0] [0] ([0], [1], [0], [1]) 1 = [cos 1].
Proof.
  assert (Hraw : raw_mean_anomaly 0 0 0 1 0 1 1 = cos 1).
  { unfold raw_mean_anomaly. rewrite Rmult_1_l. ring. }
  split; [|split; [|split; [|split]]].
  - apply exact_get_mean_anomaly_per_body.
  - exact Hraw.
  - unfold spec_raw_mean_anomaly. rewrite Rmult_1_l. ring.
  - exact cos_1_lt_cos_1_degree.
  - rewrite exact_get_mean_anomaly_per_body. simpl. rewrite Hraw.
    rewrite normalise_small; [reflexivity|].
    pose proof (COS_bound 1). lra.
Qed.

(** C4, refuted as stated.  From a raw mean anomaly of -90 degrees the Mean
    Anomaly Calculator returns -90, which is not in (-90, 90]. *)
Lemma mean_anomaly_reaches_minus_90 :
  get_mean_anomaly [-90] [0] ([0], [0], [0], [0]) 0 = [-90].
Proof.
  rewrite exact_get_mean_anomaly_per_body. simpl. f_equal.
  replace (raw_mean_anomaly (-90) 0 0 0 0 0 0) with (-90)
    by (unfold raw_mean_anomaly; ring).
  apply normalise_small. lra.
Qed.

(** C4, amended.  Read over the real numbers, the values the Mean Anomaly
    Calculator returns lie, for every input, in the closed interval
    [-90, 90] (degrees): the range of the arcsine, both ends included.  In
    [float64], on six arrays with one entry per body, it returns one value
    per body and each is [arcsin_wrapper (sin_wrapper raw)] for some [raw],
    a value of numpy's arcsine in degrees; and it is NaN, which lies in no
    interval, for a NaN mean longitude, if numpy's [deg2rad], [sin],
    [arcsin] and [rad2deg] hand NaN on. *)
Theorem mean_anomaly_within_quarter_turn :
  (forall (mean_longitude perihelion_longitude term_b term_c term_s term_f : list R)
          (time : R),
      Forall (fun m => -90 <= m <= 90)
             (Exact.get_mean_anomaly mean_longitude perihelion_longitude
                                     (term_b, term_c, term_s, term_f) time))
  /\ (forall (np : numpy)
             (mean_longitude perihelion_longitude term_b term_c term_s term_f : list float)
             (time : float),
         length perihelion_longitude = length mean_longitude ->
         length term_b = length mean_longitude ->
         length term_c = length mean_longitude ->
         length term_s = length mean_longitude ->
         length term_f = length mean_longitude ->
         length (Solaris6K.get_mean_anomaly np mean_longitude perihelion_longitude
                                            (term_b, term_c, term_s, term_f) time)
         = length mean_longitude
         /\ Forall (fun m => exists raw : float,
                        m = Solaris6K.arcsin_wrapper np (Solaris6K.sin_wrapper np raw))
                   (Solaris6K.get_mean_anomaly np mean_longitude perihelion_longitude
                                               (term_b, term_c, term_s, term_f) time))
  /\ (forall np : numpy,
         np_deg2rad np nan = nan -> np_sin np nan = nan ->
         np_arcsin np nan = nan -> np_rad2deg np nan = nan ->
         forall perihelion_longitude b c s f time : float,
           Solaris6K.get_mean_anomaly np [nan] [perihelion_longitude] ([b], [c], [s], [f]) time
           = [nan]).
Proof.
  split; [|split].
  - intros. rewrite exact_get_mean_anomaly_per_body. apply Forall_map.
    apply Forall_forall. intros [l [p [b [c [s f]]]]] _. apply arcsin_wrapper_bound.
  - intros np ml pl tb tc ts tf time Hp Hb Hc Hs Hf. split.
    + apply length_get_mean_anomaly; auto.
    + rewrite get_mean_anomaly_bodies. apply Forall_map.
      apply Forall_forall. intros [l [p [b [c [s f]]]]] _. eexists. reflexivity.
  - exact get_mean_anomaly_of_nan.
Qed.

(** C4, amended, on one body, with the small-angle routines. *)
Lemma mean_anomaly_within_quarter_turn_witness :
  (length [20%float] = length [100%float]
   /\ length [0%float] = length [100%float] /\ length [1%float] = length [100%float]
   /\ length [0%float] = length [100%float] /\ length [1%float] = length [100%float]
   /\ length (Solaris6K.get_mean_anomaly small_angle_numpy [100%float] [20%float]
                ([0%float], [1%float], [0%float], [1%float]) 1%float)
      = length [100%float]
   /\ Forall (fun m => exists raw : float,
                  m = Solaris6K.arcsin_wrapper small_angle_numpy
                        (Solaris6K.sin_wrapper small_angle_numpy raw))
             (Solaris6K.get_mean_anomaly small_angle_numpy [100%float] [20%float]
                ([0%float], [1%float], [0%float], [1%float]) 1%float))
  /\ (np_deg2rad small_angle_numpy nan = nan /\ np_sin small_angle_numpy nan = nan
      /\ np_arcsin small_angle_numpy nan = nan /\ np_rad2deg small_angle_numpy nan = nan
      /\ forall perihelion_longitude b c s f time : float,
          Solaris6K.get_mean_anomaly small_angle_numpy [nan] [perihelion_longitude]
                                     ([b], [c], [s], [f]) time
          = [nan]).
Proof.
  destruct mean_anomaly_within_quarter_turn as (_ & Hvalues & Hnan).
  split.
  - repeat (split; [reflexivity|]).
    apply (Hvalues small_angle_numpy [100%float] [20%float] [0%float] [1%float] [0%float]
             [1%float] 1%float); reflexivity.
  - repeat (split; [reflexivity|]).
    apply (Hnan small_angle_numpy); reflexivity.
Defined.

(** *** The solver on one body *)

Lemma solver_init_one (M e : R) :
  solver_init [M] (scale [e] ECCENTRICITIY_FACTOR) =
  {| eccentric_anomaly := [seed M e]; eccentric_anomaly_delta := Infinity |}.
Proof. reflexivity. Qed.

Lemma solver_body_one (M e E : R) (d : operand) :
  solver_body [M] [e] (scale [e] ECCENTRICITIY_FACTOR)
              {| eccentric_anomaly := [E]; eccentric_anomaly_delta := d |} =
  {| eccentric_anomaly := [E + newton_delta M e E];
     eccentric_anomaly_delta := Array [newton_delta M e E] |}.
Proof. reflexivity. Qed.

(** If the first Newton delta is not greater than the tolerance (negative,
    for instance), the loop ends after that one pass. *)
Lemma solver_one_pass (fuel : nat) (M e tol : R) :
  newton_delta M e (seed M e) <= tol ->
  solver_run (S fuel) [M] [e] [tol] =
  ({| eccentric_anomaly := [seed M e + newton_delta M e (seed M e)];
      eccentric_anomaly_delta := Array [newton_delta M e (seed M e)] |}, 1%nat, true).
Proof.
  intros Hd. unfold solver_run. cbv zeta. rewrite solver_init_one.
  cbn [while solver_test eccentric_anomaly_delta np_greater map any existsb orb].
  rewrite solver_body_one.
  destruct fuel; cbn [while solver_test eccentric_anomaly_delta np_greater map2 any existsb orb];
    unfold greater; destruct (Rlt_dec tol _); try lra; reflexivity.
Qed.

(** Taylor bounds at the three points the failing run goes through. *)
Lemma fact_INR_values :
  INR (fact 0) = 1 /\ INR (fact 1) = 1 /\ INR (fact 2) = 2 /\ INR (fact 3) = 6 /\
  INR (fact 4) = 24 /\ INR (fact 5) = 120 /\ INR (fact 6) = 720 /\
  INR (fact 7) = 5040 /\ INR (fact 8) = 40320.
Proof.
  repeat split; rewrite INR_IZR_INZ; apply f_equal; vm_compute; reflexivity.
Qed.

Lemma cos_lb_poly (a : R) :
  cos_lb a = 1 - a ^ 2 / 2 + a ^ 4 / 24 - a ^ 6 / 720.
Proof.
  destruct fact_INR_values as (F0 & F1 & F2 & F3 & F4 & F5 & F6 & F7 & F8).
  unfold cos_lb, cos_approx. cbn [sum_f_R0]. unfold cos_term.
  change (2 * 0)%nat with 0%nat; change (2 * 1)%nat with 2%nat;
    change (2 * 2)%nat with 4%nat; change (2 * 3)%nat with 6%nat.
  rewrite F0, F2, F4, F6. field.
Qed.

Lemma cos_ub_poly (a : R) :
  cos_ub a = 1 - a ^ 2 / 2 + a ^ 4 / 24 - a ^ 6 / 720 + a ^ 8 / 40320.
Proof.
  destruct fact_INR_values as (F0 & F1 & F2 & F3 & F4 & F5 & F6 & F7 & F8).
  unfold cos_ub, cos_approx. cbn [sum_f_R0]. unfold cos_term.
  change (2 * 0)%nat with 0%nat; change (2 * 1)%nat with 2%nat;
    change (2 * 2)%nat with 4%nat; change (2 * 3)%nat with 6%nat;
    change (2 * 4)%nat with 8%nat.
  rewrite F0, F2, F4, F6, F8. field.
Qed.

Lemma sin_lb_poly (a : R) :
  sin_lb a = a - a ^ 3 / 6 + a ^ 5 / 120 - a ^ 7 / 5040.
Proof.
  destruct fact_INR_values as (F0 & F1 & F2 & F3 & F4 & F5 & F6 & F7 & F8).
  unfold sin_lb, sin_approx. cbn [sum_f_R0]. unfold sin_term.
  change (2 * 0 + 1)%nat with 1%nat; change (2 * 1 + 1)%nat with 3%nat;
    change (2 * 2 + 1)%nat with 5%nat; change (2 * 3 + 1)%nat with 7%nat.
  rewrite F1, F3, F5, F7. field.
Qed.

Lemma cos_09_lower : 62159 / 100000 <= cos (9 / 10).
Proof.
  pose proof PI2_3_2.
  destruct (COS (9 / 10)) as [Hl _]; try lra.
  eapply Rle_trans; [|exact Hl].
  rewrite cos_lb_poly. lra.
Qed.

Lemma sin_09_lower : 78332 / 100000 <= sin (9 / 10).
Proof.
  pose proof PI2_3_2.
  destruct (SIN (9 / 10)) as [Hl _]; try lra.
  eapply Rle_trans; [|exact Hl].
  rewrite sin_lb_poly. lra.
Qed.

Lemma cos_07002_upper : cos (7002 / 10000) <= 76472 / 100000.
Proof.
  pose proof PI2_3_2.
  destruct (COS (7002 / 10000)) as [_ Hu]; try lra.
  eapply Rle_trans; [exact Hu|].
  rewrite cos_ub_poly. lra.
Qed.

Lemma Rdiv_le_upper (a d q : R) : 0 < d -> a <= q * d -> a / d <= q.
Proof.
  intros Hd H. unfold Rdiv. apply Rmult_le_reg_r with d; [exact Hd|].
  rewrite Rmult_assoc, Rinv_l by lra. lra.
Qed.

Lemma Rdiv_ge_lower (a d q : R) : 0 < d -> q * d <= a -> q <= a / d.
Proof.
  intros Hd H. unfold Rdiv. apply Rmult_le_reg_r with d; [exact Hd|].
  rewrite Rmult_assoc, Rinv_l by lra. lra.
Qed.

(** The run from [M = 90] degrees, where the seed is [90 + e 180/pi] and
    every angle is pi/2 plus a multiple of [e]. *)
Lemma deg2rad_90 : deg2rad 90 = PI / 2.
Proof. unfold deg2rad. field. Qed.

Lemma seed_90 (e : R) : seed 90 e = 90 + e * (180 / PI).
Proof.
  unfold seed, sin_wrapper, ECCENTRICITIY_FACTOR. rewrite deg2rad_90, sin_PI2. ring.
Qed.

Lemma deg2rad_shift (x : R) : deg2rad (90 + x * (180 / PI)) = PI / 2 + x.
Proof. unfold deg2rad. field. apply PI_neq0. Qed.

Lemma newton_delta_90 (e : R) :
  1 + e * sin e <> 0 ->
  newton_delta 90 e (seed 90 e) = (first_step e - e) * (180 / PI).
Proof.
  intros Hden. unfold newton_delta, sin_wrapper, cos_wrapper, ECCENTRICITIY_FACTOR, first_step.
  rewrite seed_90, deg2rad_shift.
  rewrite <- cos_sin. replace (cos (PI / 2 + e)) with (- sin e) by (rewrite (sin_cos e); ring).
  field. split; [apply PI_neq0 | lra].
Qed.

Lemma residual_90 (e : R) :
  1 + e * sin e <> 0 ->
  kepler_residual 90 e (seed 90 e + newton_delta 90 e (seed 90 e)) =
  - (180 / PI) * (first_step e - e * cos (first_step e)).
Proof.
  intros Hden. rewrite newton_delta_90 by assumption. rewrite seed_90.
  unfold kepler_residual, sin_wrapper.
  replace (90 + e * (180 / PI) + (first_step e - e) * (180 / PI))
    with (90 + first_step e * (180 / PI)) by ring.
  rewrite deg2rad_shift, <- cos_sin. field. apply PI_neq0.
Qed.

Lemma first_step_09_bounds : 7002 / 10000 <= first_step (9 / 10) <= 9 / 10.
Proof.
  unfold first_step.
  pose proof cos_09_lower as Hc. pose proof sin_09_lower as Hs.
  pose proof (COS_bound (9 / 10)) as [_ Hc1].
  assert (HD : 0 < 1 + 9 / 10 * sin (9 / 10)) by lra.
  assert (Hq : 0 <= 9 / 10 * (1 - cos (9 / 10)) / (1 + 9 / 10 * sin (9 / 10)) <= 1998 / 10000).
  { split.
    - apply Rmult_le_pos; [lra | left; apply Rinv_0_lt_compat; exact HD].
    - apply Rdiv_le_upper; [exact HD | nra]. }
  lra.
Qed.

Lemma newton_delta_90_09_negative : newton_delta 90 (9 / 10) (seed 90 (9 / 10)) <= 0.
Proof.
  pose proof sin_09_lower as Hs.
  rewrite newton_delta_90 by lra.
  pose proof first_step_09_bounds as [_ Hu]. pose proof PI_RGT_0.
  assert (0 < 180 / PI) by (apply Rdiv_lt_0_compat; lra).
  nra.
Qed.

Lemma residual_90_09 :
  kepler_residual 90 (9 / 10) (seed 90 (9 / 10) + newton_delta 90 (9 / 10) (seed 90 (9 / 10)))
  < - (1 / 2).
Proof.
  pose proof sin_09_lower as Hs.
  rewrite residual_90 by lra.
  pose proof first_step_09_bounds as [Hl Hu].
  pose proof PI2_3_2 as Hpi3. pose proof PI_4 as Hpi4. pose proof PI_RGT_0 as Hpi0.
  assert (Hcos : cos (first_step (9 / 10)) <= 76472 / 100000).
  { eapply Rle_trans; [|exact cos_07002_upper].
    apply cos_decr_1; lra. }
  assert (Hgap : 118 / 10000 <= first_step (9 / 10) - 9 / 10 * cos (first_step (9 / 10))) by lra.
  assert (H45 : 45 <= 180 / PI).
  { apply Rdiv_ge_lower; lra. }
  nra.
Qed.

(** C2, a defect of the code.  For the mean anomaly 90 degrees, the
    eccentricity 0.9 and the tolerance 1e-7, the first Newton delta is
    negative, so the signed test [delta > tol] ends the loop after one pass,
    whatever fuel is left; the eccentric anomaly returned misses Kepler's
    equation by more than half a degree: [M - (E - e (180/pi) sin_deg E)] is
    below -1/2, five million times the tolerance. *)
Theorem solver_stops_before_round_trip (fuel : nat) :
  exists E d : R,
    solver_run (S fuel) [90] [9 / 10] [1 / 10000000]
    = ({| eccentric_anomaly := [E]; eccentric_anomaly_delta := Array [d] |}, 1%nat, true)
    /\ d <= 0
    /\ get_eccentric_anomaly (S fuel) [90] [9 / 10] [1 / 10000000] = Some [E]
    /\ kepler_residual 90 (9 / 10) E < - (1 / 2).
Proof.
  pose proof newton_delta_90_09_negative as Hneg.
  assert (Hrun : solver_run (S fuel) [90] [9 / 10] [1 / 10000000]
                 = ({| eccentric_anomaly :=
                         [seed 90 (9 / 10) + newton_delta 90 (9 / 10) (seed 90 (9 / 10))];
                       eccentric_anomaly_delta :=
                         Array [newton_delta 90 (9 / 10) (seed 90 (9 / 10))] |},
                    1%nat, true)).
  { apply solver_one_pass. lra. }
  do 2 eexists. split; [exact Hrun|]. split; [exact Hneg|]. split.
  - unfold get_eccentric_anomaly. rewrite Hrun. reflexivity.
  - apply residual_90_09.
Qed.

(** X3.  Whenever the first Newton delta of a body is not greater than its
    tolerance, negative deltas included, and its divisor is not zero, the
    loop of [get_eccentric_anomaly] ends after that one pass and the seed
    plus that delta is returned. *)
Theorem signed_test_ends_loop_after_one_pass (fuel : nat) (M e tol : R) :
  e * cos_wrapper (seed M e) <> 1 ->
  newton_delta M e (seed M e) <= tol ->
  solver_run (S fuel) [M] [e] [tol]
  = ({| eccentric_anomaly := [seed M e + newton_delta M e (seed M e)];
        eccentric_anomaly_delta := Array [newton_delta M e (seed M e)] |}, 1%nat, true)
  /\ get_eccentric_anomaly (S fuel) [M] [e] [tol]
     = Some [seed M e + newton_delta M e (seed M e)].
Proof.
  intros _ Hd. pose proof (solver_one_pass fuel M e tol Hd) as Hrun.
  split; [exact Hrun|]. unfold get_eccentric_anomaly. rewrite Hrun. reflexivity.
Qed.

(** X3 at [M = 90], [e = 0.9] and the tolerance 1e-7, with fuel for three
    passes. *)
Lemma signed_test_ends_loop_after_one_pass_witness :
  9 / 10 * cos_wrapper (seed 90 (9 / 10)) <> 1
  /\ newton_delta 90 (9 / 10) (seed 90 (9 / 10)) <= 1 / 10000000
  /\ solver_run 3 [90] [9 / 10] [1 / 10000000]
     = ({| eccentric_anomaly :=
             [seed 90 (9 / 10) + newton_delta 90 (9 / 10) (seed 90 (9 / 10))];
           eccentric_anomaly_delta :=
             Array [newton_delta 90 (9 / 10) (seed 90 (9 / 10))] |}, 1%nat, true)
  /\ get_eccentric_anomaly 3 [90] [9 / 10] [1 / 10000000]
     = Some [seed 90 (9 / 10) + newton_delta 90 (9 / 10) (seed 90 (9 / 10))].
Proof.
  assert (Hden : 9 / 10 * cos_wrapper (seed 90 (9 / 10)) <> 1).
  { unfold cos_wrapper. pose proof (COS_bound (deg2rad (seed 90 (9 / 10)))). lra. }
  assert (H : newton_delta 90 (9 / 10) (seed 90 (9 / 10)) <= 1 / 10000000).
  { pose proof newton_delta_90_09_negative. lra. }
  split; [exact Hden|]. split; [exact H|].
  apply (signed_test_ends_loop_after_one_pass 2 90 (9 / 10) (1 / 10000000) Hden H).
Defined.

End ExactFacts.

(** ** The number of rows, non-finite dates and the date of [main] *)

Section Binary64Facts.
Local Open Scope float_scope.
Local Open Scope array_scope.

(** X5.  [get_eccentric_anomaly] keeps one entry per body: called with as
    many eccentricities as mean anomalies, whatever number of passes its
    loop makes, it returns an array of that same length. *)
Theorem solver_keeps_one_entry_per_body (np : numpy) (fuel : nat)
    (mean_anomaly eccentricity tol eccentric_anomalies : list float) :
  length eccentricity = length mean_anomaly ->
  Solaris6K.get_eccentric_anomaly np fuel mean_anomaly eccentricity tol
  = Some eccentric_anomalies ->
  length eccentric_anomalies = length mean_anomaly.
Proof.
  intros He. apply length_get_eccentric_anomaly; [reflexivity | exact He].
Qed.

(** X5 on two bodies, with the small-angle routines. *)
Lemma solver_keeps_one_entry_per_body_witness :
  exists eccentric_anomalies : list float,
    length [0.5; 0.25] = length [10; 20]
    /\ Solaris6K.get_eccentric_anomaly small_angle_numpy 8 [10; 20] [0.5; 0.25]
                                       [Constants.TOL; Constants.TOL]
       = Some eccentric_anomalies
    /\ length eccentric_anomalies = length [10; 20].
Proof.
  destruct (Solaris6K.get_eccentric_anomaly small_angle_numpy 8 [10; 20] [0.5; 0.25]
              [Constants.TOL; Constants.TOL]) as [E|] eqn:H;
    [|vm_compute in H; discriminate H].
  exists E. split; [reflexivity|]. split; [reflexivity|].
  apply (solver_keeps_one_entry_per_body small_angle_numpy 8 [10; 20] [0.5; 0.25]
           [Constants.TOL; Constants.TOL] E); [reflexivity | exact H].
Defined.

(** X6.  Whenever [main] gets as far as printing, for whatever Julian date
    and whatever numpy computes, the matrix it prints has nine rows: one per
    body of the tables of [Constants.py]. *)
Theorem main_prints_one_row_per_body (np : numpy) (fuel : nat) (time : float)
    (rows : list (row float)) :
  Solaris6K.main_at np fuel time = Return (Some rows) -> length rows = 9%nat.
Proof. apply main_at_rows. Qed.

(** X6 at J2000.0, with the small-angle routines. *)
Lemma main_prints_one_row_per_body_witness :
  exists rows : list (row float),
    Solaris6K.main_at small_angle_numpy 8 2451545.0 = Return (Some rows)
    /\ length rows = 9%nat.
Proof.
  destruct (Solaris6K.main_at small_angle_numpy 8 2451545.0) as [[rows|]|e] eqn:H;
    [|vm_compute in H; discriminate H..].
  exists rows. split; [reflexivity|].
  apply (main_prints_one_row_per_body small_angle_numpy 8 2451545.0 rows H).
Defined.

(** X8.  Dates that are not finite.  [get_century] rejects [+inf] and
    [-inf]; a NaN century, which it lets through, turns every element
    [get_current_value] interpolates into NaN, whatever the base values and
    the rates, one per body, are. *)
Theorem non_finite_dates :
  (forall base_value rate : list float,
      length rate = length base_value ->
      Solaris6K.get_current_value base_value rate nan = map (fun _ => nan) base_value)
  /\ Solaris6K.get_century infinity
     = Raise (ValueError "Date is outside of scope (3000 BCE to 3000 CE).")
  /\ Solaris6K.get_century neg_infinity
     = Raise (ValueError "Date is outside of scope (3000 BCE to 3000 CE).").
Proof.
  split; [|split; vm_compute; reflexivity].
  unfold Solaris6K.get_current_value, add, scale.
  induction base_value as [|b base_value IH]; intros [|r rate] Hlen;
    try discriminate Hlen; simpl; [reflexivity|].
  injection Hlen as Hlen. rewrite mul_nan_r, add_nan_r, (IH rate Hlen). reflexivity.
Qed.

(** X8 on two bodies. *)
Lemma non_finite_dates_witness :
  length [10; 20] = length [1; 2]
  /\ Solaris6K.get_current_value [1; 2] [10; 20] nan = map (fun _ => nan) [1; 2].
Proof.
  split; [reflexivity|]. apply (proj1 non_finite_dates [1; 2] [10; 20]). reflexivity.
Defined.

(** X26.  [main] itself, which binds the date to 2451545.0, never takes
    the error path of [get_century]: whatever numpy computes, it either
    prints a matrix or is still in the loop of the solver; the same holds of
    the [main] of [solaris_6k.py]. *)
Theorem main_never_raises (np : numpy) (fuel : nat) :
  (exists printed : option (list (row float)), Solaris6K.main np fuel = Return printed)
  /\ (exists printed : option (list (row float)),
        solaris_6k.main np Constants_py fuel = Return printed).
Proof.
  split.
  - unfold Solaris6K.main, Solaris6K.main_at.
    change (Solaris6K.get_century 2451545.0) with (Return (A := float) 0).
    cbn [and_then]. eexists. reflexivity.
  - unfold solaris_6k.main, solaris_6k.main_at.
    change (solaris_6k.get_century Constants_py 2451545.0) with (Return (A := float) 0).
    cbn [and_then]. eexists. reflexivity.
Qed.

End Binary64Facts.

(** ** The functions that update an array in place, on the heap *)

Section HeapFunctionFacts.
Import Heap.
Local Open Scope float_scope.

(** X9.  The heap-level [get_eccentric_anomaly] updates [eccentric_anomaly]
    in place on every pass, and that array is its own: run in any heap, on
    any three arrays, it ends in a heap that extends the one it started in,
    so that its arguments and every other array that existed are unchanged;
    the reference it returns is to a new array, which holds the result of
    the pure function. *)
Theorem heap_solver_writes_only_its_own_array (np : numpy) (fuel : nat)
    (mean_anomaly eccentricity tol : loc) (h : heap) (vM ve vtol : list float) :
  nth_error h mean_anomaly = Some vM ->
  nth_error h eccentricity = Some ve ->
  nth_error h tol = Some vtol ->
  exists h' out,
    get_eccentric_anomaly np fuel mean_anomaly eccentricity tol h = (out, h')
    /\ extends h h'
    /\ match Solaris6K.get_eccentric_anomaly np fuel vM ve vtol with
       | Some vE =>
           exists r, out = Value r /\ nth_error h' r = Some vE /\ (length h <= r)%nat
       | None => out = OutOfFuel
       end.
Proof. apply get_eccentric_anomaly_run. Qed.

(** X9 in a heap of three arrays, with the small-angle routines. *)
Lemma heap_solver_writes_only_its_own_array_witness :
  nth_error two_body_heap 0 = Some [10; 20]
  /\ nth_error two_body_heap 1 = Some [0.5; 0.25]
  /\ nth_error two_body_heap 2 = Some [Constants.TOL; Constants.TOL]
  /\ exists h' out,
      get_eccentric_anomaly small_angle_numpy 8 0%nat 1%nat 2%nat two_body_heap = (out, h')
      /\ extends two_body_heap h'
      /\ match Solaris6K.get_eccentric_anomaly small_angle_numpy 8 [10; 20] [0.5; 0.25]
                 [Constants.TOL; Constants.TOL] with
         | Some vE =>
             exists r, out = Value r /\ nth_error h' r = Some vE
                       /\ (length two_body_heap <= r)%nat
         | None => out = OutOfFuel
         end.
Proof.
  split; [reflexivity|]. split; [reflexivity|]. split; [reflexivity|].
  apply (heap_solver_writes_only_its_own_array small_angle_numpy 8 0%nat 1%nat 2%nat
           two_body_heap); reflexivity.
Defined.

(** X10.  The heap-level [get_mean_anomaly] applies its three [+=] to the
    array [mean_longitude - perihelion_longitude], which it has just built:
    the heap it ends in is the one it started in with new arrays appended,
    the reference it returns is to one of these, and that array holds the
    result of the pure function. *)
Theorem heap_mean_anomaly_updates_a_fresh_array (np : numpy)
    (mean_longitude perihelion_longitude term_b term_c term_s term_f : loc) (time : float)
    (h : heap) (vml vpl vtb vtc vts vtf : list float) :
  nth_error h mean_longitude = Some vml ->
  nth_error h perihelion_longitude = Some vpl ->
  nth_error h term_b = Some vtb -> nth_error h term_c = Some vtc ->
  nth_error h term_s = Some vts -> nth_error h term_f = Some vtf ->
  exists r ext,
    get_mean_anomaly np mean_longitude perihelion_longitude
                     (term_b, term_c, term_s, term_f) time h
    = (Value r, h ++ ext)
    /\ nth_error (h ++ ext) r
       = Some (Solaris6K.get_mean_anomaly np vml vpl (vtb, vtc, vts, vtf) time)
    /\ (length h <= r)%nat.
Proof. apply get_mean_anomaly_run. Qed.

(** X10 on the tables of [Constants.py], one century after J2000.0. *)
Lemma heap_mean_anomaly_updates_a_fresh_array_witness :
  nth_error first_heap 6 = Some Constants.MEAN_LONGITUDES
  /\ nth_error first_heap 8 = Some Constants.PERIHELION_LONGITUDES
  /\ nth_error first_heap 12 = Some Constants.TERM_B
  /\ nth_error first_heap 13 = Some Constants.TERM_C
  /\ nth_error first_heap 14 = Some Constants.TERM_S
  /\ nth_error first_heap 15 = Some Constants.TERM_F
  /\ exists r ext,
      get_mean_anomaly small_angle_numpy 6%nat 8%nat (12%nat, 13%nat, 14%nat, 15%nat) 1
                       first_heap
      = (Value r, first_heap ++ ext)
      /\ nth_error (first_heap ++ ext) r
         = Some (Solaris6K.get_mean_anomaly small_angle_numpy Constants.MEAN_LONGITUDES
                   Constants.PERIHELION_LONGITUDES
                   (Constants.TERM_B, Constants.TERM_C, Constants.TERM_S, Constants.TERM_F)
                   1)
      /\ (length first_heap <= r)%nat.
Proof.
  repeat (split; [reflexivity|]).
  apply (heap_mean_anomaly_updates_a_fresh_array small_angle_numpy 6%nat 8%nat 12%nat 13%nat
           14%nat 15%nat 1 first_heap); reflexivity.
Defined.

End HeapFunctionFacts.

(** ** The wrappers and the mean anomaly on the exact reading *)

Section ExactAngles.
Local Open Scope R_scope.
Import Exact.

Lemma deg2rad_rad2deg (x : R) : deg2rad (rad2deg x) = x.
Proof. unfold rad2deg, deg2rad. field. apply PI_neq0. Qed.

Lemma deg2rad_180_minus (x : R) : deg2rad (180 - x) = PI - deg2rad x.
Proof. unfold deg2rad. field. Qed.

(** Past a quarter turn, up to three quarters, the normalisation reflects
    the angle about 90 degrees. *)
Lemma normalise_reflects (x : R) :
  90 <= x <= 270 -> arcsin_wrapper (sin_wrapper x) = 180 - x.
Proof.
  intros Hx. unfold arcsin_wrapper, sin_wrapper.
  rewrite <- (sin_PI_x (deg2rad x)), <- deg2rad_180_minus.
  rewrite asin_sin.
  - apply rad2deg_deg2rad.
  - unfold deg2rad. pose proof PI_RGT_0. split; nra.
Qed.

Lemma sin_wrapper_more_turns (x : R) (k : nat) :
  sin_wrapper (x + 360 * INR k) = sin_wrapper x.
Proof.
  unfold sin_wrapper. rewrite <- (sin_period (deg2rad x) k).
  f_equal. unfold deg2rad. field.
Qed.

Lemma sin_wrapper_fewer_turns (x : R) (k : nat) :
  sin_wrapper (x - 360 * INR k) = sin_wrapper x.
Proof.
  rewrite <- (sin_wrapper_more_turns (x - 360 * INR k) k). f_equal. ring.
Qed.

Lemma cos_wrapper_reflected (x : R) : cos_wrapper (180 - x) = - cos_wrapper x.
Proof.
  unfold cos_wrapper. rewrite deg2rad_180_minus.
  rewrite Rtrigo_facts.cos_pi_minus. reflexivity.
Qed.

(** X11.  The four wrappers are inverse to one another on the principal
    ranges, in degrees: [arcsin_wrapper] undoes [sin_wrapper] on
    [-90, 90], [arccos_wrapper] undoes [cos_wrapper] on [0, 180], and
    [sin_wrapper] and [cos_wrapper] undo the inverse wrappers on
    [-1, 1]. *)
Theorem wrappers_invert_on_principal_range :
  (forall x : R, -90 <= x <= 90 -> arcsin_wrapper (sin_wrapper x) = x)
  /\ (forall y : R, -1 <= y <= 1 -> sin_wrapper (arcsin_wrapper y) = y)
  /\ (forall x : R, 0 <= x <= 180 -> arccos_wrapper (cos_wrapper x) = x)
  /\ (forall y : R, -1 <= y <= 1 -> cos_wrapper (arccos_wrapper y) = y).
Proof.
  split; [|split; [|split]].
  - exact normalise_small.
  - intros y Hy. unfold arcsin_wrapper, sin_wrapper.
    rewrite deg2rad_rad2deg. apply sin_asin. exact Hy.
  - intros x Hx. unfold arccos_wrapper, cos_wrapper. rewrite acos_cos.
    + apply rad2deg_deg2rad.
    + unfold deg2rad. pose proof PI_RGT_0. split; nra.
  - intros y Hy. unfold arccos_wrapper, cos_wrapper.
    rewrite deg2rad_rad2deg. apply cos_acos. exact Hy.
Qed.

(** X11 at 30 and 120 degrees and at the sine and cosine 1/2. *)
Lemma wrappers_invert_on_principal_range_witness :
  (-90 <= 30 <= 90 /\ arcsin_wrapper (sin_wrapper 30) = 30)
  /\ (-1 <= 1 / 2 <= 1 /\ sin_wrapper (arcsin_wrapper (1 / 2)) = 1 / 2)
  /\ (0 <= 120 <= 180 /\ arccos_wrapper (cos_wrapper 120) = 120)
  /\ (-1 <= 1 / 2 <= 1 /\ cos_wrapper (arccos_wrapper (1 / 2)) = 1 / 2).
Proof.
  destruct wrappers_invert_on_principal_range as (H1 & H2 & H3 & H4).
  repeat split; try lra; [apply H1 | apply H2 | apply H3 | apply H4]; lra.
Defined.

(** X12.  The normalisation of [get_mean_anomaly] is not a reduction modulo
    a full turn: a mean anomaly that comes out between 90 and 270 degrees
    before it is returned reflected about 90 degrees, as 180 minus itself,
    an angle with the same sine and the opposite cosine. *)
Theorem normalisation_reflects_past_quarter_turn (l p b c s f t : R) :
  90 <= raw_mean_anomaly l p b c s f t <= 270 ->
  get_mean_anomaly [l] [p] ([b], [c], [s], [f]) t = [180 - raw_mean_anomaly l p b c s f t]
  /\ sin_wrapper (180 - raw_mean_anomaly l p b c s f t)
     = sin_wrapper (raw_mean_anomaly l p b c s f t)
  /\ cos_wrapper (180 - raw_mean_anomaly l p b c s f t)
     = - cos_wrapper (raw_mean_anomaly l p b c s f t).
Proof.
  intros H. split; [|split].
  - rewrite exact_get_mean_anomaly_per_body. simpl. f_equal.
    apply normalise_reflects. exact H.
  - unfold sin_wrapper. rewrite deg2rad_180_minus. apply sin_PI_x.
  - apply cos_wrapper_reflected.
Qed.

(** X12 on the first body of the tables at J2000.0: mean longitude
    252.25166724, longitude of perihelion 77.45771895, no further term. *)
Lemma normalisation_reflects_past_quarter_turn_witness :
  90 <= raw_mean_anomaly 252.25166724 77.45771895 0 0 0 0 0 <= 270
  /\ get_mean_anomaly [252.25166724] [77.45771895] ([0], [0], [0], [0]) 0
     = [180 - raw_mean_anomaly 252.25166724 77.45771895 0 0 0 0 0]
  /\ sin_wrapper (180 - raw_mean_anomaly 252.25166724 77.45771895 0 0 0 0 0)
     = sin_wrapper (raw_mean_anomaly 252.25166724 77.45771895 0 0 0 0 0)
  /\ cos_wrapper (180 - raw_mean_anomaly 252.25166724 77.45771895 0 0 0 0 0)
     = - cos_wrapper (raw_mean_anomaly 252.25166724 77.45771895 0 0 0 0 0).
Proof.
  assert (H : 90 <= raw_mean_anomaly 252.25166724 77.45771895 0 0 0 0 0 <= 270).
  { unfold raw_mean_anomaly. lra. }
  split; [exact H|].
  apply (normalisation_reflects_past_quarter_turn 252.25166724 77.45771895 0 0 0 0 0).
  exact H.
Defined.

(** X13.  [get_current_value] does not reduce the longitudes it
    interpolates, and [get_mean_anomaly] does not need it to: whole turns
    added to or taken from the mean longitude or the longitude of
    perihelion leave the mean anomaly unchanged. *)
Theorem mean_anomaly_ignores_whole_turns (l p b c s f t : R) (k : nat) :
  get_mean_anomaly [l + 360 * INR k] [p] ([b], [c], [s], [f]) t
  = get_mean_anomaly [l] [p] ([b], [c], [s], [f]) t
  /\ get_mean_anomaly [l - 360 * INR k] [p] ([b], [c], [s], [f]) t
     = get_mean_anomaly [l] [p] ([b], [c], [s], [f]) t
  /\ get_mean_anomaly [l] [p + 360 * INR k] ([b], [c], [s], [f]) t
     = get_mean_anomaly [l] [p] ([b], [c], [s], [f]) t
  /\ get_mean_anomaly [l] [p - 360 * INR k] ([b], [c], [s], [f]) t
     = get_mean_anomaly [l] [p] ([b], [c], [s], [f]) t.
Proof.
  rewrite !exact_get_mean_anomaly_per_body. simpl.
  repeat split; do 2 f_equal.
  - rewrite <- (sin_wrapper_more_turns (raw_mean_anomaly l p b c s f t) k).
    f_equal. unfold raw_mean_anomaly. ring.
  - rewrite <- (sin_wrapper_fewer_turns (raw_mean_anomaly l p b c s f t) k).
    f_equal. unfold raw_mean_anomaly. ring.
  - rewrite <- (sin_wrapper_fewer_turns (raw_mean_anomaly l p b c s f t) k).
    f_equal. unfold raw_mean_anomaly. ring.
  - rewrite <- (sin_wrapper_more_turns (raw_mean_anomaly l p b c s f t) k).
    f_equal. unfold raw_mean_anomaly. ring.
Qed.

End ExactAngles.

(** ** The range check and the elements on the exact reading *)

Section ExactDates.
Local Open Scope R_scope.
Import Exact.

Lemma get_century_accepted (jd : R) :
  1355795 <= jd <= 3547295 ->
  get_century jd = Return ((jd - J2000_0) / CONVERSION_FACTOR).
Proof.
  intros H. unfold get_century, greater. cbv zeta.
  destruct (Rlt_dec 30 _) as [Hlt|_]; [|reflexivity].
  exfalso. revert Hlt. unfold J2000_0, CONVERSION_FACTOR.
  unfold Rabs. destruct (Rcase_abs _); lra.
Qed.

Lemma get_century_rejected (jd : R) :
  jd < 1355795 \/ 3547295 < jd ->
  get_century jd = Raise (ValueError "Date is outside of scope (3000 BCE to 3000 CE).").
Proof.
  intros H. unfold get_century, greater. cbv zeta.
  destruct (Rlt_dec 30 _) as [_|Hge]; [reflexivity|].
  exfalso. apply Hge. unfold J2000_0, CONVERSION_FACTOR.
  unfold Rabs. destruct (Rcase_abs _); lra.
Qed.

Lemma get_century_returns_bounded (jd c : R) :
  get_century jd = Return c -> -30 <= c <= 30.
Proof.
  unfold get_century, greater. cbv zeta.
  destruct (Rlt_dec 30 _) as [|Hge]; [discriminate|].
  intros [= <-]. revert Hge. unfold Rabs. destruct (Rcase_abs _); lra.
Qed.

Lemma get_century_of_offset (c : R) :
  -30 <= c <= 30 -> get_century (2451545 + 36525 * c) = Return c.
Proof.
  intros H. rewrite get_century_accepted by lra.
  unfold J2000_0, CONVERSION_FACTOR. f_equal. lra.
Qed.

(** X14.  In Julian days, [get_century] accepts exactly the dates from
    1355795 to 3547295, both included: 1095750 days, thirty centuries of
    36525 days, on either side of J2000.0.  Every other date raises the
    [ValueError].  The century it returns is the one the date was made
    from: the date [c] centuries from J2000.0 gives [c] back. *)
Theorem get_century_accepts_julian_days :
  (forall jd : R, 1355795 <= jd <= 3547295 ->
                  get_century jd = Return ((jd - 2451545) / 36525))
  /\ (forall jd : R, jd < 1355795 \/ 3547295 < jd ->
        get_century jd
        = Raise (ValueError "Date is outside of scope (3000 BCE to 3000 CE)."))
  /\ (forall c : R, -30 <= c <= 30 -> get_century (2451545 + 36525 * c) = Return c).
Proof.
  split; [|split].
  - intros jd H. rewrite (get_century_accepted jd H).
    unfold J2000_0, CONVERSION_FACTOR. do 2 f_equal. lra.
  - exact get_century_rejected.
  - exact get_century_of_offset.
Qed.

(** X14 at the first day accepted, the day before it, and one century
    before J2000.0. *)
Lemma get_century_accepts_julian_days_witness :
  (1355795 <= 1355795 <= 3547295
   /\ get_century 1355795 = Return ((1355795 - 2451545) / 36525))
  /\ ((1355794 < 1355795 \/ 3547295 < 1355794)
      /\ get_century 1355794
         = Raise (ValueError "Date is outside of scope (3000 BCE to 3000 CE)."))
  /\ (-30 <= -1 <= 30 /\ get_century (2451545 + 36525 * -1) = Return (-1)).
Proof.
  destruct get_century_accepts_julian_days as (Hin & Hout & Hback).
  repeat split; try lra; [apply Hin | apply Hout | apply Hback]; lra.
Defined.

(** X15.  The range check is what keeps the orbits ellipses: for every
    date [get_century] accepts, each of the nine eccentricities that
    [get_current_value] interpolates from the tables lies strictly between
    0 and 1, so that the [1 - e ** 2] under the square root of [main] is
    positive, and each semi-major axis is positive. *)
Theorem accepted_dates_keep_orbits_elliptic (jd c : R) :
  get_century jd = Return c ->
  Forall (fun e => 0 < e < 1 /\ 0 < 1 - e * e)
         (get_current_value ECCENTRICITIES ECCENTRICITIES_RATE c)
  /\ Forall (fun a => 0 < a)
            (get_current_value SEMI_MAJOR_AXES SEMI_MAJOR_AXES_RATE c).
Proof.
  intros H. apply get_century_returns_bounded in H.
  split; repeat constructor; try nra; lra.
Qed.

(** X15 at J2000.0. *)
Lemma accepted_dates_keep_orbits_elliptic_witness :
  get_century 2451545 = Return ((2451545 - J2000_0) / CONVERSION_FACTOR)
  /\ Forall (fun e => 0 < e < 1 /\ 0 < 1 - e * e)
            (get_current_value ECCENTRICITIES ECCENTRICITIES_RATE
               ((2451545 - J2000_0) / CONVERSION_FACTOR))
  /\ Forall (fun a => 0 < a)
            (get_current_value SEMI_MAJOR_AXES SEMI_MAJOR_AXES_RATE
               ((2451545 - J2000_0) / CONVERSION_FACTOR)).
Proof.
  assert (H : get_century 2451545 = Return ((2451545 - J2000_0) / CONVERSION_FACTOR)).
  { apply get_century_accepted. lra. }
  split; [exact H|].
  apply (accepted_dates_keep_orbits_elliptic 2451545 _ H).
Defined.

End ExactDates.

(** ** The solver on the exact reading *)

Section ExactSolver.
Local Open Scope R_scope.
Import Exact.

Lemma newton_delta_residual (M e E : R) :
  newton_delta M e E = kepler_residual M e E / (1 - e * cos_wrapper E).
Proof. reflexivity. Qed.

Lemma newton_denominator (e E : R) : 0 <= e < 1 -> 1 - e <= 1 - e * cos_wrapper E.
Proof.
  intros He. unfold cos_wrapper. pose proof (COS_bound (deg2rad E)) as [_ Hc]. nra.
Qed.

(** Kepler's function [E - e (180/pi) sin_deg E - M], of [E] in degrees,
    has the derivative [1 - e cos_deg E]. *)
Lemma kepler_function_derivative (M e E : R) :
  derivable_pt_lim (fun x => - kepler_residual M e x) E (1 - e * cos_wrapper E).
Proof.
  assert (Hsin : derivable_pt_lim (fun x => sin (x * (PI / 180))) E
                   (cos (E * (PI / 180)) * (PI / 180))).
  { pose proof (derivable_pt_lim_comp (fun x => x * (PI / 180)) sin E (PI / 180)
                  (cos (E * (PI / 180)))) as H.
    apply H.
    - pose proof (derivable_pt_lim_scal id (PI / 180) E 1 (derivable_pt_lim_id E)) as Hs.
      unfold mult_real_fct, id in Hs. rewrite Rmult_1_r in Hs.
      eapply derivable_pt_lim_ext; [|exact Hs]. intros x. simpl. ring.
    - apply derivable_pt_lim_sin. }
  pose proof (derivable_pt_lim_scal _ (e * (180 / PI)) E _ Hsin) as Hscaled.
  pose proof (derivable_pt_lim_minus _ _ E _ _ (derivable_pt_lim_id E) Hscaled) as Hdiff.
  pose proof (derivable_pt_lim_minus _ _ E _ _ Hdiff (derivable_pt_lim_const M E)) as Hall.
  replace (1 - e * cos_wrapper E)
    with (1 - e * (180 / PI) * (cos (E * (PI / 180)) * (PI / 180)) - 0).
  - eapply derivable_pt_lim_ext; [|exact Hall].
    intros x. unfold minus_fct, mult_real_fct, fct_cte, id, kepler_residual, sin_wrapper, deg2rad.
    ring.
  - unfold cos_wrapper, deg2rad. field. apply PI_neq0.
Qed.

(** X16.  One pass of the loop of [get_eccentric_anomaly] is a step of
    Newton's method on Kepler's equation in degrees: where the divisor is
    not zero, the delta it adds to the eccentric anomaly is the residual
    [M - (E - e (180/pi) sin_deg E)] divided by [1 - e cos_deg E], and that
    divisor is the derivative, at [E], of Kepler's function
    [E - e (180/pi) sin_deg E - M]. *)
Theorem solver_update_is_newton_step (M e E : R) (d : operand) :
  e * cos_wrapper E <> 1 ->
  solver_body [M] [e] (scale [e] ECCENTRICITIY_FACTOR)
              {| eccentric_anomaly := [E]; eccentric_anomaly_delta := d |}
  = {| eccentric_anomaly := [E + newton_delta M e E];
       eccentric_anomaly_delta := Array [newton_delta M e E] |}
  /\ newton_delta M e E = kepler_residual M e E / (1 - e * cos_wrapper E)
  /\ derivable_pt_lim (fun x => - kepler_residual M e x) E (1 - e * cos_wrapper E).
Proof.
  intros _. split; [|split].
  - reflexivity.
  - reflexivity.
  - apply kepler_function_derivative.
Qed.

(** X16 at [M = 90], [e = 1/2] and [E = 90] degrees, from the first
    delta. *)
Lemma solver_update_is_newton_step_witness :
  1 / 2 * cos_wrapper 90 <> 1
  /\ solver_body [90] [1 / 2] (scale [1 / 2] ECCENTRICITIY_FACTOR)
                 {| eccentric_anomaly := [90]; eccentric_anomaly_delta := Infinity |}
     = {| eccentric_anomaly := [90 + newton_delta 90 (1 / 2) 90];
          eccentric_anomaly_delta := Array [newton_delta 90 (1 / 2) 90] |}
  /\ newton_delta 90 (1 / 2) 90
     = kepler_residual 90 (1 / 2) 90 / (1 - 1 / 2 * cos_wrapper 90)
  /\ derivable_pt_lim (fun x => - kepler_residual 90 (1 / 2) x) 90
                      (1 - 1 / 2 * cos_wrapper 90).
Proof.
  assert (H : 1 / 2 * cos_wrapper 90 <> 1).
  { unfold cos_wrapper. pose proof (COS_bound (deg2rad 90)). lra. }
  split; [exact H|].
  apply (solver_update_is_newton_step 90 (1 / 2) 90 Infinity H).
Defined.

(** X17.  For an eccentricity in [0, 1) the divisor of the Newton delta is
    at least [1 - e], hence positive, whatever the eccentric anomaly is;
    the delta is then zero exactly at the solutions of Kepler's equation,
    and a pass of the loop leaves a solution where it is. *)
Theorem fixed_points_are_kepler_solutions (M e E : R) :
  0 <= e < 1 ->
  0 < 1 - e <= 1 - e * cos_wrapper E
  /\ (newton_delta M e E = 0 <-> kepler_residual M e E = 0)
  /\ (kepler_residual M e E = 0 ->
      forall d : operand,
        solver_body [M] [e] (scale [e] ECCENTRICITIY_FACTOR)
                    {| eccentric_anomaly := [E]; eccentric_anomaly_delta := d |}
        = {| eccentric_anomaly := [E]; eccentric_anomaly_delta := Array [0] |}).
Proof.
  intros He. pose proof (newton_denominator e E He) as Hden.
  assert (Hiff : newton_delta M e E = 0 <-> kepler_residual M e E = 0).
  { rewrite newton_delta_residual. split.
    - intros H0. apply Rmult_eq_compat_r with (r := 1 - e * cos_wrapper E) in H0.
      unfold Rdiv in H0. rewrite Rmult_assoc, Rinv_l, Rmult_1_r, Rmult_0_l in H0 by lra.
      exact H0.
    - intros ->. unfold Rdiv. ring. }
  split; [lra|]. split; [exact Hiff|].
  intros Hres d. apply Hiff in Hres.
  rewrite solver_body_one. rewrite Hres, Rplus_0_r. reflexivity.
Qed.

(** X17 at [M = 0], [e = 0] and [E = 0]. *)
Lemma fixed_points_are_kepler_solutions_witness :
  0 <= 0 < 1
  /\ 0 < 1 - 0 <= 1 - 0 * cos_wrapper 0
  /\ (newton_delta 0 0 0 = 0 <-> kepler_residual 0 0 0 = 0)
  /\ (kepler_residual 0 0 0 = 0 ->
      forall d : operand,
        solver_body [0] [0] (scale [0] ECCENTRICITIY_FACTOR)
                    {| eccentric_anomaly := [0]; eccentric_anomaly_delta := d |}
        = {| eccentric_anomaly := [0]; eccentric_anomaly_delta := Array [0] |}).
Proof.
  split; [lra|]. apply (fixed_points_are_kepler_solutions 0 0 0). lra.
Defined.

(** *** Circular orbits *)

Lemma seed_circular (M : R) : seed M 0 = M.
Proof. unfold seed. ring. Qed.

Lemma newton_delta_circular (M : R) : newton_delta M 0 M = 0.
Proof. unfold newton_delta. unfold Rdiv. ring. Qed.

Lemma circular_pass (M : R) (d : operand) :
  solver_body [M] [0] (scale [0] ECCENTRICITIY_FACTOR)
              {| eccentric_anomaly := [M]; eccentric_anomaly_delta := d |}
  = {| eccentric_anomaly := [M]; eccentric_anomaly_delta := Array [0] |}.
Proof.
  rewrite solver_body_one, newton_delta_circular, Rplus_0_r. reflexivity.
Qed.

Lemma circular_init (M : R) :
  solver_init [M] (scale [0] ECCENTRICITIY_FACTOR)
  = {| eccentric_anomaly := [M]; eccentric_anomaly_delta := Infinity |}.
Proof. rewrite solver_init_one, seed_circular. reflexivity. Qed.

(** X18.  On a circular orbit ([e = 0]) and with a tolerance that is not
    negative, [get_eccentric_anomaly] makes exactly one pass, whose delta
    is 0, and returns the mean anomaly itself. *)
Theorem circular_orbit_solved_in_one_pass (fuel : nat) (M tol : R) :
  0 <= tol ->
  solver_run (S fuel) [M] [0] [tol]
  = ({| eccentric_anomaly := [M]; eccentric_anomaly_delta := Array [0] |}, 1%nat, true)
  /\ get_eccentric_anomaly (S fuel) [M] [0] [tol] = Some [M].
Proof.
  intros Htol.
  assert (Hrun : solver_run (S fuel) [M] [0] [tol]
                 = ({| eccentric_anomaly := [M]; eccentric_anomaly_delta := Array [0] |},
                    1%nat, true)).
  { unfold solver_run. cbv zeta. rewrite circular_init.
    cbn [while solver_test eccentric_anomaly_delta np_greater map any existsb orb].
    rewrite circular_pass.
    destruct fuel;
      cbn [while solver_test eccentric_anomaly_delta np_greater map2 any existsb orb];
      unfold greater; destruct (Rlt_dec tol 0); try lra; reflexivity. }
  split; [exact Hrun|]. unfold get_eccentric_anomaly. rewrite Hrun. reflexivity.
Qed.

(** X18 at 45 degrees and the tolerance 1e-7, with fuel for three
    passes. *)
Lemma circular_orbit_solved_in_one_pass_witness :
  0 <= 1 / 10000000
  /\ solver_run 3 [45] [0] [1 / 10000000]
     = ({| eccentric_anomaly := [45]; eccentric_anomaly_delta := Array [0] |}, 1%nat, true)
  /\ get_eccentric_anomaly 3 [45] [0] [1 / 10000000] = Some [45].
Proof.
  split; [lra|]. apply (circular_orbit_solved_in_one_pass 2 45 (1 / 10000000)). lra.
Defined.

(** With a negative tolerance the delta 0 of a circular orbit stays above
    it, pass after pass. *)
Lemma circular_loop_spins (fuel : nat) (M tol : R) :
  tol < 0 ->
  while fuel (solver_test [tol]) (solver_body [M] [0] (scale [0] ECCENTRICITIY_FACTOR))
        {| eccentric_anomaly := [M]; eccentric_anomaly_delta := Array [0] |}
  = ({| eccentric_anomaly := [M]; eccentric_anomaly_delta := Array [0] |}, fuel, false).
Proof.
  intros Htol.
  assert (Htest : solver_test [tol]
                    {| eccentric_anomaly := [M]; eccentric_anomaly_delta := Array [0] |}
                  = true).
  { unfold solver_test, any. simpl. unfold greater.
    destruct (Rlt_dec tol 0); [reflexivity | lra]. }
  induction fuel as [|fuel IH].
  - cbn [while]. rewrite Htest. reflexivity.
  - cbn [while]. rewrite Htest, circular_pass, IH. reflexivity.
Qed.

(** X19.  The loop of [get_eccentric_anomaly] has no bound on its passes,
    and a negative tolerance can keep it going for ever: on a circular
    orbit every delta is 0, which is greater than the tolerance, so that
    the loop makes every pass it is allowed, however many, and never
    returns. *)
Theorem negative_tolerance_is_never_met (fuel : nat) (M tol : R) :
  tol < 0 ->
  (let '(s, passes, ended) := solver_run fuel [M] [0] [tol] in
   eccentric_anomaly s = [M] /\ passes = fuel /\ ended = false)
  /\ get_eccentric_anomaly fuel [M] [0] [tol] = None.
Proof.
  intros Htol.
  assert (Hrun : solver_run fuel [M] [0] [tol]
                 = ({| eccentric_anomaly := [M];
                       eccentric_anomaly_delta :=
                         match fuel with O => Infinity | S _ => Array [0] end |},
                    fuel, false)).
  { unfold solver_run. cbv zeta. rewrite circular_init. destruct fuel as [|fuel].
    - reflexivity.
    - cbn [while solver_test eccentric_anomaly_delta np_greater map any existsb orb].
      rewrite circular_pass, (circular_loop_spins fuel M tol Htol). reflexivity. }
  unfold get_eccentric_anomaly. rewrite Hrun. repeat split; reflexivity.
Qed.

(** X19 at 45 degrees and the tolerance -1, with fuel for five passes. *)
Lemma negative_tolerance_is_never_met_witness :
  -1 < 0
  /\ (let '(s, passes, ended) := solver_run 5 [45] [0] [-1] in
      eccentric_anomaly s = [45] /\ passes = 5%nat /\ ended = false)
  /\ get_eccentric_anomaly 5 [45] [0] [-1] = None.
Proof.
  split; [lra|]. apply (negative_tolerance_is_never_met 5 45 (-1)). lra.
Defined.

End ExactSolver.

(** ** Distances and directions on the exact reading *)

(** Two arrays of rows are equal if their entries are. *)
Ltac rows_equal :=
  repeat match goal with
         | |- _ :: _ = _ :: _ => apply f_equal2
         | |- (_, _) = (_, _) => apply f_equal2
         end;
  try reflexivity.

Section ExactGeometry.
Local Open Scope R_scope.
Import Exact.

Lemma deg2rad_plus (a b : R) : deg2rad (a + b) = deg2rad a + deg2rad b.
Proof. unfold deg2rad. ring. Qed.

Lemma cos_wrapper_plus (a b : R) :
  cos_wrapper (a + b) = cos_wrapper a * cos_wrapper b - sin_wrapper a * sin_wrapper b.
Proof. unfold cos_wrapper, sin_wrapper. rewrite deg2rad_plus. apply cos_plus. Qed.

Lemma sin_wrapper_plus (a b : R) :
  sin_wrapper (a + b) = sin_wrapper a * cos_wrapper b + cos_wrapper a * sin_wrapper b.
Proof. unfold cos_wrapper, sin_wrapper. rewrite deg2rad_plus. apply sin_plus. Qed.

Lemma wrappers_at_0 : sin_wrapper 0 = 0 /\ cos_wrapper 0 = 1.
Proof.
  unfold sin_wrapper, cos_wrapper, deg2rad. rewrite Rmult_0_l.
  split; [apply sin_0 | apply cos_0].
Qed.

Lemma wrappers_at_180 : sin_wrapper 180 = 0 /\ cos_wrapper 180 = -1.
Proof.
  unfold sin_wrapper, cos_wrapper, deg2rad.
  replace (180 * (PI / 180)) with PI by field.
  split; [apply sin_PI | apply cos_PI].
Qed.

Lemma sin_cos_wrapper_unit (x : R) :
  sin_wrapper x * sin_wrapper x + cos_wrapper x * cos_wrapper x = 1.
Proof.
  unfold sin_wrapper, cos_wrapper. pose proof (sin2_cos2 (deg2rad x)) as H.
  unfold Rsqr in H. exact H.
Qed.

Lemma exact_ecliptic_per_body (hc : list (row R)) (wl nl il : list R) :
  get_ecliptic_coordinate hc wl nl il
  = map (fun '((x, y, z), (w, (n, i))) =>
           (x * (cos_wrapper w * cos_wrapper n
                 - sin_wrapper w * sin_wrapper n * cos_wrapper i)
            + y * (- sin_wrapper w * cos_wrapper n
                   - cos_wrapper w * sin_wrapper n * cos_wrapper i)
            + z * 0,
            x * (cos_wrapper w * sin_wrapper n
                 + sin_wrapper w * cos_wrapper n * cos_wrapper i)
            + y * (- sin_wrapper w * sin_wrapper n
                   + cos_wrapper w * cos_wrapper n * cos_wrapper i)
            + z * 0,
            x * (sin_wrapper w * sin_wrapper i)
            + y * (cos_wrapper w * sin_wrapper i)
            + z * 0))
        (combine hc (combine wl (combine nl il))).
Proof.
  unfold get_ecliptic_coordinate, cos_wrapper_a, sin_wrapper_a, full_like, sum_axis1,
    mul_rows, add, sub, mul, neg.
  revert wl nl il.
  induction hc as [|[[x y] z] hc IH]; intros [|w wl] [|n nl] [|i il]; simpl; try reflexivity.
  f_equal. apply IH.
Qed.

(** The first two columns of the three matrices are orthogonal unit
    vectors. *)
Lemma rotation_keeps_distance (x y z sw cw sn cn si ci : R) :
  sw * sw + cw * cw = 1 -> sn * sn + cn * cn = 1 -> si * si + ci * ci = 1 ->
  square_distance
    (x * (cw * cn - sw * sn * ci) + y * (- sw * cn - cw * sn * ci) + z * 0,
     x * (cw * sn + sw * cn * ci) + y * (- sw * sn + cw * cn * ci) + z * 0,
     x * (sw * si) + y * (cw * si) + z * 0)
  = x * x + y * y.
Proof.
  intros Hw Hn Hi. unfold square_distance.
  assert (A : sw * sw + cw * cw - 1 = 0) by lra.
  assert (B : sn * sn + cn * cn - 1 = 0) by lra.
  assert (C : si * si + ci * ci - 1 = 0) by lra.
  transitivity
    (x * x + y * y
     + x * x * ((cw * cw + sw * sw * ci * ci) * (sn * sn + cn * cn - 1)
                + sw * sw * (si * si + ci * ci - 1) + (sw * sw + cw * cw - 1))
     + 2 * x * y * (sw * cw * ((ci * ci - 1) * (sn * sn + cn * cn - 1)
                               + (si * si + ci * ci - 1)))
     + y * y * ((sw * sw + cw * cw * ci * ci) * (sn * sn + cn * cn - 1)
                + cw * cw * (si * si + ci * ci - 1) + (sw * sw + cw * cw - 1))).
  - ring.
  - rewrite A, B, C. ring.
Qed.

Lemma exact_equatorial_per_body (rows : list (row R)) :
  dot_rows eq_matrix rows
  = map (fun '(x, y, z) =>
           (1 * x + 0 * y + 0 * z,
            0 * x + cos_wrapper OBLIQUITY * y + - sin_wrapper OBLIQUITY * z,
            0 * x + sin_wrapper OBLIQUITY * y + cos_wrapper OBLIQUITY * z)) rows.
Proof.
  unfold dot_rows, eq_matrix, dot3. apply map_ext. intros [[x y] z]. reflexivity.
Qed.

Lemma equatorial_keeps_distance (rows : list (row R)) :
  map square_distance (dot_rows eq_matrix rows) = map square_distance rows.
Proof.
  rewrite exact_equatorial_per_body, map_map. apply map_ext. intros [[x y] z].
  unfold square_distance. pose proof (sin_cos_wrapper_unit OBLIQUITY) as H.
  transitivity (x * x + (sin_wrapper OBLIQUITY * sin_wrapper OBLIQUITY
                         + cos_wrapper OBLIQUITY * cos_wrapper OBLIQUITY) * (y * y + z * z)).
  - ring.
  - rewrite H. ring.
Qed.

Lemma exact_heliocentric_per_body (al el El Ml : list R) :
  heliocentric_coordinates al el El Ml
  = map (fun '(a, (e, (E, _))) =>
           (a * (cos_wrapper E - e), a * sqrt (1 - e * e) * sin_wrapper E, 0))
        (combine al (combine el (combine El Ml))).
Proof.
  unfold heliocentric_coordinates, cos_wrapper_a, sin_wrapper_a, full_like, rsub, mul, sub.
  revert el El Ml.
  induction al as [|a al IH]; intros [|e el] [|E El] [|M Ml]; simpl; try reflexivity.
  f_equal. apply IH.
Qed.

Lemma ellipse_point_distance (a e E : R) :
  e * e <= 1 ->
  square_distance (a * (cos_wrapper E - e), a * sqrt (1 - e * e) * sin_wrapper E, 0)
  = (a * (1 - e * cos_wrapper E)) * (a * (1 - e * cos_wrapper E)).
Proof.
  intros He. unfold square_distance.
  pose proof (sin_cos_wrapper_unit E) as H.
  assert (Hs : sqrt (1 - e * e) * sqrt (1 - e * e) = 1 - e * e) by (apply sqrt_sqrt; lra).
  transitivity (a * a * ((cos_wrapper E - e) * (cos_wrapper E - e)
                         + sqrt (1 - e * e) * sqrt (1 - e * e)
                           * (sin_wrapper E * sin_wrapper E))).
  - ring.
  - rewrite Hs.
    replace (sin_wrapper E * sin_wrapper E) with (1 - cos_wrapper E * cos_wrapper E) by lra.
    ring.
Qed.

(** X20.  The point [main] places a body at in the plane of its orbit,
    [(a (cos_deg E - e), a sqrt(1 - e ** 2) sin_deg E, 0)], lies at the
    distance [a (1 - e cos_deg E)] from the Sun, for every semi-major axis
    and eccentric anomaly and every eccentricity of absolute value at most
    1: the squares of the two are equal. *)
Theorem heliocentric_distance_is_orbital_radius
    (semi_major_axes eccentricities eccentric_anomalies mean_anomalies : list R) :
  Forall (fun e => e * e <= 1) eccentricities ->
  map square_distance
      (heliocentric_coordinates semi_major_axes eccentricities eccentric_anomalies
                                mean_anomalies)
  = map (fun '(a, (e, (E, _))) =>
           (a * (1 - e * cos_wrapper E)) * (a * (1 - e * cos_wrapper E)))
        (combine semi_major_axes
           (combine eccentricities (combine eccentric_anomalies mean_anomalies))).
Proof.
  intros He. rewrite exact_heliocentric_per_body, map_map. apply map_ext_in.
  intros [a [e [E M]]] Hin. apply ellipse_point_distance.
  apply in_combine_r, in_combine_l in Hin.
  rewrite Forall_forall in He. apply He. exact Hin.
Qed.

(** X20 at [a = 2], [e = 1/2] and [E = 60] degrees. *)
Lemma heliocentric_distance_is_orbital_radius_witness :
  Forall (fun e => e * e <= 1) [1 / 2]
  /\ map square_distance (heliocentric_coordinates [2] [1 / 2] [60] [0])
     = map (fun '(a, (e, (E, _))) =>
              (a * (1 - e * cos_wrapper E)) * (a * (1 - e * cos_wrapper E)))
           (combine [2] (combine [1 / 2] (combine [60] [0]))).
Proof.
  assert (H : Forall (fun e => e * e <= 1) [1 / 2]) by (repeat constructor; lra).
  split; [exact H|].
  apply (heliocentric_distance_is_orbital_radius [2] [1 / 2] [60] [0]). exact H.
Defined.

(** X21.  [get_ecliptic_coordinate] keeps the distance of a point of the
    orbital plane from the Sun, whatever the three angles are: the square of
    the distance of the point it returns is [x * x + y * y], for the
    heliocentric point [(x, y, z)] it is given.  The third coordinate [z]
    plays no part: it is multiplied by the zero column of the three
    matrices. *)
Theorem ecliptic_rotation_keeps_distance (heliocentric_coordinate : list (row R))
    (perihelion_argument ascending_node_longitude inclination : list R) :
  map square_distance
      (get_ecliptic_coordinate heliocentric_coordinate perihelion_argument
                               ascending_node_longitude inclination)
  = map (fun '((x, y, _), _) => x * x + y * y)
        (combine heliocentric_coordinate
           (combine perihelion_argument (combine ascending_node_longitude inclination))).
Proof.
  rewrite exact_ecliptic_per_body, map_map. apply map_ext.
  intros [[[x y] z] [w [n i]]].
  apply rotation_keeps_distance; apply sin_cos_wrapper_unit.
Qed.

(** X22.  The product with [eq_matrix] that [main] ends with, the rotation
    by the obliquity about the first axis, keeps the distance of every
    point from the Sun and its first coordinate. *)
Theorem equatorial_rotation_keeps_distance (ecliptic_coordinates : list (row R)) :
  map square_distance (dot_rows eq_matrix ecliptic_coordinates)
  = map square_distance ecliptic_coordinates
  /\ map (fun '(x, _, _) => x) (dot_rows eq_matrix ecliptic_coordinates)
     = map (fun '(x, _, _) => x) ecliptic_coordinates.
Proof.
  split.
  - apply equatorial_keeps_distance.
  - rewrite exact_equatorial_per_body, map_map. apply map_ext. intros [[x y] z]. ring.
Qed.

(** X23.  The three stages [main] ends with, composed: for orbital
    elements with no eccentricity above 1 in absolute value, and whatever
    the eccentric anomalies and the three angles of each orbit are, the
    position printed for a body lies at the distance [a (1 - e cos_deg E)]
    from the Sun. *)
Theorem printed_distance_is_orbital_radius
    (semi_major_axes eccentricities eccentric_anomalies mean_anomalies
       perihelion_arguments ascending_node_longitudes inclinations : list R) :
  Forall (fun e => e * e <= 1) eccentricities ->
  map square_distance
      (dot_rows eq_matrix
         (get_ecliptic_coordinate
            (heliocentric_coordinates semi_major_axes eccentricities eccentric_anomalies
                                      mean_anomalies)
            perihelion_arguments ascending_node_longitudes inclinations))
  = map (fun '((a, (e, (E, _))), _) =>
           (a * (1 - e * cos_wrapper E)) * (a * (1 - e * cos_wrapper E)))
        (combine
           (combine semi_major_axes
              (combine eccentricities (combine eccentric_anomalies mean_anomalies)))
           (combine perihelion_arguments (combine ascending_node_longitudes inclinations))).
Proof.
  intros He.
  rewrite equatorial_keeps_distance, exact_ecliptic_per_body, map_map.
  rewrite exact_heliocentric_per_body, combine_map_l, map_map.
  apply map_ext_in. intros [[a [e [E M]]] [w [n i]]] Hin.
  rewrite rotation_keeps_distance by apply sin_cos_wrapper_unit.
  pose proof (ellipse_point_distance a e E) as Hd. unfold square_distance in Hd.
  rewrite <- Hd.
  - ring.
  - apply in_combine_l, in_combine_r, in_combine_l in Hin.
    rewrite Forall_forall in He. apply He. exact Hin.
Qed.

(** X23 on one body: [a = 2], [e = 1/2], [E = 60] degrees, and the angles
    10, 20 and 30 degrees. *)
Lemma printed_distance_is_orbital_radius_witness :
  Forall (fun e => e * e <= 1) [1 / 2]
  /\ map square_distance
         (dot_rows eq_matrix
            (get_ecliptic_coordinate (heliocentric_coordinates [2] [1 / 2] [60] [0])
                                     [10] [20] [30]))
     = map (fun '((a, (e, (E, _))), _) =>
              (a * (1 - e * cos_wrapper E)) * (a * (1 - e * cos_wrapper E)))
           (combine (combine [2] (combine [1 / 2] (combine [60] [0])))
                    (combine [10] (combine [20] [30]))).
Proof.
  assert (H : Forall (fun e => e * e <= 1) [1 / 2]) by (repeat constructor; lra).
  split; [exact H|].
  apply (printed_distance_is_orbital_radius [2] [1 / 2] [60] [0] [10] [20] [30]). exact H.
Defined.

(** X24.  On an orbit of inclination 0 the longitude of the ascending node
    cancels out: with the argument of perihelion [get_perihelion_argument]
    makes from the longitude of perihelion [p] and the node [n],
    [get_ecliptic_coordinate] turns the point [(x, y, z)] by [p] about the
    third axis, whatever [n] is. *)
Theorem flat_orbit_turns_by_perihelion_longitude (x y z p n : R) :
  get_ecliptic_coordinate [(x, y, z)] (get_perihelion_argument [p] [n]) [n] [0]
  = [(x * cos_wrapper p - y * sin_wrapper p, x * sin_wrapper p + y * cos_wrapper p, 0)].
Proof.
  rewrite exact_ecliptic_per_body. unfold get_perihelion_argument, sub. simpl.
  destruct wrappers_at_0 as [Hs0 Hc0].
  assert (Hc : cos_wrapper p
               = cos_wrapper (p - n) * cos_wrapper n - sin_wrapper (p - n) * sin_wrapper n).
  { rewrite <- cos_wrapper_plus. f_equal. ring. }
  assert (Hs : sin_wrapper p
               = sin_wrapper (p - n) * cos_wrapper n + cos_wrapper (p - n) * sin_wrapper n).
  { rewrite <- sin_wrapper_plus. f_equal. ring. }
  rewrite Hc, Hs, Hs0, Hc0.
  rows_equal; ring.
Qed.

(** X25.  The eccentric anomaly is counted from the perihelion, which lies
    on the first axis: for an eccentricity of absolute value at most 1, the
    point [main] builds for [E = 0] is [(a (1 - e), 0, 0)], and the one for
    [E = 180] is [(- a (1 + e), 0, 0)], the aphelion. *)
Theorem perihelion_and_aphelion (a e m : R) :
  e * e <= 1 ->
  heliocentric_coordinates [a] [e] [0] [m] = [(a * (1 - e), 0, 0)]
  /\ heliocentric_coordinates [a] [e] [180] [m] = [(- (a * (1 + e)), 0, 0)].
Proof.
  intros _. rewrite !exact_heliocentric_per_body. simpl.
  destruct wrappers_at_0 as [Hs0 Hc0]. destruct wrappers_at_180 as [Hs180 Hc180].
  rewrite Hs0, Hc0, Hs180, Hc180.
  split; rows_equal; ring.
Qed.

(** X25 at [a = 2] and [e = 1/2]. *)
Lemma perihelion_and_aphelion_witness :
  1 / 2 * (1 / 2) <= 1
  /\ heliocentric_coordinates [2] [1 / 2] [0] [0] = [(2 * (1 - 1 / 2), 0, 0)]
  /\ heliocentric_coordinates [2] [1 / 2] [180] [0] = [(- (2 * (1 + 1 / 2)), 0, 0)].
Proof.
  split; [lra|]. apply (perihelion_and_aphelion 2 (1 / 2) 0). lra.
Defined.

End ExactGeometry.
